(** * Payment settlement and ordering core: a shallow embedding

    The development embeds [src/modules/payment/payment.service.ts],
    [src/modules/order/order.service.ts], the strategy factory and the
    webhook controller.  Prisma tables are finite maps keyed by the primary
    key, [prisma.$transaction] is a roll-back-on-throw combinator, remote
    payment providers are the functions of an [IPaymentStrategy] record, and
    every service method is a computation in a state-and-exception monad over
    the [World] (database, log of provider calls, id counter). *)

From Stdlib Require Import ZArith Ascii String.
From stdpp Require Import base option list gmap strings pretty.

#[local] Set Warnings "-clear-no-such-hyp".

Local Open Scope string_scope.
Local Open Scope Z_scope.

(** ** Enumerations of the Prisma schema *)

Module OrderStatus.
Inductive t := PENDING | PAID | CANCELED.

Definition toString (s : t) : string :=
  match s with PENDING => "PENDING" | PAID => "PAID" | CANCELED => "CANCELED" end.

Definition eqb (a b : t) : bool :=
  match a, b with
  | PENDING, PENDING | PAID, PAID | CANCELED, CANCELED => true
  | _, _ => false
  end.
End OrderStatus.

Module PaymentStatus.
Inductive t := PENDING | SUCCESS | FAILED.

Definition eqb (a b : t) : bool :=
  match a, b with
  | PENDING, PENDING | SUCCESS, SUCCESS | FAILED, FAILED => true
  | _, _ => false
  end.
End PaymentStatus.

Module PaymentProvider.
Inductive t := STRIPE | BKASH.

Definition toString (p : t) : string :=
  match p with STRIPE => "STRIPE" | BKASH => "BKASH" end.

Definition eqb (a b : t) : bool :=
  match a, b with
  | STRIPE, STRIPE | BKASH, BKASH => true
  | _, _ => false
  end.
End PaymentProvider.

Module ProductStatus.
Inductive t := ACTIVE | INACTIVE.

Definition eqb (a b : t) : bool :=
  match a, b with
  | ACTIVE, ACTIVE | INACTIVE, INACTIVE => true
  | _, _ => false
  end.
End ProductStatus.

(** ** JSON values of the [rawResponse] audit blob *)

#[local] Unset Elimination Schemes.
Inductive Json :=
| JNull
| JBool (b : bool)
| JNumber (n : Z)
| JString (s : string)
| JObject (fields : list (string * Json)).
#[local] Set Elimination Schemes.

(** A property whose value is [undefined] is dropped when the object is
    stored. *)
Definition optField (k : string) (v : option Json) : list (string * Json) :=
  match v with Some j => [(k, j)] | None => [] end.

(** ** Rows of the tables

    Amounts ([Decimal] columns and the numbers derived from them) are
    integers in minor units; [stock] and [quantity] are the [Int] columns. *)

Module Product.
Record t := mk {
  name : string;
  price : Z;
  stock : Z;
  status : ProductStatus.t }.

Definition decrement_stock (q : Z) (p : t) : t :=
  {| name := name p; price := price p; stock := stock p - q; status := status p |}.
End Product.

Module OrderItem.
Record t := mk {
  productId : string;
  quantity : Z;
  price : Z;
  subtotal : Z }.
End OrderItem.

Module Order.
Record t := mk {
  userId : string;
  totalAmount : Z;
  status : OrderStatus.t;
  items : list OrderItem.t }.

Definition set_status (s : OrderStatus.t) (o : t) : t :=
  {| userId := userId o; totalAmount := totalAmount o; status := s; items := items o |}.
End Order.

Module Payment.
Record t := mk {
  orderId : string;
  provider : PaymentProvider.t;
  transactionId : option string;
  status : PaymentStatus.t;
  rawResponse : gmap string Json }.
End Payment.

(** ** Errors ([utils/errors.ts]) *)

Inductive AppError :=
| NotFoundError (message : string)
| ValidationError (message : string)
| PaymentError (message : string)
| InsufficientStockError (message : string)
| ZodError
| PrismaError (message : string)
| TypeError (message : string).

Definition statusCode (e : AppError) : Z :=
  match e with
  | NotFoundError _ => 404
  | ValidationError _ => 400
  | PaymentError _ => 402
  | InsufficientStockError _ => 409
  | ZodError | PrismaError _ | TypeError _ => 500
  end.

Inductive Result (A : Type) :=
| Ok (a : A)
| Throw (e : AppError).
Arguments Ok {A} a.
Arguments Throw {A} e.

(** ** The payment provider abstraction ([IPaymentStrategy]) *)

Record PaymentData := {
  pd_orderId : string;
  pd_amount : Z;
  pd_currency : string;
  pd_userId : string }.

Record PaymentResult := {
  pr_success : bool;
  pr_paymentId : option string;
  pr_clientSecret : option string;
  pr_redirectUrl : option string;
  pr_error : option string }.

Record PaymentVerificationResult := {
  verified : bool;
  vr_transactionId : option string;
  vr_status : option string;
  vr_amount : option Z;
  vr_message : option string }.

Record RefundResult := {
  rr_success : bool;
  rr_refundId : option string }.

Record PaymentIntent := {
  pi_id : string;
  pi_amount : Z;
  pi_status : string;
  pi_last_payment_error : Json }.

Record StripeEvent := {
  ev_type : string;
  ev_object : PaymentIntent }.

Module IPaymentStrategy.
Record t := mk {
  initiatePayment : PaymentData → Result PaymentResult;
  verifyPayment : string → PaymentVerificationResult;
  refundPayment : string → option Z → Result RefundResult;
  (* only the Stripe strategy has it: signature check of a raw payload *)
  constructPaymentIntent : option (string → string → Result StripeEvent) }.
End IPaymentStrategy.

(** What lies outside the program: the two provider strategies, the clock
    and the id generator of the store, the UUID test of the validator, and
    the Unicode lower-casing of the runtime for strings that are not plain
    ASCII. *)
Record Env := {
  stripe : IPaymentStrategy.t;
  bkash : IPaymentStrategy.t;
  now : string;
  uuid : nat → string;
  isUUID : string → bool;
  toLowerCaseUnicode : string → string;
  production : bool }.

(** ** The world: database, provider calls made so far, id counter *)

Record Db := {
  products : gmap string Product.t;
  orders : gmap string Order.t;
  payments : gmap string Payment.t }.

(** Calls made to a payment strategy: the three remote operations and the
    signature check of a webhook payload. *)
Inductive ProviderCall :=
| CallInitiate (provider : string) (data : PaymentData)
| CallVerify (provider : string) (transactionId : string)
| CallRefund (provider : string) (transactionId : string) (amount : option Z)
| CallConstructEvent (payload signature : string).

Record World := {
  db : Db;
  calls : list ProviderCall;
  fresh : nat }.

(** ** State-and-exception monad *)

Definition M (A : Type) : Type := World → Result A * World.

#[global] Instance M_ret : MRet M := λ A a w, (Ok a, w).
#[global] Instance M_bind : MBind M := λ A B k c w,
  match c w with
  | (Ok a, w') => k a w'
  | (Throw e, w') => (Throw e, w')
  end.

Definition withDb (d : Db) (w : World) : World :=
  {| db := d; calls := calls w; fresh := fresh w |}.

Definition throw {A} (e : AppError) : M A := λ w, (Throw e, w).
Definition getDb : M Db := λ w, (Ok (db w), w).
Definition putDb (d : Db) : M unit := λ w, (Ok tt, withDb d w).
Definition logCall (c : ProviderCall) : M unit :=
  λ w, (Ok tt, {| db := db w; calls := calls w ++ [c]; fresh := fresh w |}).
Definition nextId (env : Env) : M string :=
  λ w, (Ok (uuid env (fresh w)), {| db := db w; calls := calls w; fresh := S (fresh w) |}).
Definition liftResult {A} (r : Result A) : M A := λ w, (r, w).

(** [prisma.$transaction]: the writes of a callback that throws are undone;
    what happened outside the store stays. *)
Definition transaction {A} (body : M A) : M A := λ w,
  match body w with
  | (Ok a, w') => (Ok a, w')
  | (Throw e, w') => (Throw e, withDb (db w) w')
  end.

(** ** Store operations *)

Definition set_products (ps : gmap string Product.t) (d : Db) : Db :=
  {| products := ps; orders := orders d; payments := payments d |}.
Definition set_orders (os : gmap string Order.t) (d : Db) : Db :=
  {| products := products d; orders := os; payments := payments d |}.
Definition set_payments (ps : gmap string Payment.t) (d : Db) : Db :=
  {| products := products d; orders := orders d; payments := ps |}.

Definition recordNotFound : AppError := PrismaError "Record to update not found".

(** [product.update({ where: { id }, data: { stock: { decrement: q } } })] *)
Definition product_decrement (id : string) (q : Z) : M unit :=
  d ← getDb;
  match products d !! id with
  | Some p => putDb (set_products (<[id := Product.decrement_stock q p]> (products d)) d)
  | None => throw recordNotFound
  end.

(** [order.update({ where: { id }, data: { status } })] *)
Definition order_update_status (id : string) (s : OrderStatus.t) : M Order.t :=
  d ← getDb;
  match orders d !! id with
  | Some o =>
      putDb (set_orders (<[id := Order.set_status s o]> (orders d)) d);;
      mret (Order.set_status s o)
  | None => throw recordNotFound
  end.

(** [payment.update({ where: { id }, data })] with the new row computed from
    the stored one. *)
Definition payment_update (id : string) (f : Payment.t → Payment.t) : M Payment.t :=
  d ← getDb;
  match payments d !! id with
  | Some p =>
      putDb (set_payments (<[id := f p]> (payments d)) d);;
      mret (f p)
  | None => throw recordNotFound
  end.

(** [payment.findFirst({ where: { transactionId } })] *)
Definition has_transactionId (tid : string) (r : string * Payment.t) : bool :=
  match Payment.transactionId r.2 with
  | Some t => String.eqb t tid
  | None => false
  end.

Definition payment_findFirst (tid : string) (d : Db) : option (string * Payment.t) :=
  List.find (has_transactionId tid) (map_to_list (payments d)).

(** [order.payments] of [include: { payments: true }] *)
Definition payments_of_order (oid : string) (d : Db) : list (string * Payment.t) :=
  List.filter (λ r, String.eqb (Payment.orderId r.2) oid) (map_to_list (payments d)).

(** ** Provider registry ([PaymentStrategyFactory])

    The cache of instantiated strategies only saves construction; the
    strategy a name resolves to is the same with and without it. *)

Definition toLowerAscii (c : ascii) : ascii :=
  let n := nat_of_ascii c in
  if ((65 <=? n) && (n <=? 90))%nat then ascii_of_nat (n + 32) else c.

Fixpoint asciiLowerCase (s : string) : string :=
  match s with
  | EmptyString => EmptyString
  | String c r => String (toLowerAscii c) (asciiLowerCase r)
  end.

(** Every byte of the string is an ASCII character. *)
Fixpoint isAscii (s : string) : bool :=
  match s with
  | EmptyString => true
  | String c r => (nat_of_ascii c <? 128)%nat && isAscii r
  end.

(** [s.toLowerCase()].  A string is its UTF-8 bytes.  On a string of ASCII
    characters the method maps A-Z to a-z and keeps the rest; on a string
    with other characters it is the Unicode lower-casing of the runtime
    (which sends the Kelvin sign U+212A to the letter k, for one), taken
    from the environment. *)
Definition toLowerCase (env : Env) (s : string) : string :=
  if isAscii s then asciiLowerCase s else toLowerCaseUnicode env s.

Module PaymentStrategyFactory.
Definition getStrategy (env : Env) (provider : string)
  : Result (string * IPaymentStrategy.t) :=
  let normalizedProvider := toLowerCase env provider in
  if String.eqb normalizedProvider "stripe" then Ok (normalizedProvider, stripe env)
  else if String.eqb normalizedProvider "bkash" then Ok (normalizedProvider, bkash env)
  else Throw (ValidationError
    ("Unsupported payment provider: " +:+ provider +:+
     ". Supported providers: stripe, bkash")).
End PaymentStrategyFactory.

(** ** JavaScript truthiness of the values the services test *)

Definition truthy (s : option string) : bool :=
  match s with
  | Some t => negb (String.eqb t EmptyString)
  | None => false
  end.

(** [a || b] on optional strings *)
Definition orElse (a b : option string) : option string :=
  if truthy a then a else b.

(** [amount || fallback] on an optional number *)
Definition amountOr (amount : option Z) (fallback : Z) : Z :=
  match amount with
  | Some a => if (a =? 0)%Z then fallback else a
  | None => fallback
  end.

Definition jsonOfOptString (s : option string) : option Json := JString <$> s.

Definition jsonOfVerification (v : PaymentVerificationResult) : Json :=
  JObject ([("verified", JBool (verified v))]
    ++ optField "transactionId" (jsonOfOptString (vr_transactionId v))
    ++ optField "status" (jsonOfOptString (vr_status v))
    ++ optField "amount" (JNumber <$> vr_amount v)
    ++ optField "message" (jsonOfOptString (vr_message v))).

(** [{ ...raw, k1: v1, ... }] as it is stored: later keys win, and a key
    whose value is [undefined] is absent from the stored object. *)
Definition setField (m : gmap string Json) (kv : string * option Json)
  : gmap string Json :=
  match kv.2 with
  | Some j => <[kv.1 := j]> m
  | None => delete kv.1 m
  end.

Definition spread (raw : gmap string Json) (fields : list (string * option Json))
  : gmap string Json :=
  fold_left setField fields raw.
Arguments spread : simpl never.

Definition dquote : string := String (ascii_of_nat 34) EmptyString.

Definition insufficientStockMessage (name : string) (available required : Z) : string :=
  "Insufficient stock for product " +:+ name +:+ ". Available: " +:+ pretty available
  +:+ ", Required: " +:+ pretty required.

(** ** PaymentService *)

Module PaymentService.
Section WithEnv.
Variable env : Env.

Definition currencyOf (provider : string) : string :=
  if String.eqb (toLowerCase env provider) "bkash" then "BDT" else "USD".

Definition providerOf (provider : string) : PaymentProvider.t :=
  if String.eqb (toLowerCase env provider) "bkash"
  then PaymentProvider.BKASH else PaymentProvider.STRIPE.

Record InitiateResponse := {
  ir_paymentId : string;
  ir_clientSecret : option string;
  ir_redirectUrl : option string }.

(** [payment.create]: the primary key is generated by the store *)
Definition payment_create (p : Payment.t) : M string :=
  id ← nextId env;
  d ← getDb;
  match payments d !! id with
  | Some _ => throw (PrismaError "Unique constraint failed")
  | None => putDb (set_payments (<[id := p]> (payments d)) d);; mret id
  end.

Definition initiatePayment (orderId : string) (providerArg : option string)
  : M InitiateResponse :=
  let provider := default "stripe" providerArg in   (* provider = 'stripe' *)
  d ← getDb;
  match orders d !! orderId with
  | None => throw (NotFoundError ("Order " +:+ orderId +:+ " not found"))
  | Some order =>
      if (0 <? length (payments_of_order orderId d))%nat
      then throw (PaymentError "Payment already initiated for this order")
      else
        '(name, strategy) ← liftResult (PaymentStrategyFactory.getStrategy env provider);
        let data := {| pd_orderId := orderId;
                       pd_amount := Order.totalAmount order;
                       pd_currency := currencyOf provider;
                       pd_userId := Order.userId order |} in
        logCall (CallInitiate name data);;
        result ← liftResult (IPaymentStrategy.initiatePayment strategy data);
        if negb (pr_success result)
        then throw (PaymentError
               (default "Payment initiation failed"
                  (orElse (pr_error result) None)))
        else
          paymentId ← payment_create
            {| Payment.orderId := orderId;
               Payment.provider := providerOf provider;
               Payment.transactionId := pr_paymentId result;
               Payment.status := PaymentStatus.PENDING;
               Payment.rawResponse :=
                 spread ∅
                   [("clientSecret", jsonOfOptString (pr_clientSecret result));
                    ("redirectUrl", jsonOfOptString (pr_redirectUrl result))] |};
          mret {| ir_paymentId := paymentId;
                  ir_clientSecret := pr_clientSecret result;
                  ir_redirectUrl := pr_redirectUrl result |}
  end.

(** The loop body of [reduceStock]: the product rows are the ones loaded
    with the order before the loop, the decrement acts on the stored row. *)
Fixpoint reduceStock_loop (snapshot : gmap string Product.t)
    (items : list OrderItem.t) : M unit :=
  match items with
  | [] => mret tt
  | item :: rest =>
      match snapshot !! OrderItem.productId item with
      | None => throw (PaymentError
                  ("Product " +:+ OrderItem.productId item +:+ " not found"))
      | Some product =>
          if (Product.stock product <? OrderItem.quantity item)%Z
          then throw (PaymentError
                 (insufficientStockMessage (Product.name product)
                    (Product.stock product) (OrderItem.quantity item)))
          else
            product_decrement (OrderItem.productId item) (OrderItem.quantity item);;
            reduceStock_loop snapshot rest
      end
  end.

Definition reduceStock (orderId : string) : M unit :=
  d ← getDb;
  match orders d !! orderId with
  | None => throw (PaymentError
              ("Order " +:+ orderId +:+ " not found for stock reduction"))
  | Some order => reduceStock_loop (products d) (Order.items order)
  end.

Definition verifyPayment (paymentId : string) : M Payment.t :=
  d ← getDb;
  match payments d !! paymentId with
  | None => throw (NotFoundError ("Payment " +:+ paymentId +:+ " not found"))
  | Some payment =>
      if negb (truthy (Payment.transactionId payment))
      then throw (PaymentError "Transaction ID not found")
      else
        let transactionId := default EmptyString (Payment.transactionId payment) in
        '(name, strategy) ← liftResult
          (PaymentStrategyFactory.getStrategy env
             (toLowerCase env (PaymentProvider.toString (Payment.provider payment))));
        logCall (CallVerify name transactionId);;
        let verification := IPaymentStrategy.verifyPayment strategy transactionId in
        transaction (
          let newStatus := if verified verification
                           then PaymentStatus.SUCCESS else PaymentStatus.FAILED in
          updated ← payment_update paymentId (λ stored,
            {| Payment.orderId := Payment.orderId stored;
               Payment.provider := Payment.provider stored;
               Payment.transactionId :=
                 orElse (vr_transactionId verification) (Payment.transactionId payment);
               Payment.status := newStatus;
               Payment.rawResponse :=
                 spread (Payment.rawResponse payment)
                   [("verificationResult", Some (jsonOfVerification verification));
                    ("verifiedAt", Some (JString (now env)))] |});
          (if verified verification
           then
             order_update_status (Payment.orderId payment) OrderStatus.PAID;;
             (* Reduce stock for bKash payments (no webhooks) *)
             if PaymentProvider.eqb (Payment.provider payment) PaymentProvider.BKASH
             then reduceStock (Payment.orderId payment)
             else mret tt
           else mret tt);;
          mret updated)
  end.

Definition refundPayment (paymentId : string) (amount : option Z) : M Payment.t :=
  d ← getDb;
  match payments d !! paymentId with
  | None => throw (NotFoundError ("Payment " +:+ paymentId +:+ " not found"))
  | Some payment =>
      if negb (PaymentStatus.eqb (Payment.status payment) PaymentStatus.SUCCESS)
      then throw (PaymentError "Can only refund successful payments")
      else if negb (truthy (Payment.transactionId payment))
      then throw (PaymentError "Transaction ID not found")
      else
        let transactionId := default EmptyString (Payment.transactionId payment) in
        '(name, strategy) ← liftResult
          (PaymentStrategyFactory.getStrategy env
             (toLowerCase env (PaymentProvider.toString (Payment.provider payment))));
        logCall (CallRefund name transactionId amount);;
        result ← liftResult
          (IPaymentStrategy.refundPayment strategy transactionId amount);
        if negb (rr_success result)
        then throw (PaymentError "Refund processing failed")
        else
          (* [payment.order] is the row loaded with the payment *)
          match orders d !! Payment.orderId payment with
          | None => throw (TypeError "Cannot read properties of null")
          | Some order =>
              payment_update paymentId (λ stored,
                {| Payment.orderId := Payment.orderId stored;
                   Payment.provider := Payment.provider stored;
                   Payment.transactionId := Payment.transactionId stored;
                   Payment.status := PaymentStatus.FAILED; (* Mark as failed after refund *)
                   Payment.rawResponse :=
                     spread (Payment.rawResponse payment)
                       [("refundId", jsonOfOptString (rr_refundId result));
                        ("refundedAt", Some (JString (now env)));
                        ("refundAmount",
                         Some (JNumber (amountOr amount (Order.totalAmount order))))] |})
          end
  end.

(** The loop of [handlePaymentSuccess]: every product is read again inside
    the transaction before its stock is tested and decremented. *)
Fixpoint handlePaymentSuccess_loop (items : list OrderItem.t) : M unit :=
  match items with
  | [] => mret tt
  | item :: rest =>
      d ← getDb;
      match products d !! OrderItem.productId item with
      | None => throw (PaymentError
                  ("Product " +:+ OrderItem.productId item +:+ " not found"))
      | Some product =>
          if (Product.stock product <? OrderItem.quantity item)%Z
          then throw (PaymentError
                 (insufficientStockMessage (Product.name product)
                    (Product.stock product) (OrderItem.quantity item)))
          else
            product_decrement (OrderItem.productId item) (OrderItem.quantity item);;
            handlePaymentSuccess_loop rest
      end
  end.

Definition webhookEvent (fields : list (string * Json))
  : list (string * option Json) :=
  [("webhookEvent", Some (JObject fields))].

Definition handlePaymentSuccess (paymentIntent : PaymentIntent) : M unit :=
  let transactionId := pi_id paymentIntent in
  d ← getDb;
  match payment_findFirst transactionId d with
  | None => mret tt            (* Payment not found: logged, nothing done *)
  | Some (paymentId, payment) =>
      (* Skip if already processed *)
      if PaymentStatus.eqb (Payment.status payment) PaymentStatus.SUCCESS
      then mret tt
      else
        transaction (
          payment_update paymentId (λ stored,
            {| Payment.orderId := Payment.orderId stored;
               Payment.provider := Payment.provider stored;
               Payment.transactionId := Payment.transactionId stored;
               Payment.status := PaymentStatus.SUCCESS;
               Payment.rawResponse :=
                 spread (Payment.rawResponse payment)
                   (webhookEvent
                      [("type", JString "payment_intent.succeeded");
                       ("amount", JNumber (pi_amount paymentIntent));
                       ("status", JString (pi_status paymentIntent));
                       ("processedAt", JString (now env))]) |});;
          order_update_status (Payment.orderId payment) OrderStatus.PAID;;
          match orders d !! Payment.orderId payment with
          | None => throw (TypeError "Cannot read properties of null")
          | Some order => handlePaymentSuccess_loop (Order.items order)
          end)
  end.

Definition handlePaymentFailed (paymentIntent : PaymentIntent) : M unit :=
  let transactionId := pi_id paymentIntent in
  d ← getDb;
  match payment_findFirst transactionId d with
  | None => mret tt
  | Some (paymentId, payment) =>
      payment_update paymentId (λ stored,
        {| Payment.orderId := Payment.orderId stored;
           Payment.provider := Payment.provider stored;
           Payment.transactionId := Payment.transactionId stored;
           Payment.status := PaymentStatus.FAILED;
           Payment.rawResponse :=
             spread (Payment.rawResponse payment)
               (webhookEvent
                  [("type", JString "payment_intent.payment_failed");
                   ("error", pi_last_payment_error paymentIntent);
                   ("processedAt", JString (now env))]) |});;
      mret tt
  end.

Definition handlePaymentCanceled (paymentIntent : PaymentIntent) : M unit :=
  let transactionId := pi_id paymentIntent in
  d ← getDb;
  match payment_findFirst transactionId d with
  | None => mret tt
  | Some (paymentId, payment) =>
      transaction (
        payment_update paymentId (λ stored,
          {| Payment.orderId := Payment.orderId stored;
             Payment.provider := Payment.provider stored;
             Payment.transactionId := Payment.transactionId stored;
             Payment.status := PaymentStatus.FAILED;
             Payment.rawResponse :=
               spread (Payment.rawResponse payment)
                 (webhookEvent
                    [("type", JString "payment_intent.canceled");
                     ("processedAt", JString (now env))]) |});;
        order_update_status (Payment.orderId payment) OrderStatus.CANCELED;;
        mret tt)
  end.

Record WebhookAck := { received : bool }.

Definition handleStripeWebhook (payload signature : string) : M WebhookAck :=
  '(_, strategy) ← liftResult (PaymentStrategyFactory.getStrategy env "stripe");
  match IPaymentStrategy.constructPaymentIntent strategy with
  | None => throw (PaymentError "Invalid payment strategy for webhook handling")
  | Some constructPaymentIntent =>
      logCall (CallConstructEvent payload signature);;
      event ← liftResult (constructPaymentIntent payload signature);
      (if String.eqb (ev_type event) "payment_intent.succeeded"
       then handlePaymentSuccess (ev_object event)
       else if String.eqb (ev_type event) "payment_intent.payment_failed"
       then handlePaymentFailed (ev_object event)
       else if String.eqb (ev_type event) "payment_intent.canceled"
       then handlePaymentCanceled (ev_object event)
       else mret tt);;
      mret {| received := true |}
  end.
End WithEnv.
End PaymentService.

(** ** PaymentController.webhook and the error middleware *)

Inductive ResponseBody :=
| BodyReceived (received : bool)
| BodyFailure (message : string).

Record HttpResponse := {
  http_status : Z;
  http_body : ResponseBody }.

Definition errorMessage (e : AppError) : string :=
  match e with
  | NotFoundError m | ValidationError m | PaymentError m
  | InsufficientStockError m | PrismaError m | TypeError m => m
  | ZodError => "Validation failed"
  end.

Definition errorMiddleware (env : Env) (e : AppError) : HttpResponse :=
  match e with
  | NotFoundError _ | ValidationError _ | PaymentError _ | InsufficientStockError _ =>
      {| http_status := statusCode e; http_body := BodyFailure (errorMessage e) |}
  | ZodError | PrismaError _ | TypeError _ =>
      {| http_status := 500;
         http_body := BodyFailure (if production env then "Internal server error"
                                   else errorMessage e) |}
  end.

Module PaymentController.
(** [signature] is the [stripe-signature] header, [payload] the raw body *)
Definition webhook (env : Env) (signature : option string) (payload : string)
  : World → HttpResponse * World := λ w,
  if negb (truthy signature)
  then ({| http_status := 400;
           http_body := BodyFailure "Missing stripe-signature header" |}, w)
  else
    match PaymentService.handleStripeWebhook env payload (default EmptyString signature) w with
    | (Ok _, w') => ({| http_status := 200; http_body := BodyReceived true |}, w')
    | (Throw e, w') => (errorMiddleware env e, w')
    end.
End PaymentController.

(** ** OrderService *)

Record OrderItemDTO := {
  dto_productId : string;
  dto_quantity : Z }.

Record CreateOrderDTO := { dto_items : list OrderItemDTO }.

Module OrderService.
Section WithEnv.
Variable env : Env.

(** [orderItemSchema]: a UUID and a positive integer *)
Definition orderItemSchema (item : OrderItemDTO) : bool :=
  isUUID env (dto_productId item) && (0 <? dto_quantity item)%Z.

(** [createOrderSchema.parse] *)
Definition createOrderSchema_parse (data : CreateOrderDTO) : Result CreateOrderDTO :=
  if forallb orderItemSchema (dto_items data) && (1 <=? length (dto_items data))%nat
  then Ok data else Throw ZodError.

(** [product.findMany({ where: { id: { in: productIds } } })] *)
Definition product_findMany (productIds : list string) (d : Db)
  : list (string * Product.t) :=
  map_to_list (filter (λ r : string * Product.t, r.1 ∈ productIds) (products d)).

Definition insufficientStockRequested (name : string) (available requested : Z)
  : string :=
  "Insufficient stock for " +:+ dquote +:+ name +:+ dquote +:+ ". Available: "
  +:+ pretty available
  +:+ ", Requested: " +:+ pretty requested.

(** [price.multiply(quantity)].  [price] is a [Decimal] of Prisma, the class
    of decimal.js: it has [mul] and [times] and no method [multiply], so the
    call throws. *)
Definition Decimal_multiply (price quantity : Z) : Result Z :=
  Throw (TypeError "price.multiply is not a function").

(** The validation loop of [createOrder]; [acc] is [totalAmount] and the
    [orderItems] pushed so far. *)
Fixpoint createOrder_loop (productMap : gmap string Product.t)
    (items : list OrderItemDTO) (acc : Z * list OrderItem.t)
  : Result (Z * list OrderItem.t) :=
  match items with
  | [] => Ok acc
  | item :: rest =>
      match productMap !! dto_productId item with
      | None => Throw (NotFoundError
                  ("Product " +:+ dto_productId item +:+ " not found"))
      | Some product =>
          (* Validate product is active *)
          if negb (ProductStatus.eqb (Product.status product) ProductStatus.ACTIVE)
          then Throw (ValidationError
                 ("Product " +:+ dquote +:+ Product.name product +:+ dquote
                  +:+ " is not available"))
          (* Validate stock is available (informational only - stock not reduced) *)
          else if (Product.stock product <? dto_quantity item)%Z
          then Throw (InsufficientStockError
                 (insufficientStockRequested (Product.name product)
                    (Product.stock product) (dto_quantity item)))
          else
            (* Calculate subtotal deterministically: price * quantity *)
            let price := Product.price product in
            match Decimal_multiply price (dto_quantity item) with
            | Throw e => Throw e
            | Ok subtotal =>
                createOrder_loop productMap rest
                  ((acc.1 + subtotal)%Z,
                   (acc.2 ++ [ {| OrderItem.productId := dto_productId item;
                                  OrderItem.quantity := dto_quantity item;
                                  OrderItem.price := price;
                                  OrderItem.subtotal := subtotal |} ])%list)
            end
      end
  end.

(** [order.create]: the primary key is generated by the store *)
Definition order_create (o : Order.t) : M (string * Order.t) :=
  id ← nextId env;
  d ← getDb;
  match orders d !! id with
  | Some _ => throw (PrismaError "Unique constraint failed")
  | None => putDb (set_orders (<[id := o]> (orders d)) d);; mret (id, o)
  end.

Definition createOrder (userId : string) (data : CreateOrderDTO)
  : M (string * Order.t) :=
  validated ← liftResult (createOrderSchema_parse data);
  if (length (dto_items validated) =? 0)%nat
  then throw (ValidationError "Order must contain at least one item")
  else
    transaction (
      d ← getDb;
      let productIds := dto_productId <$> dto_items validated in
      let products := product_findMany productIds d in
      if negb (length products =? length productIds)%nat
      then throw (NotFoundError "One or more products not found")
      else
        let productMap : gmap string Product.t := list_to_map products in
        '(totalAmount, orderItems) ← liftResult
          (createOrder_loop productMap (dto_items validated) (0%Z, []));
        order_create {| Order.userId := userId;
                        Order.totalAmount := totalAmount;
                        Order.status := OrderStatus.PENDING;
                        Order.items := orderItems |}).

Definition getOrderById (orderId : string) : M Order.t :=
  d ← getDb;
  match orders d !! orderId with
  | None => throw (NotFoundError ("Order " +:+ orderId +:+ " not found"))
  | Some order => mret order
  end.

Definition validTransitions (s : OrderStatus.t) : list OrderStatus.t :=
  match s with
  | OrderStatus.PENDING => [OrderStatus.PAID; OrderStatus.CANCELED]
  | OrderStatus.PAID => [OrderStatus.PENDING; OrderStatus.CANCELED]
  | OrderStatus.CANCELED => []
  end.

Definition includes (l : list OrderStatus.t) (s : OrderStatus.t) : bool :=
  existsb (OrderStatus.eqb s) l.

Definition updateOrderStatus (orderId : string) (status : OrderStatus.t)
  : M Order.t :=
  order ← getOrderById orderId;
  if negb (includes (validTransitions (Order.status order)) status)
  then throw (ValidationError
         ("Cannot transition order from " +:+ OrderStatus.toString (Order.status order)
          +:+ " to " +:+ OrderStatus.toString status))
  else order_update_status orderId status.

Definition cancelOrder (orderId : string) : M Order.t :=
  order ← getOrderById orderId;
  if negb (OrderStatus.eqb (Order.status order) OrderStatus.PENDING)
  then throw (ValidationError
         ("Cannot cancel order with status " +:+ OrderStatus.toString (Order.status order)
          +:+ ". Only PENDING orders can be cancelled."))
  else order_update_status orderId OrderStatus.CANCELED.
End WithEnv.
End OrderService.

(** ** A concrete environment and store for running the model *)

Module Sample.
Definition verification (ok : bool) (tid : string) : PaymentVerificationResult :=
  {| verified := ok; vr_transactionId := Some tid; vr_status := None;
     vr_amount := None; vr_message := None |}.

(** The sample payloads read [type] or [type:transactionId]. *)
Fixpoint cut (s : string) : string * option string :=
  match s with
  | EmptyString => (EmptyString, None)
  | String c r =>
      if Ascii.eqb c ":"%char then (EmptyString, Some r)
      else let '(a, b) := cut r in (String c a, b)
  end.

Definition strategy (ok : bool) (signed : bool) : IPaymentStrategy.t :=
  {| IPaymentStrategy.initiatePayment := λ data,
       Ok {| pr_success := true; pr_paymentId := Some ("pi_" +:+ pd_orderId data);
             pr_clientSecret := Some "secret"; pr_redirectUrl := None;
             pr_error := None |};
     IPaymentStrategy.verifyPayment := verification ok;
     IPaymentStrategy.refundPayment := λ tid amount,
       Ok {| rr_success := true; rr_refundId := Some ("re_" +:+ tid) |};
     IPaymentStrategy.constructPaymentIntent :=
       if signed
       then Some (λ payload signature,
              if String.eqb signature "valid"
              then Ok {| ev_type := (cut payload).1;
                         ev_object := {| pi_id := default "pi_1" (cut payload).2;
                                         pi_amount := 3000;
                                         pi_status := "succeeded";
                                         pi_last_payment_error := JNull |} |}
              else Throw (PaymentError "Invalid webhook signature"))
       else None |}.

Definition isHexDigit (c : ascii) : bool :=
  let n := nat_of_ascii c in
  ((48 <=? n) && (n <=? 57) || (65 <=? n) && (n <=? 70)
   || (97 <=? n) && (n <=? 102))%nat.

(** [n] hexadecimal digits, then the rest of the string. *)
Fixpoint hexDigits (n : nat) (s : string) : option string :=
  match n, s with
  | O, _ => Some s
  | S m, String c r => if isHexDigit c then hexDigits m r else None
  | S _, EmptyString => None
  end.

Definition hyphen (s : string) : option string :=
  match s with
  | String c r => if Ascii.eqb c "-"%char then Some r else None
  | EmptyString => None
  end.

(** The shape 8-4-4-4-12 of hexadecimal digits. *)
Definition uuidShape (s : string) : bool :=
  match fold_left (λ (rest : option string) (part : string → option string),
                     rest ≫= part)
          [hexDigits 8; hyphen; hexDigits 4; hyphen; hexDigits 4; hyphen;
           hexDigits 4; hyphen; hexDigits 12]
          (Some s) with
  | Some EmptyString => true
  | _ => false
  end.


(** Lower-casing for strings whose characters outside ASCII are Kelvin
    signs or have no upper case: the Kelvin sign becomes k, A-Z become a-z. *)
Fixpoint lowerWithKelvin (s : string) : string :=
  match s with
  | String a (String b (String c r) as r2) =>
      if (Ascii.eqb a (ascii_of_nat 226) && Ascii.eqb b (ascii_of_nat 132)
          && Ascii.eqb c (ascii_of_nat 170))%bool
      then String "k"%char (lowerWithKelvin r)
      else String (toLowerAscii a) (lowerWithKelvin r2)
  | String a r => String (toLowerAscii a) (lowerWithKelvin r)
  | EmptyString => EmptyString
  end.

(** Both providers report every payment as paid. *)
Definition env : Env :=
  {| stripe := strategy true true;
     bkash := strategy true false;
     now := "2026-01-01T12:00:00.000Z";
     uuid := λ n, "id-" +:+ pretty n;
     isUUID := uuidShape;
     toLowerCaseUnicode := lowerWithKelvin;
     production := false |}.

Definition widget (stock : Z) : Product.t :=
  {| Product.name := "Widget"; Product.price := 1000; Product.stock := stock;
     Product.status := ProductStatus.ACTIVE |}.

Definition line (pid : string) (q : Z) : OrderItem.t :=
  {| OrderItem.productId := pid; OrderItem.quantity := q;
     OrderItem.price := 1000; OrderItem.subtotal := 1000 * q |}.

Definition order (st : OrderStatus.t) (items : list OrderItem.t) : Order.t :=
  {| Order.userId := "user-1"; Order.totalAmount := 3000; Order.status := st;
     Order.items := items |}.

Definition payment (prov : PaymentProvider.t) (st : PaymentStatus.t) : Payment.t :=
  {| Payment.orderId := "order-1"; Payment.provider := prov;
     Payment.transactionId := Some "pi_1"; Payment.status := st;
     Payment.rawResponse := ∅ |}.

(** One product [p1] with the given stock, one order [order-1] of [q]
    units of it, one payment [pay-1] with transaction id [pi_1]. *)
Definition world (stock q : Z) (ost : OrderStatus.t)
    (prov : PaymentProvider.t) (pst : PaymentStatus.t) : World :=
  {| db := {| products := {[ "p1" := widget stock ]};
              orders := {[ "order-1" := order ost [line "p1" q] ]};
              payments := {[ "pay-1" := payment prov pst ]} |};
     calls := [];
     fresh := 0 |}.

Definition succeeded : PaymentIntent :=
  {| pi_id := "pi_1"; pi_amount := 3000; pi_status := "succeeded";
     pi_last_payment_error := JNull |}.

(** Two products with 10 units each; [order-1] asks for 3 of [p1], then 20
    of [p2]; its STRIPE payment is PENDING. *)
Definition twoLines : list OrderItem.t := [line "p1" 3; line "p2" 20].

Definition world2 : World :=
  {| db := {| products := {[ "p1" := widget 10; "p2" := widget 10 ]};
              orders := {[ "order-1" := order OrderStatus.PENDING twoLines ]};
              payments := {[ "pay-1" := payment PaymentProvider.STRIPE
                                          PaymentStatus.PENDING ]} |};
     calls := [];
     fresh := 0 |}.
End Sample.

(** * Vocabulary of the statements *)

(** Units of product [pid] ordered by the line items. *)
Definition orderedQuantity (items : list OrderItem.t) (pid : string) : Z :=
  foldr (λ item acc,
    (if decide (OrderItem.productId item = pid) then OrderItem.quantity item else 0) + acc)
    0 items.

(** The products table after every line item has been decremented. *)
Definition decrementAll (items : list OrderItem.t) (ps : gmap string Product.t)
  : gmap string Product.t :=
  fold_left (λ m item,
    alter (Product.decrement_stock (OrderItem.quantity item)) (OrderItem.productId item) m)
    items ps.

(** Every ordered product exists and holds at least the units ordered of
    it; with one line per product this is [stock >= quantity] per line. *)
Definition sufficientStock (ps : gmap string Product.t) (items : list OrderItem.t) : Prop :=
  ∀ item, item ∈ items →
    ∃ p, ps !! OrderItem.productId item = Some p
         ∧ orderedQuantity items (OrderItem.productId item) ≤ Product.stock p.

Definition positiveQuantities (items : list OrderItem.t) : Prop :=
  ∀ item, item ∈ items → 0 < OrderItem.quantity item.

(** The [@unique] constraint on [Payment.transactionId]. *)
Definition transactionId_unique (d : Db) : Prop :=
  ∀ k1 k2 p1 p2 tid,
    payments d !! k1 = Some p1 → payments d !! k2 = Some p2 →
    Payment.transactionId p1 = Some tid → Payment.transactionId p2 = Some tid →
    k1 = k2.

Definition paymentStatusOf (w : World) (paymentId : string) : option PaymentStatus.t :=
  Payment.status <$> payments (db w) !! paymentId.

Definition orderStatusOf (w : World) (orderId : string) : option OrderStatus.t :=
  Order.status <$> orders (db w) !! orderId.

Definition stockOf (w : World) (productId : string) : option Z :=
  Product.stock <$> products (db w) !! productId.

Definition logged (c : ProviderCall) (w : World) : World :=
  {| db := db w; calls := calls w ++ [c]; fresh := fresh w |}.

(** The payload and signature pass the Stripe strategy's signature check
    and yield [event]. *)
Definition signedEvent (env : Env) (payload signature : string) (event : StripeEvent)
  : Prop :=
  ∃ construct,
    IPaymentStrategy.constructPaymentIntent (stripe env) = Some construct
    ∧ construct payload signature = Ok event.

Definition strategyOf (env : Env) (p : PaymentProvider.t) : IPaymentStrategy.t :=
  match p with
  | PaymentProvider.STRIPE => stripe env
  | PaymentProvider.BKASH => bkash env
  end.

Definition providerName (p : PaymentProvider.t) : string :=
  asciiLowerCase (PaymentProvider.toString p).

(** The webhook entry point hands a verified event to its handler. *)
Definition dispatch (env : Env) (event : StripeEvent) : M unit :=
  if String.eqb (ev_type event) "payment_intent.succeeded"
  then PaymentService.handlePaymentSuccess env (ev_object event)
  else if String.eqb (ev_type event) "payment_intent.payment_failed"
  then PaymentService.handlePaymentFailed env (ev_object event)
  else if String.eqb (ev_type event) "payment_intent.canceled"
  then PaymentService.handlePaymentCanceled env (ev_object event)
  else mret tt.

(** The row [verifyPayment] writes for a payment and a verification result. *)
Definition verifiedPayment (env : Env) (pay : Payment.t) (v : PaymentVerificationResult)
  : Payment.t :=
  {| Payment.orderId := Payment.orderId pay;
     Payment.provider := Payment.provider pay;
     Payment.transactionId := orElse (vr_transactionId v) (Payment.transactionId pay);
     Payment.status := if verified v then PaymentStatus.SUCCESS else PaymentStatus.FAILED;
     Payment.rawResponse :=
       spread (Payment.rawResponse pay)
         [("verificationResult", Some (jsonOfVerification v));
          ("verifiedAt", Some (JString (now env)))] |}.

(** The transaction body of [verifyPayment]. *)
Definition verifyPayment_body (env : Env) (paymentId : string) (pay : Payment.t)
    (v : PaymentVerificationResult) : M Payment.t :=
  updated ← payment_update paymentId (λ stored,
    {| Payment.orderId := Payment.orderId stored;
       Payment.provider := Payment.provider stored;
       Payment.transactionId := orElse (vr_transactionId v) (Payment.transactionId pay);
       Payment.status := if verified v then PaymentStatus.SUCCESS else PaymentStatus.FAILED;
       Payment.rawResponse :=
         spread (Payment.rawResponse pay)
           [("verificationResult", Some (jsonOfVerification v));
            ("verifiedAt", Some (JString (now env)))] |});
  (if verified v
   then
     order_update_status (Payment.orderId pay) OrderStatus.PAID;;
     if PaymentProvider.eqb (Payment.provider pay) PaymentProvider.BKASH
     then PaymentService.reduceStock (Payment.orderId pay)
     else mret tt
   else mret tt);;
  mret updated.

(** Payment [paymentId] is SUCCESS and order [orderId] is PAID. *)
Definition settled (w' : World) (paymentId orderId : string) : Prop :=
  paymentStatusOf w' paymentId = Some PaymentStatus.SUCCESS
  ∧ orderStatusOf w' orderId = Some OrderStatus.PAID.

(** From [w] to [w'] every product lost exactly the units the line items
    order of it (nothing, for a product that is not ordered). *)
Definition decrementedOnce (items : list OrderItem.t) (w w' : World) : Prop :=
  ∀ k, stockOf w' k = (λ s, s - orderedQuantity items k) <$> stockOf w k.

Definition stockUnchanged (w w' : World) : Prop :=
  ∀ k, stockOf w' k = stockOf w k.

(** The transition table in the words of the specification:
    PENDING -> {PAID, CANCELED}; PAID -> {PENDING, CANCELED}; CANCELED -> {}. *)
Definition permittedTransition (current requested : OrderStatus.t) : Prop :=
  match current with
  | OrderStatus.PENDING =>
      requested = OrderStatus.PAID ∨ requested = OrderStatus.CANCELED
  | OrderStatus.PAID =>
      requested = OrderStatus.PENDING ∨ requested = OrderStatus.CANCELED
  | OrderStatus.CANCELED => False
  end.

(** The row [refundPayment] writes. *)
Definition refundedPayment (env : Env) (pay : Payment.t) (o : Order.t)
    (amount : option Z) (result : RefundResult) : Payment.t :=
  {| Payment.orderId := Payment.orderId pay;
     Payment.provider := Payment.provider pay;
     Payment.transactionId := Payment.transactionId pay;
     Payment.status := PaymentStatus.FAILED;
     Payment.rawResponse :=
       spread (Payment.rawResponse pay)
         [("refundId", jsonOfOptString (rr_refundId result));
          ("refundedAt", Some (JString (now env)));
          ("refundAmount", Some (JNumber (amountOr amount (Order.totalAmount o))))] |}.

(** The row the failure handlers write. *)
Definition failedPayment (pay : Payment.t) (fields : list (string * Json)) : Payment.t :=
  {| Payment.orderId := Payment.orderId pay;
     Payment.provider := Payment.provider pay;
     Payment.transactionId := Payment.transactionId pay;
     Payment.status := PaymentStatus.FAILED;
     Payment.rawResponse :=
       spread (Payment.rawResponse pay) (PaymentService.webhookEvent fields) |}.

(** [n] deliveries of the same notification, each a request of its own:
    the answers in order, and the world after the last one. *)
Fixpoint deliver {A} (n : nat) (notification : M A) (w : World)
  : list (Result A) * World :=
  match n with
  | O => ([], w)
  | S n' =>
      let '(r, w1) := notification w in
      let '(rs, w') := deliver n' notification w1 in
      (r :: rs, w')
  end.

(** The payment [pid], if there is one, is a STRIPE payment. *)
Definition stripePayment (pid : string) (w : World) : Prop :=
  ∀ pay, payments (db w) !! pid = Some pay →
    Payment.provider pay = PaymentProvider.STRIPE.


(** [createOrder], with the monad unfolded. *)
Definition createOrder_result (env : Env) (userId : string) (data : CreateOrderDTO)
    (w : World) : Result (string * Order.t) * World :=
  let items := dto_items data in
  let productIds := dto_productId <$> items in
  if forallb (OrderService.orderItemSchema env) items && (1 <=? length items)%nat
  then
    if negb (length (OrderService.product_findMany productIds (db w))
             =? length productIds)%nat
    then (Throw (NotFoundError "One or more products not found"), w)
    else
      match OrderService.createOrder_loop
              (filter (λ r : string * Product.t, r.1 ∈ productIds) (products (db w)))
              items (0, []) with
      | Throw e => (Throw e, w)
      | Ok (totalAmount, lines) =>
          let id := uuid env (fresh w) in
          let order := {| Order.userId := userId; Order.totalAmount := totalAmount;
                          Order.status := OrderStatus.PENDING; Order.items := lines |} in
          match orders (db w) !! id with
          | Some _ =>
              (Throw (PrismaError "Unique constraint failed"),
               {| db := db w; calls := calls w; fresh := S (fresh w) |})
          | None =>
              (Ok (id, order),
               {| db := set_orders (<[id := order]> (orders (db w))) (db w);
                  calls := calls w; fresh := S (fresh w) |})
          end
      end
  else (Throw ZodError, w).

(** Two orders for 3 units each of a product with 5 in stock come into the
    store one after the other; both are paid for, the first settles. *)
Module Scenario.
Definition w0 : World :=
  {| db := {| products := {[ "p1" := Sample.widget 5 ]}; orders := ∅; payments := ∅ |};
     calls := []; fresh := 0 |}.

Definition orderOf (userId : string) : Order.t :=
  {| Order.userId := userId; Order.totalAmount := 3000;
     Order.status := OrderStatus.PENDING; Order.items := [Sample.line "p1" 3] |}.

Definition w1 : World :=
  {| db := set_orders (<["id-0" := orderOf "user-1"]> (orders (db w0))) (db w0);
     calls := []; fresh := 1 |}.
Definition w2 : World :=
  {| db := set_orders (<["id-1" := orderOf "user-2"]> (orders (db w1))) (db w1);
     calls := []; fresh := 2 |}.
Definition w3 : World := (PaymentService.initiatePayment Sample.env "id-0" (Some "stripe") w2).2.
Definition w4 : World := (PaymentService.initiatePayment Sample.env "id-1" (Some "stripe") w3).2.
Definition w5 : World :=
  (PaymentService.handleStripeWebhook Sample.env
     "payment_intent.succeeded:pi_id-0" "valid" w4).2.

(** A request to [createOrder]: 3 units of a product whose id is a UUID
    (version 4), in a store that holds 5 of it. *)
Definition productId : string := "3f2b8c1e-7a4d-4c5e-9b1a-2d6f8e0a1c3b".


Definition shop : World :=
  {| db := {| products := {[ productId := Sample.widget 5 ]};
              orders := ∅; payments := ∅ |};
     calls := []; fresh := 0 |}.
End Scenario.

(** ** Vocabulary of the further properties *)

(** The row [initiatePayment] creates. *)
Definition initiatedPayment (env : Env) (orderId provider : string)
    (result : PaymentResult) : Payment.t :=
  {| Payment.orderId := orderId;
     Payment.provider := PaymentService.providerOf env provider;
     Payment.transactionId := pr_paymentId result;
     Payment.status := PaymentStatus.PENDING;
     Payment.rawResponse :=
       spread ∅ [("clientSecret", jsonOfOptString (pr_clientSecret result));
                 ("redirectUrl", jsonOfOptString (pr_redirectUrl result))] |}.

(** What [initiatePayment] sends to the provider. *)
Definition initiateData (env : Env) (orderId provider : string) (o : Order.t)
  : PaymentData :=
  {| pd_orderId := orderId;
     pd_amount := Order.totalAmount o;
     pd_currency := PaymentService.currencyOf env provider;
     pd_userId := Order.userId o |}.

(** No Payment row refers to the order. *)
Definition unpaidOrder (d : Db) (orderId : string) : Prop :=
  ∀ pid pay, payments d !! pid = Some pay → Payment.orderId pay ≠ orderId.

Definition stocksNonNegative (ps : gmap string Product.t) : Prop :=
  ∀ k p, ps !! k = Some p → 0 ≤ Product.stock p.


(** The cart passes [createOrderSchema]. *)
Definition schemaValid (env : Env) (data : CreateOrderDTO) : Prop :=
  dto_items data ≠ []
  ∧ ∀ item, item ∈ dto_items data →
      isUUID env (dto_productId item) = true ∧ 0 < dto_quantity item.

(** ** CategoryService: the tree functions *)

#[local] Set Warnings "-register-all".

Module CategoryNode.
Inductive t : Type :=
  mk { id : string; name : string; parentId : option string;
       children : option (list t) }.
End CategoryNode.

(** A [for] loop over [xs] whose body may [return]. *)
Definition forReturn {A B} (body : A → option B) : list A → option B :=
  fix go xs :=
    match xs with
    | [] => None
    | x :: rest =>
        match body x with
        | Some b => Some b
        | None => go rest
        end
    end.

Module CategoryService.
(** One turn of the loop of [findCategoryInTree]: [Some] is a [return]. *)
Fixpoint findCategoryInTree_body (targetId : string) (node : CategoryNode.t)
  : option CategoryNode.t :=
  if String.eqb (CategoryNode.id node) targetId then Some node
  else
    match CategoryNode.children node with
    | Some children =>
        if (0 <? length children)%nat
        then forReturn (findCategoryInTree_body targetId) children
        else None
    | None => None
    end.

Definition findCategoryInTree (nodes : list CategoryNode.t) (targetId : string)
  : option CategoryNode.t :=
  forReturn (findCategoryInTree_body targetId) nodes.

(** [result] is the array the traversal pushes onto; the array after the
    call is returned. *)
Fixpoint dfsTraversal (node : CategoryNode.t) (result : list string) : list string :=
  let result := (result ++ [CategoryNode.id node])%list in
  match CategoryNode.children node with
  | Some children =>
      if (0 <? length children)%nat
      then fold_left (λ result child, dfsTraversal child result) children result
      else result
  | None => result
  end.

(** [category] is what [prisma.category.findUnique] returned, [tree] what
    [getCategoryTree] returned. *)
Definition getDescendantCategoryIds {Category : Type} (category : option Category)
    (tree : list CategoryNode.t) (categoryId : string) : Result (list string) :=
  match category with
  | None => Throw (NotFoundError "Category not found")
  | Some _ =>
      match findCategoryInTree tree categoryId with
      | None => Ok [categoryId]
      | Some targetNode => Ok (dfsTraversal targetNode [])
      end
  end.
End CategoryService.

(** The ids of a subtree, parent before children, children left to right. *)
Fixpoint subtreeIds (node : CategoryNode.t) : list string :=
  CategoryNode.id node ::
  match CategoryNode.children node with
  | Some children => concat (subtreeIds <$> children)
  | None => []
  end.

Definition forestIds (nodes : list CategoryNode.t) : list string :=
  concat (subtreeIds <$> nodes).

(** [n] is [node] or lies below it. *)
Fixpoint inSubtree (n node : CategoryNode.t) : Prop :=
  n = node ∨
  match CategoryNode.children node with
  | Some children => foldr (λ child rest, inSubtree n child ∨ rest) False children
  | None => False
  end.

Definition inForest (n : CategoryNode.t) (nodes : list CategoryNode.t) : Prop :=
  Exists (inSubtree n) nodes.

Definition sampleTree : list CategoryNode.t :=
  [ CategoryNode.mk "electronics" "Electronics" None
      (Some [ CategoryNode.mk "phones" "Phones" (Some "electronics")
                (Some [ CategoryNode.mk "android" "Android" (Some "phones") (Some []) ]);
              CategoryNode.mk "laptops" "Laptops" (Some "electronics") (Some []) ]);
    CategoryNode.mk "books" "Books" None (Some []) ].

(** ** BkashPaymentStrategy.getToken *)

Module BkashPaymentStrategy.
(** The two private fields [getToken] reads and writes, and the number of
    token requests sent so far. *)
Record t : Type :=
  mk { token : option string; tokenExpiry : Z; requests : nat }.

(** The body of an answer of the token endpoint. *)
Record TokenResponse : Type :=
  { id_token : string; expires_in : Z }.

(** The [try] block of [getToken]: [post] is the outcome of the
    [axios.post] to the token endpoint, [None] when it throws. *)
Definition requestToken (now : Z) (post : option TokenResponse) (this : t)
  : Result string * t :=
  match post with
  | Some response =>
      (Ok (id_token response),
       {| token := Some (id_token response);
          tokenExpiry := now + expires_in response * 1000;
          requests := S (requests this) |})
  | None =>
      (Throw (PaymentError "Failed to authenticate with bKash"),
       {| token := token this; tokenExpiry := tokenExpiry this;
          requests := S (requests this) |})
  end.

(** [now] is [Date.now()]. *)
Definition getToken (now : Z) (post : option TokenResponse) (this : t)
  : Result string * t :=
  match token this with
  | Some cached =>
      if truthy (Some cached) && (now + 5 * 60 * 1000 <? tokenExpiry this)
      then (Ok cached, this)
      else requestToken now post this
  | None => requestToken now post this
  end.
End BkashPaymentStrategy.

(** * Properties *)

(** ** Bookkeeping on the world *)

Lemma withDb_id w : withDb (db w) w = w.
Proof. by destruct w. Qed.

Lemma withDb_withDb d d' w : withDb d (withDb d' w) = withDb d w.
Proof. done. Qed.

Lemma set_products_id d : set_products (products d) d = d.
Proof. by destruct d. Qed.

Lemma decrement_stock_0 p : Product.decrement_stock 0 p = p.
Proof. destruct p; unfold Product.decrement_stock; simpl; f_equal; lia. Qed.

Lemma decrement_stock_add a b p :
  Product.decrement_stock b (Product.decrement_stock a p)
  = Product.decrement_stock (a + b) p.
Proof. unfold Product.decrement_stock; simpl; f_equal; lia. Qed.

Lemma insert_as_alter {A} (f : A → A) (m : gmap string A) i x :
  m !! i = Some x → <[i := f x]> m = alter f i m.
Proof.
  intros Hi. apply map_eq. intros j. rewrite lookup_alter, lookup_insert.
  destruct (decide (i = j)) as [->|]; [by rewrite Hi | done].
Qed.

(** ** Stock arithmetic of an order *)

Lemma orderedQuantity_nonneg items pid :
  positiveQuantities items → 0 ≤ orderedQuantity items pid.
Proof.
  induction items as [|item rest IH]; intros Hpos; simpl; [lia|].
  assert (0 < OrderItem.quantity item) by (apply Hpos; left).
  assert (0 ≤ orderedQuantity rest pid).
  { apply IH. intros it Hit. apply Hpos. by right. }
  case_decide; lia.
Qed.


Lemma decrementAll_lookup items : ∀ ps pid,
  decrementAll items ps !! pid
  = Product.decrement_stock (orderedQuantity items pid) <$> ps !! pid.
Proof.
  induction items as [|item rest IH]; intros ps pid; simpl.
  - destruct (ps !! pid) as [p|]; simpl; [by rewrite decrement_stock_0 | done].
  - unfold decrementAll in *. simpl. rewrite IH, lookup_alter.
    destruct (decide (OrderItem.productId item = pid)) as [->|Hne].
    + destruct (ps !! pid) as [p|]; simpl; [by rewrite decrement_stock_add | done].
    + destruct (ps !! pid) as [p|]; simpl; [|done].
      by replace (0 + orderedQuantity rest pid) with (orderedQuantity rest pid) by lia.
Qed.

Lemma decrementAll_stock items ps pid :
  Product.stock <$> decrementAll items ps !! pid
  = (λ s, s - orderedQuantity items pid) <$> (Product.stock <$> ps !! pid).
Proof. rewrite decrementAll_lookup. by destruct (ps !! pid). Qed.

Lemma sufficientStock_step item rest ps p :
  positiveQuantities (item :: rest) →
  sufficientStock ps (item :: rest) →
  ps !! OrderItem.productId item = Some p →
  OrderItem.quantity item ≤ Product.stock p
  ∧ sufficientStock
      (<[OrderItem.productId item :=
           Product.decrement_stock (OrderItem.quantity item) p]> ps) rest.
Proof.
  intros Hpos Hsuf Hp.
  assert (Hrest : positiveQuantities rest).
  { intros it Hit. apply Hpos. by right. }
  split.
  - destruct (Hsuf item) as (p' & Hp' & Hle); [left|].
    simpl in Hle. case_decide; [|done].
    pose proof (orderedQuantity_nonneg rest (OrderItem.productId item) Hrest).
    simplify_eq. lia.
  - intros it Hit. destruct (Hsuf it) as (p' & Hp' & Hle); [by right|].
    simpl in Hle. rewrite lookup_insert.
    destruct (decide (OrderItem.productId item = OrderItem.productId it)) as [Heq|Hne].
    + eexists; split; [done|].
      rewrite <- Heq in *. simplify_eq. simpl. lia.
    + eexists; split; [done|]. lia.
Qed.

Lemma orderedQuantity_ge_line items item :
  positiveQuantities items → item ∈ items →
  OrderItem.quantity item ≤ orderedQuantity items (OrderItem.productId item).
Proof.
  induction items as [|x rest IH]; intros Hpos; [by rewrite elem_of_nil|].
  assert (Hrest : positiveQuantities rest).
  { intros it Hit. apply Hpos. by right. }
  pose proof (orderedQuantity_nonneg rest (OrderItem.productId item) Hrest).
  pose proof (Hpos x ltac:(left)).
  rewrite elem_of_cons. simpl. intros [->|Hin].
  - case_decide; [lia | done].
  - specialize (IH Hrest Hin). case_decide; lia.
Qed.

(** ** The store operations, step by step *)

Lemma product_decrement_ok id q p w :
  products (db w) !! id = Some p →
  product_decrement id q w
  = (Ok tt, withDb (set_products
                      (<[id := Product.decrement_stock q p]> (products (db w))) (db w)) w).
Proof.
  intros Hp. unfold product_decrement, mbind, M_bind, getDb, putDb. simpl.
  by rewrite Hp.
Qed.

Lemma order_update_status_ok id s o w :
  orders (db w) !! id = Some o →
  order_update_status id s w
  = (Ok (Order.set_status s o),
     withDb (set_orders (<[id := Order.set_status s o]> (orders (db w))) (db w)) w).
Proof.
  intros Ho. unfold order_update_status, mbind, M_bind, getDb, putDb. simpl.
  by rewrite Ho.
Qed.

Lemma payment_update_ok id f p w :
  payments (db w) !! id = Some p →
  payment_update id f w
  = (Ok (f p), withDb (set_payments (<[id := f p]> (payments (db w))) (db w)) w).
Proof.
  intros Hp. unfold payment_update, mbind, M_bind, getDb, putDb. simpl.
  by rewrite Hp.
Qed.

Lemma payment_findFirst_Some tid d pid pay :
  payment_findFirst tid d = Some (pid, pay) →
  payments d !! pid = Some pay ∧ Payment.transactionId pay = Some tid.
Proof.
  unfold payment_findFirst. intros Hfind.
  apply find_some in Hfind as [Hin Hhas]. split.
  - apply elem_of_map_to_list. by apply list_elem_of_In.
  - unfold has_transactionId in Hhas. simpl in Hhas.
    destruct (Payment.transactionId pay) as [t|]; [|done].
    apply String.eqb_eq in Hhas. by subst.
Qed.

Lemma payment_findFirst_unique tid d pid pay :
  transactionId_unique d →
  payments d !! pid = Some pay → Payment.transactionId pay = Some tid →
  payment_findFirst tid d = Some (pid, pay).
Proof.
  intros Huniq Hpay Htid. unfold payment_findFirst.
  destruct (find _ _) as [[k p]|] eqn:Hfind.
  - pose proof Hfind as Hfound.
    apply payment_findFirst_Some in Hfound as [Hk Hp].
    assert (k = pid) as -> by (eapply Huniq; eauto). by simplify_eq.
  - exfalso.
    pose proof (find_none _ _ Hfind (pid, pay)) as Hnone.
    unfold has_transactionId in Hnone. simpl in Hnone. rewrite Htid in Hnone.
    rewrite String.eqb_refl in Hnone.
    assert (true = false); [|done].
    apply Hnone, list_elem_of_In, elem_of_map_to_list. done.
Qed.

(** ** The two stock loops *)

Lemma handlePaymentSuccess_loop_ok items : ∀ w,
  positiveQuantities items →
  sufficientStock (products (db w)) items →
  PaymentService.handlePaymentSuccess_loop items w
  = (Ok tt, withDb (set_products (decrementAll items (products (db w))) (db w)) w).
Proof.
  induction items as [|item rest IH]; intros w Hpos Hsuf.
  - simpl. unfold mret, M_ret. by rewrite set_products_id, withDb_id.
  - destruct (Hsuf item) as (p & Hp & _); [left|].
    destruct (sufficientStock_step _ _ _ _ Hpos Hsuf Hp) as [Hle Hsuf'].
    simpl. unfold mbind, M_bind, getDb. simpl. rewrite Hp.
    replace (Product.stock p <? OrderItem.quantity item) with false
      by (symmetry; apply Z.ltb_ge; lia).
    rewrite (product_decrement_ok _ _ p) by done.
    rewrite IH; simpl.
    + by rewrite (insert_as_alter _ _ _ p).
    + intros it Hit. apply Hpos. by right.
    + done.
Qed.

Lemma reduceStock_loop_ok snapshot items : ∀ w,
  (∀ item, item ∈ items →
     ∃ p, snapshot !! OrderItem.productId item = Some p
          ∧ OrderItem.quantity item ≤ Product.stock p) →
  (∀ item, item ∈ items → is_Some (products (db w) !! OrderItem.productId item)) →
  PaymentService.reduceStock_loop snapshot items w
  = (Ok tt, withDb (set_products (decrementAll items (products (db w))) (db w)) w).
Proof.
  induction items as [|item rest IH]; intros w Hsnap Hlive.
  - simpl. unfold mret, M_ret. by rewrite set_products_id, withDb_id.
  - destruct (Hsnap item) as (p & Hp & Hle); [left|].
    destruct (Hlive item) as [p' Hp']; [left|].
    simpl. rewrite Hp.
    replace (Product.stock p <? OrderItem.quantity item) with false
      by (symmetry; apply Z.ltb_ge; lia).
    unfold mbind, M_bind. rewrite (product_decrement_ok _ _ p') by done.
    rewrite IH; simpl.
    + by rewrite (insert_as_alter _ _ _ p').
    + intros it Hit. apply Hsnap. by right.
    + intros it Hit. rewrite lookup_insert. case_decide; [done|].
      apply Hlive. by right.
Qed.



(** ** What a settlement leaves in the store *)

Lemma getStrategy_provider env p :
  PaymentStrategyFactory.getStrategy env (providerName p)
  = Ok (providerName p, strategyOf env p).
Proof. by destruct p. Qed.

Lemma truthy_Some tid : tid ≠ EmptyString → truthy (Some tid) = true.
Proof.
  intros Hne. unfold truthy. destruct (String.eqb tid EmptyString) eqn:Heq; [|done].
  by apply String.eqb_eq in Heq.
Qed.

Lemma handlePaymentSuccess_settles env intent w pid pay o :
  payment_findFirst (pi_id intent) (db w) = Some (pid, pay) →
  Payment.status pay ≠ PaymentStatus.SUCCESS →
  orders (db w) !! Payment.orderId pay = Some o →
  positiveQuantities (Order.items o) →
  sufficientStock (products (db w)) (Order.items o) →
  ∃ pay',
    Payment.status pay' = PaymentStatus.SUCCESS
    ∧ Payment.orderId pay' = Payment.orderId pay
    ∧ Payment.transactionId pay' = Payment.transactionId pay
    ∧ PaymentService.handlePaymentSuccess env intent w
      = (Ok tt,
         withDb {| products := decrementAll (Order.items o) (products (db w));
                   orders := <[Payment.orderId pay := Order.set_status OrderStatus.PAID o]>
                               (orders (db w));
                   payments := <[pid := pay']> (payments (db w)) |} w).
Proof.
  intros Hfind Hst Ho Hpos Hsuf.
  destruct (payment_findFirst_Some _ _ _ _ Hfind) as [Hpay _].
  eexists. split_and!; [| | |
    unfold PaymentService.handlePaymentSuccess, mbind, M_bind, getDb; simpl;
    rewrite Hfind;
    replace (PaymentStatus.eqb (Payment.status pay) PaymentStatus.SUCCESS) with false
      by (by destruct (Payment.status pay));
    unfold transaction;
    rewrite (payment_update_ok _ _ pay) by done;
    rewrite (order_update_status_ok _ _ o) by done;
    rewrite Ho, handlePaymentSuccess_loop_ok by done;
    reflexivity ]; done.
Qed.

Lemma handlePaymentSuccess_already_processed env intent w pid pay :
  payment_findFirst (pi_id intent) (db w) = Some (pid, pay) →
  Payment.status pay = PaymentStatus.SUCCESS →
  PaymentService.handlePaymentSuccess env intent w = (Ok tt, w).
Proof.
  intros Hfind Hst.
  unfold PaymentService.handlePaymentSuccess, mbind, M_bind, getDb. simpl.
  by rewrite Hfind, Hst.
Qed.

Lemma handlePaymentSuccess_not_found env intent w :
  payment_findFirst (pi_id intent) (db w) = None →
  PaymentService.handlePaymentSuccess env intent w = (Ok tt, w).
Proof.
  intros Hfind.
  unfold PaymentService.handlePaymentSuccess, mbind, M_bind, getDb. simpl.
  by rewrite Hfind.
Qed.

Lemma handleStripeWebhook_dispatch env payload signature event w :
  signedEvent env payload signature event →
  PaymentService.handleStripeWebhook env payload signature w
  = match dispatch env event (logged (CallConstructEvent payload signature) w) with
    | (Ok _, w') => (Ok {| PaymentService.received := true |}, w')
    | (Throw e, w') => (Throw e, w')
    end.
Proof.
  intros (construct & Hc & Hev).
  unfold PaymentService.handleStripeWebhook, mbind, M_bind, liftResult, logCall. simpl.
  rewrite Hc. rewrite Hev. reflexivity.
Qed.

Lemma verifyPayment_unfold env pid w pay tid :
  payments (db w) !! pid = Some pay →
  Payment.transactionId pay = Some tid → tid ≠ EmptyString →
  PaymentService.verifyPayment env pid w
  = transaction
      (verifyPayment_body env pid pay
         (IPaymentStrategy.verifyPayment (strategyOf env (Payment.provider pay)) tid))
      (logged (CallVerify (providerName (Payment.provider pay)) tid) w).
Proof.
  intros Hpay Htid Hne.
  unfold PaymentService.verifyPayment, mbind at 1, M_bind at 1, getDb. simpl.
  rewrite Hpay, Htid, truthy_Some by done. simpl.
  unfold verifyPayment_body. rewrite Htid.
  by destruct (Payment.provider pay).
Qed.

Lemma verifyPayment_not_verified env pid w pay tid :
  payments (db w) !! pid = Some pay →
  Payment.transactionId pay = Some tid → tid ≠ EmptyString →
  let v := IPaymentStrategy.verifyPayment (strategyOf env (Payment.provider pay)) tid in
  verified v = false →
  PaymentService.verifyPayment env pid w
  = (Ok (verifiedPayment env pay v),
     withDb (set_payments (<[pid := verifiedPayment env pay v]> (payments (db w))) (db w))
       (logged (CallVerify (providerName (Payment.provider pay)) tid) w)).
Proof.
  intros Hpay Htid Hne v Hv.
  rewrite (verifyPayment_unfold _ _ _ pay tid) by done. fold v.
  unfold transaction, verifyPayment_body, mbind, M_bind.
  rewrite (payment_update_ok _ _ pay) by done. rewrite Hv. simpl.
  unfold verifiedPayment. by rewrite Hv.
Qed.

Lemma verifyPayment_stripe_verified env pid w pay tid o :
  payments (db w) !! pid = Some pay →
  Payment.transactionId pay = Some tid → tid ≠ EmptyString →
  Payment.provider pay = PaymentProvider.STRIPE →
  orders (db w) !! Payment.orderId pay = Some o →
  let v := IPaymentStrategy.verifyPayment (stripe env) tid in
  verified v = true →
  PaymentService.verifyPayment env pid w
  = (Ok (verifiedPayment env pay v),
     withDb {| products := products (db w);
               orders := <[Payment.orderId pay := Order.set_status OrderStatus.PAID o]>
                           (orders (db w));
               payments := <[pid := verifiedPayment env pay v]> (payments (db w)) |}
       (logged (CallVerify "stripe" tid) w)).
Proof.
  intros Hpay Htid Hne Hprov Ho v Hv.
  rewrite (verifyPayment_unfold _ _ _ pay tid) by done. rewrite Hprov. simpl. fold v.
  unfold transaction, verifyPayment_body, mbind, M_bind.
  rewrite (payment_update_ok _ _ pay) by done. rewrite Hv.
  rewrite (order_update_status_ok _ _ o) by done. rewrite Hprov. simpl.
  unfold verifiedPayment. by rewrite Hv, Hprov.
Qed.

Lemma verifyPayment_bkash_verified env pid w pay tid o :
  payments (db w) !! pid = Some pay →
  Payment.transactionId pay = Some tid → tid ≠ EmptyString →
  Payment.provider pay = PaymentProvider.BKASH →
  orders (db w) !! Payment.orderId pay = Some o →
  positiveQuantities (Order.items o) →
  sufficientStock (products (db w)) (Order.items o) →
  let v := IPaymentStrategy.verifyPayment (bkash env) tid in
  verified v = true →
  PaymentService.verifyPayment env pid w
  = (Ok (verifiedPayment env pay v),
     withDb {| products := decrementAll (Order.items o) (products (db w));
               orders := <[Payment.orderId pay := Order.set_status OrderStatus.PAID o]>
                           (orders (db w));
               payments := <[pid := verifiedPayment env pay v]> (payments (db w)) |}
       (logged (CallVerify "bkash" tid) w)).
Proof.
  intros Hpay Htid Hne Hprov Ho Hpos Hsuf v Hv.
  rewrite (verifyPayment_unfold _ _ _ pay tid) by done. rewrite Hprov. simpl. fold v.
  unfold transaction, verifyPayment_body, mbind, M_bind.
  rewrite (payment_update_ok _ _ pay) by done. rewrite Hv.
  rewrite (order_update_status_ok _ _ o) by done. rewrite Hprov. simpl.
  unfold PaymentService.reduceStock, mbind, M_bind, getDb. simpl.
  rewrite lookup_insert_eq. simpl.
  rewrite reduceStock_loop_ok; simpl.
  - unfold verifiedPayment. by rewrite Hv, Hprov.
  - intros item Hitem. destruct (Hsuf item Hitem) as (p & Hp & Hle).
    exists p. split; [done|].
    pose proof (orderedQuantity_ge_line _ _ Hpos Hitem). lia.
  - intros item Hitem. destruct (Hsuf item Hitem) as (p & Hp & Hle). by exists p.
Qed.

(** ** Observations on a settled world *)

Lemma settled_intro w pid oid pay o ps os pays :
  Payment.status pay = PaymentStatus.SUCCESS →
  settled (withDb {| products := ps;
                     orders := <[oid := Order.set_status OrderStatus.PAID o]> os;
                     payments := <[pid := pay]> pays |} w) pid oid.
Proof.
  intros Hst. unfold settled, paymentStatusOf, orderStatusOf. simpl.
  by rewrite !lookup_insert_eq, <- Hst.
Qed.

Lemma decrementedOnce_intro items w w0 ps os pays :
  ps = products (db w) →
  decrementedOnce items w
    (withDb {| products := decrementAll items ps; orders := os; payments := pays |} w0).
Proof. intros -> k. unfold stockOf. simpl. apply decrementAll_stock. Qed.

Lemma verifiedPayment_status env pay v :
  verified v = true → Payment.status (verifiedPayment env pay v) = PaymentStatus.SUCCESS.
Proof. intros Hv. unfold verifiedPayment. simpl. by rewrite Hv. Qed.

(** ** C3: what a success outcome does to a pending payment *)

(** C3 (amended).  For a payment found in PENDING status whose order has
    sufficient stock for every line item: a [payment_intent.succeeded]
    webhook event, and a synchronous verification returning [verified = true]
    for a BKASH payment, set the payment to SUCCESS, the order to PAID and
    decrement every ordered product's stock by the ordered quantity; a
    synchronous verification returning [verified = true] for a STRIPE
    payment sets the payment to SUCCESS and the order to PAID and leaves
    every stock as it was. *)
Theorem C3_success_outcome_on_pending_payment env w pid pay tid o :
  payments (db w) !! pid = Some pay →
  Payment.status pay = PaymentStatus.PENDING →
  Payment.transactionId pay = Some tid → tid ≠ EmptyString →
  orders (db w) !! Payment.orderId pay = Some o →
  positiveQuantities (Order.items o) →
  sufficientStock (products (db w)) (Order.items o) →
  (∀ payload signature event,
     signedEvent env payload signature event →
     ev_type event = "payment_intent.succeeded" →
     payment_findFirst (pi_id (ev_object event)) (db w) = Some (pid, pay) →
     ∃ w', PaymentService.handleStripeWebhook env payload signature w
           = (Ok {| PaymentService.received := true |}, w')
           ∧ settled w' pid (Payment.orderId pay)
           ∧ decrementedOnce (Order.items o) w w')
  ∧ (Payment.provider pay = PaymentProvider.BKASH →
     verified (IPaymentStrategy.verifyPayment (bkash env) tid) = true →
     ∃ r w', PaymentService.verifyPayment env pid w = (Ok r, w')
             ∧ settled w' pid (Payment.orderId pay)
             ∧ decrementedOnce (Order.items o) w w')
  ∧ (Payment.provider pay = PaymentProvider.STRIPE →
     verified (IPaymentStrategy.verifyPayment (stripe env) tid) = true →
     ∃ r w', PaymentService.verifyPayment env pid w = (Ok r, w')
             ∧ settled w' pid (Payment.orderId pay)
             ∧ stockUnchanged w w').
Proof.
  intros Hpay Hst Htid Hne Ho Hpos Hsuf. split_and!.
  - intros payload signature event Hsigned Htype Hfind.
    rewrite (handleStripeWebhook_dispatch _ _ _ event) by done.
    unfold dispatch. rewrite Htype. simpl.
    destruct (handlePaymentSuccess_settles env (ev_object event)
                (logged (CallConstructEvent payload signature) w) pid pay o)
      as (pay' & Hst' & _ & _ & ->); [done | by rewrite Hst | done..|].
    eexists. split; [done|]. split.
    + by apply settled_intro.
    + by apply decrementedOnce_intro.
  - intros Hprov Hv.
    rewrite (verifyPayment_bkash_verified env pid w pay tid o) by done.
    do 2 eexists. split; [done|]. split.
    + by apply settled_intro, verifiedPayment_status.
    + by apply decrementedOnce_intro.
  - intros Hprov Hv.
    rewrite (verifyPayment_stripe_verified env pid w pay tid o) by done.
    do 2 eexists. split; [done|]. split.
    + by apply settled_intro, verifiedPayment_status.
    + by intros k.
Qed.

Lemma Sample_positiveQuantities q : 0 < q → positiveQuantities [Sample.line "p1" q].
Proof. intros Hq item Hitem. apply list_elem_of_singleton in Hitem. by subst. Qed.

Lemma Sample_sufficientStock stock q :
  q ≤ stock → sufficientStock {[ "p1" := Sample.widget stock ]} [Sample.line "p1" q].
Proof.
  intros Hle item Hitem. apply list_elem_of_singleton in Hitem. subst.
  exists (Sample.widget stock). split; [done|]. simpl. lia.
Qed.

Lemma Sample_signedEvent :
  signedEvent Sample.env "payment_intent.succeeded" "valid"
    {| ev_type := "payment_intent.succeeded"; ev_object := Sample.succeeded |}.
Proof. eexists. split; reflexivity. Qed.

Lemma C3_witness :
  ∃ w', PaymentService.handleStripeWebhook Sample.env "payment_intent.succeeded" "valid"
          (Sample.world 10 3 OrderStatus.PENDING PaymentProvider.STRIPE
             PaymentStatus.PENDING)
        = (Ok {| PaymentService.received := true |}, w')
        ∧ settled w' "pay-1" "order-1"
        ∧ decrementedOnce [Sample.line "p1" 3]
            (Sample.world 10 3 OrderStatus.PENDING PaymentProvider.STRIPE
               PaymentStatus.PENDING) w'.
Proof.
  refine (proj1 (C3_success_outcome_on_pending_payment Sample.env
            (Sample.world 10 3 OrderStatus.PENDING PaymentProvider.STRIPE
               PaymentStatus.PENDING)
            "pay-1" (Sample.payment PaymentProvider.STRIPE PaymentStatus.PENDING)
            "pi_1" (Sample.order OrderStatus.PENDING [Sample.line "p1" 3])
            _ _ _ _ _ _ _)
          "payment_intent.succeeded" "valid"
          {| ev_type := "payment_intent.succeeded"; ev_object := Sample.succeeded |}
          _ _ _).
  - reflexivity.
  - reflexivity.
  - reflexivity.
  - discriminate.
  - reflexivity.
  - apply Sample_positiveQuantities. lia.
  - apply Sample_sufficientStock. lia.
  - apply Sample_signedEvent.
  - reflexivity.
  - vm_compute. reflexivity.
Defined.

(** The STRIPE payment of the sample store is PENDING and its order asks for
    3 of the 10 units in stock; the provider verifies it; [verifyPayment]
    returns the payment as SUCCESS with the order PAID and the stock is
    still 10, not 7. *)
Lemma C3_counterexample :
  ∃ r w',
    paymentStatusOf
      (Sample.world 10 3 OrderStatus.PENDING PaymentProvider.STRIPE PaymentStatus.PENDING)
      "pay-1" = Some PaymentStatus.PENDING
    ∧ stockOf
        (Sample.world 10 3 OrderStatus.PENDING PaymentProvider.STRIPE PaymentStatus.PENDING)
        "p1" = Some 10
    ∧ PaymentService.verifyPayment Sample.env "pay-1"
        (Sample.world 10 3 OrderStatus.PENDING PaymentProvider.STRIPE PaymentStatus.PENDING)
      = (Ok r, w')
    ∧ verified (IPaymentStrategy.verifyPayment (stripe Sample.env) "pi_1") = true
    ∧ Payment.status r = PaymentStatus.SUCCESS
    ∧ orderStatusOf w' "order-1" = Some OrderStatus.PAID
    ∧ stockOf w' "p1" = Some 10
    ∧ stockOf w' "p1" ≠ Some (10 - 3).
Proof.
  do 2 eexists. split_and!; try (vm_compute; reflexivity).
  vm_compute. discriminate.
Qed.

(** ** C4: insufficient stock aborts the whole settlement *)





(** Inside the transaction the first line has been decremented (10 to 7)
    when the second one is found short; after the rollback both products hold
    10 again and payment and order are PENDING. *)
Example handlePaymentSuccess_undoes_earlier_lines :
  stockOf (PaymentService.handlePaymentSuccess_loop Sample.twoLines Sample.world2).2 "p1"
  = Some 7
  ∧ PaymentService.handlePaymentSuccess Sample.env Sample.succeeded Sample.world2
    = (Throw (PaymentError
         "Insufficient stock for product Widget. Available: 10, Required: 20"),
       Sample.world2).
Proof. split; vm_compute; reflexivity. Qed.

(** ** C5: a success event for an unknown transaction id *)

Lemma payment_findFirst_None tid d :
  (∀ pid pay, payments d !! pid = Some pay → Payment.transactionId pay ≠ Some tid) →
  payment_findFirst tid d = None.
Proof.
  intros Hnone. destruct (payment_findFirst tid d) as [[pid pay]|] eqn:Hfind; [|done].
  apply payment_findFirst_Some in Hfind as [Hpay Htid]. by destruct (Hnone pid pay).
Qed.

(** C5.  A signed [payment_intent.succeeded] event whose transaction id is
    the [transactionId] of no Payment row changes nothing in the store, and
    the webhook endpoint answers 200 with [{ received: true }]. *)
Theorem C5_unknown_transaction_is_acknowledged env w payload signature event :
  signature ≠ EmptyString →
  signedEvent env payload signature event →
  ev_type event = "payment_intent.succeeded" →
  (∀ pid pay, payments (db w) !! pid = Some pay →
     Payment.transactionId pay ≠ Some (pi_id (ev_object event))) →
  PaymentService.handleStripeWebhook env payload signature w
  = (Ok {| PaymentService.received := true |},
     logged (CallConstructEvent payload signature) w)
  ∧ PaymentController.webhook env (Some signature) payload w
    = ({| http_status := 200; http_body := BodyReceived true |},
       logged (CallConstructEvent payload signature) w)
  ∧ db (logged (CallConstructEvent payload signature) w) = db w.
Proof.
  intros Hsig Hsigned Htype Hnone.
  assert (Hrun : PaymentService.handleStripeWebhook env payload signature w
                 = (Ok {| PaymentService.received := true |},
                    logged (CallConstructEvent payload signature) w)).
  { rewrite (handleStripeWebhook_dispatch _ _ _ event) by done.
    unfold dispatch. rewrite Htype. simpl.
    by rewrite handlePaymentSuccess_not_found by by apply payment_findFirst_None. }
  split_and!; [done | | done].
  unfold PaymentController.webhook. rewrite truthy_Some by done. simpl.
  by rewrite Hrun.
Qed.

Lemma C5_witness :
  PaymentController.webhook Sample.env (Some "valid") "payment_intent.succeeded"
    {| db := {| products := {[ "p1" := Sample.widget 10 ]}; orders := ∅; payments := ∅ |};
       calls := []; fresh := 0 |}
  = ({| http_status := 200; http_body := BodyReceived true |},
     {| db := {| products := {[ "p1" := Sample.widget 10 ]}; orders := ∅; payments := ∅ |};
        calls := [CallConstructEvent "payment_intent.succeeded" "valid"]; fresh := 0 |}).
Proof.
  refine (proj1 (proj2 (C5_unknown_transaction_is_acknowledged Sample.env
            {| db := {| products := {[ "p1" := Sample.widget 10 ]};
                        orders := ∅; payments := ∅ |};
               calls := []; fresh := 0 |}
            "payment_intent.succeeded" "valid"
            {| ev_type := "payment_intent.succeeded"; ev_object := Sample.succeeded |}
            _ _ _ _))).
  - discriminate.
  - apply Sample_signedEvent.
  - reflexivity.
  - intros pid pay Hpay. simpl in Hpay. by rewrite lookup_empty in Hpay.
Defined.

(** ** C6: refunds are for successful payments only *)

(** C6.  [refundPayment] on a payment that is PENDING or FAILED throws
    before the provider is called: the error is returned with the world
    untouched, so the log of provider calls has not grown and the Payment row
    is the one that was there. *)
Theorem C6_refund_requires_success env w pid pay amount :
  payments (db w) !! pid = Some pay →
  Payment.status pay = PaymentStatus.PENDING ∨ Payment.status pay = PaymentStatus.FAILED →
  PaymentService.refundPayment env pid amount w
  = (Throw (PaymentError "Can only refund successful payments"), w).
Proof.
  intros Hpay Hst.
  unfold PaymentService.refundPayment, mbind, M_bind, getDb. simpl. rewrite Hpay.
  by destruct Hst as [-> | ->].
Qed.

Lemma C6_witness :
  PaymentService.refundPayment Sample.env "pay-1" None
    (Sample.world 10 3 OrderStatus.PENDING PaymentProvider.STRIPE PaymentStatus.PENDING)
  = (Throw (PaymentError "Can only refund successful payments"),
     Sample.world 10 3 OrderStatus.PENDING PaymentProvider.STRIPE PaymentStatus.PENDING).
Proof.
  apply (C6_refund_requires_success Sample.env _ "pay-1"
           (Sample.payment PaymentProvider.STRIPE PaymentStatus.PENDING) None).
  - reflexivity.
  - left. reflexivity.
Defined.

(** ** C8: one payment per order *)

Lemma payments_of_order_nonempty d pid pay :
  payments d !! pid = Some pay →
  (0 <? length (payments_of_order (Payment.orderId pay) d))%nat = true.
Proof.
  intros Hpay. apply Nat.ltb_lt.
  assert (Hin : In (pid, pay) (payments_of_order (Payment.orderId pay) d)).
  { unfold payments_of_order. apply filter_In. split.
    - by apply list_elem_of_In, elem_of_map_to_list.
    - simpl. apply String.eqb_refl. }
  destruct (payments_of_order _ d); [done | simpl; lia].
Qed.

(** C8.  For an order that already has a Payment row -- whatever the status
    of that row -- [initiatePayment] throws "Payment already initiated for
    this order" and the world is untouched: no Payment row is created and no
    provider is called. *)
Theorem C8_second_initiation_rejected env w orderId provider o pid pay :
  orders (db w) !! orderId = Some o →
  payments (db w) !! pid = Some pay →
  Payment.orderId pay = orderId →
  PaymentService.initiatePayment env orderId provider w
  = (Throw (PaymentError "Payment already initiated for this order"), w).
Proof.
  intros Ho Hpay <-.
  unfold PaymentService.initiatePayment, mbind, M_bind, getDb. simpl. rewrite Ho.
  by rewrite (payments_of_order_nonempty _ pid).
Qed.

Lemma C8_witness :
  PaymentService.initiatePayment Sample.env "order-1" (Some "stripe")
    (Sample.world 10 3 OrderStatus.PENDING PaymentProvider.STRIPE PaymentStatus.FAILED)
  = (Throw (PaymentError "Payment already initiated for this order"),
     Sample.world 10 3 OrderStatus.PENDING PaymentProvider.STRIPE PaymentStatus.FAILED).
Proof.
  apply (C8_second_initiation_rejected Sample.env _ "order-1" (Some "stripe")
           (Sample.order OrderStatus.PENDING [Sample.line "p1" 3])
           "pay-1" (Sample.payment PaymentProvider.STRIPE PaymentStatus.FAILED)).
  - reflexivity.
  - reflexivity.
  - reflexivity.
Defined.

(** ** C9: the admin status update *)

Lemma includes_validTransitions current requested :
  OrderService.includes (OrderService.validTransitions current) requested = true
  ↔ permittedTransition current requested.
Proof.
  destruct current, requested; simpl; split; intros H;
    try done; try (by left); try (by right); by destruct H.
Qed.

(** C9.  [updateOrderStatus] on an existing order performs exactly the
    transitions of the table.  A permitted pair succeeds: the order returned
    and the order stored under the id have the requested status and the
    user, total and lines of the order as it was, and nothing else in the
    store changes.  Every other pair throws the validation error naming the
    current and the requested status and leaves the world untouched. *)
Theorem C9_order_status_transitions w orderId o requested :
  orders (db w) !! orderId = Some o →
  (permittedTransition (Order.status o) requested →
     ∃ updated w',
       OrderService.updateOrderStatus orderId requested w = (Ok updated, w')
       ∧ Order.status updated = requested
       ∧ Order.userId updated = Order.userId o
       ∧ Order.totalAmount updated = Order.totalAmount o
       ∧ Order.items updated = Order.items o
       ∧ orders (db w') !! orderId = Some updated
       ∧ orderStatusOf w' orderId = Some requested
       ∧ (∀ k, k ≠ orderId → orders (db w') !! k = orders (db w) !! k)
       ∧ products (db w') = products (db w)
       ∧ payments (db w') = payments (db w)
       ∧ calls w' = calls w)
  ∧ (¬ permittedTransition (Order.status o) requested →
     OrderService.updateOrderStatus orderId requested w
     = (Throw (ValidationError
          ("Cannot transition order from " +:+ OrderStatus.toString (Order.status o)
           +:+ " to " +:+ OrderStatus.toString requested)), w)).
Proof.
  intros Ho. split; intros Hperm.
  - apply includes_validTransitions in Hperm.
    unfold OrderService.updateOrderStatus, OrderService.getOrderById,
      mbind, M_bind, getDb. simpl. rewrite Ho. simpl. rewrite Hperm. simpl.
    rewrite (order_update_status_ok _ _ o) by done.
    eexists _, _. split; [reflexivity|].
    unfold orderStatusOf. simpl. rewrite lookup_insert_eq. simpl.
    split_and!; try done.
    intros k Hk. by rewrite lookup_insert_ne.
  - assert (Hinc : OrderService.includes
                     (OrderService.validTransitions (Order.status o)) requested = false).
    { destruct (OrderService.includes _ _) eqn:Hinc; [|done].
      by apply includes_validTransitions in Hinc. }
    unfold OrderService.updateOrderStatus, OrderService.getOrderById,
      mbind, M_bind, getDb. simpl. rewrite Ho. simpl. by rewrite Hinc.
Qed.

(** PENDING to PAID is carried out; CANCELED to PAID is refused. *)
Lemma C9_witness :
  (∃ updated w',
     OrderService.updateOrderStatus "order-1" OrderStatus.PAID
       (Sample.world 10 3 OrderStatus.PENDING PaymentProvider.STRIPE PaymentStatus.PENDING)
     = (Ok updated, w')
     ∧ Order.status updated = OrderStatus.PAID
     ∧ orderStatusOf w' "order-1" = Some OrderStatus.PAID)
  ∧ OrderService.updateOrderStatus "order-1" OrderStatus.PAID
      (Sample.world 10 3 OrderStatus.CANCELED PaymentProvider.STRIPE PaymentStatus.FAILED)
    = (Throw (ValidationError "Cannot transition order from CANCELED to PAID"),
       Sample.world 10 3 OrderStatus.CANCELED PaymentProvider.STRIPE PaymentStatus.FAILED).
Proof.
  split.
  - destruct (proj1 (C9_order_status_transitions
               (Sample.world 10 3 OrderStatus.PENDING PaymentProvider.STRIPE
                  PaymentStatus.PENDING)
               "order-1" (Sample.order OrderStatus.PENDING [Sample.line "p1" 3])
               OrderStatus.PAID eq_refl))
      as (updated & w' & Hrun & Hst & _ & _ & _ & _ & Hstored & _).
    + simpl. by left.
    + exists updated, w'. split_and!; [exact Hrun | exact Hst | exact Hstored].
  - apply (proj2 (C9_order_status_transitions
             (Sample.world 10 3 OrderStatus.CANCELED PaymentProvider.STRIPE
                PaymentStatus.FAILED)
             "order-1" (Sample.order OrderStatus.CANCELED [Sample.line "p1" 3])
             OrderStatus.PAID eq_refl)).
    simpl. tauto.
Defined.

(** ** C7: a successful refund *)

Lemma spread_refund_lookup raw rid at_ amt :
  let raw' := spread raw [("refundId", rid); ("refundedAt", Some at_);
                          ("refundAmount", Some amt)] in
  raw' !! "refundId" = rid
  ∧ raw' !! "refundedAt" = Some at_
  ∧ raw' !! "refundAmount" = Some amt
  ∧ ∀ k, k ≠ "refundId" → k ≠ "refundedAt" → k ≠ "refundAmount" → raw' !! k = raw !! k.
Proof.
  unfold spread, setField. simpl. split_and!.
  - rewrite !lookup_insert_ne by done.
    destruct rid; [apply lookup_insert_eq | apply lookup_delete_eq].
  - rewrite lookup_insert_ne by done. apply lookup_insert_eq.
  - apply lookup_insert_eq.
  - intros k H1 H2 H3. rewrite !lookup_insert_ne by done.
    destruct rid; [by rewrite lookup_insert_ne | by rewrite lookup_delete_ne].
Qed.

(** C7.  For a payment in SUCCESS with an external transaction id whose
    provider accepts the refund, [refundPayment] stores the payment as FAILED
    with [refundId], [refundedAt] and [refundAmount] written into
    [rawResponse] (the amount is the order's total when none is given) and
    every other key of the blob kept; orders and products are untouched; the
    provider has been called once. *)
Theorem C7_refund_marks_failed env w pid pay tid o amount result :
  payments (db w) !! pid = Some pay →
  Payment.status pay = PaymentStatus.SUCCESS →
  Payment.transactionId pay = Some tid → tid ≠ EmptyString →
  orders (db w) !! Payment.orderId pay = Some o →
  IPaymentStrategy.refundPayment (strategyOf env (Payment.provider pay)) tid amount
  = Ok result →
  rr_success result = true →
  ∃ pay' w',
    PaymentService.refundPayment env pid amount w = (Ok pay', w')
    ∧ payments (db w') = <[pid := pay']> (payments (db w))
    ∧ Payment.status pay' = PaymentStatus.FAILED
    ∧ Payment.rawResponse pay' !! "refundId" = JString <$> rr_refundId result
    ∧ Payment.rawResponse pay' !! "refundedAt" = Some (JString (now env))
    ∧ Payment.rawResponse pay' !! "refundAmount"
      = Some (JNumber (amountOr amount (Order.totalAmount o)))
    ∧ (amount = None →
       Payment.rawResponse pay' !! "refundAmount" = Some (JNumber (Order.totalAmount o)))
    ∧ (∀ k, k ≠ "refundId" → k ≠ "refundedAt" → k ≠ "refundAmount" →
         Payment.rawResponse pay' !! k = Payment.rawResponse pay !! k)
    ∧ orders (db w') = orders (db w)
    ∧ orderStatusOf w' (Payment.orderId pay) = Some (Order.status o)
    ∧ products (db w') = products (db w)
    ∧ calls w' = (calls w ++ [CallRefund (providerName (Payment.provider pay)) tid amount])%list.
Proof.
  intros Hpay Hst Htid Hne Ho Hrefund Hok.
  pose proof (spread_refund_lookup (Payment.rawResponse pay)
                (jsonOfOptString (rr_refundId result)) (JString (now env))
                (JNumber (amountOr amount (Order.totalAmount o))))
    as (Hid & Hat & Hamt & Hother).
  exists (refundedPayment env pay o amount result),
    (withDb (set_payments (<[pid := refundedPayment env pay o amount result]>
                             (payments (db w))) (db w))
       (logged (CallRefund (providerName (Payment.provider pay)) tid amount) w)).
  split.
  - unfold PaymentService.refundPayment, mbind, M_bind, getDb. simpl.
    rewrite Hpay, Hst, Htid, truthy_Some by done. simpl.
    destruct (Payment.provider pay); simpl in *;
      unfold liftResult; rewrite Hrefund, Hok; simpl; rewrite Ho;
      rewrite (payment_update_ok _ _ pay) by done; reflexivity.
  - split_and!; try done.
    + intros ->. exact Hamt.
    + unfold orderStatusOf. simpl. by rewrite Ho.
Qed.

Lemma C7_witness :
  ∃ pay' w',
    PaymentService.refundPayment Sample.env "pay-1" None
      (Sample.world 7 3 OrderStatus.PAID PaymentProvider.STRIPE PaymentStatus.SUCCESS)
    = (Ok pay', w')
    ∧ Payment.status pay' = PaymentStatus.FAILED
    ∧ Payment.rawResponse pay' !! "refundId" = Some (JString "re_pi_1")
    ∧ Payment.rawResponse pay' !! "refundAmount" = Some (JNumber 3000)
    ∧ orderStatusOf w' "order-1" = Some OrderStatus.PAID.
Proof.
  destruct (C7_refund_marks_failed Sample.env
              (Sample.world 7 3 OrderStatus.PAID PaymentProvider.STRIPE
                 PaymentStatus.SUCCESS)
              "pay-1" (Sample.payment PaymentProvider.STRIPE PaymentStatus.SUCCESS)
              "pi_1" (Sample.order OrderStatus.PAID [Sample.line "p1" 3]) None
              {| rr_success := true; rr_refundId := Some "re_pi_1" |})
    as (pay' & w' & Hrun & _ & Hst & Hid & _ & Hamt & _ & _ & _ & Host & _ & _).
  - reflexivity.
  - reflexivity.
  - reflexivity.
  - discriminate.
  - reflexivity.
  - reflexivity.
  - reflexivity.
  - exists pay', w'. split_and!; [exact Hrun | exact Hst | exact Hid | exact Hamt | exact Host].
Defined.

(** ** C2: what later operations do to a SUCCESS payment *)

Lemma handlePaymentFailed_marks_failed env intent w pid pay :
  payment_findFirst (pi_id intent) (db w) = Some (pid, pay) →
  ∃ pay',
    Payment.status pay' = PaymentStatus.FAILED
    ∧ PaymentService.handlePaymentFailed env intent w
      = (Ok tt, withDb (set_payments (<[pid := pay']> (payments (db w))) (db w)) w).
Proof.
  intros Hfind. destruct (payment_findFirst_Some _ _ _ _ Hfind) as [Hpay _].
  exists (failedPayment pay
            [("type", JString "payment_intent.payment_failed");
             ("error", pi_last_payment_error intent);
             ("processedAt", JString (now env))]).
  split; [done|].
  unfold PaymentService.handlePaymentFailed, mbind, M_bind, getDb. simpl.
  rewrite Hfind. by rewrite (payment_update_ok _ _ pay).
Qed.

Lemma handlePaymentCanceled_cancels env intent w pid pay o :
  payment_findFirst (pi_id intent) (db w) = Some (pid, pay) →
  orders (db w) !! Payment.orderId pay = Some o →
  ∃ pay',
    Payment.status pay' = PaymentStatus.FAILED
    ∧ PaymentService.handlePaymentCanceled env intent w
      = (Ok tt,
         withDb {| products := products (db w);
                   orders := <[Payment.orderId pay :=
                                 Order.set_status OrderStatus.CANCELED o]> (orders (db w));
                   payments := <[pid := pay']> (payments (db w)) |} w).
Proof.
  intros Hfind Ho. destruct (payment_findFirst_Some _ _ _ _ Hfind) as [Hpay _].
  exists (failedPayment pay
            [("type", JString "payment_intent.canceled");
             ("processedAt", JString (now env))]).
  split; [done|].
  unfold PaymentService.handlePaymentCanceled, mbind, M_bind, getDb. simpl.
  rewrite Hfind. unfold transaction.
  rewrite (payment_update_ok _ _ pay) by done.
  by rewrite (order_update_status_ok _ _ o).
Qed.

Lemma product_decrement_frame id q w r w' :
  product_decrement id q w = (r, w') →
  payments (db w') = payments (db w) ∧ orders (db w') = orders (db w)
  ∧ calls w' = calls w ∧ fresh w' = fresh w.
Proof.
  unfold product_decrement, mbind, M_bind, getDb, putDb, throw. simpl.
  destruct (products (db w) !! id); intros [= <- <-]; done.
Qed.

Lemma reduceStock_loop_frame snapshot items : ∀ w r w',
  PaymentService.reduceStock_loop snapshot items w = (r, w') →
  payments (db w') = payments (db w) ∧ orders (db w') = orders (db w)
  ∧ calls w' = calls w ∧ fresh w' = fresh w.
Proof.
  induction items as [|item rest IH]; intros w r w'; simpl.
  - by intros [= <- <-].
  - destruct (snapshot !! OrderItem.productId item) as [p|]; [|by intros [= <- <-]].
    destruct (Product.stock p <? OrderItem.quantity item); [by intros [= <- <-]|].
    unfold mbind, M_bind.
    destruct (product_decrement _ _ w) as [[[]|e] w1] eqn:Hdec.
    + apply product_decrement_frame in Hdec as (Hp & Ho & Hc & Hf).
      intros Hrun. apply IH in Hrun as (Hp' & Ho' & Hc' & Hf').
      by rewrite Hp', Ho', Hc', Hf'.
    + apply product_decrement_frame in Hdec. by intros [= <- <-].
Qed.

Lemma reduceStock_frame orderId w r w' :
  PaymentService.reduceStock orderId w = (r, w') →
  payments (db w') = payments (db w) ∧ orders (db w') = orders (db w)
  ∧ calls w' = calls w ∧ fresh w' = fresh w.
Proof.
  unfold PaymentService.reduceStock, mbind, M_bind, getDb. simpl.
  destruct (orders (db w) !! orderId); [|by intros [= <- <-]].
  apply reduceStock_loop_frame.
Qed.

Lemma verifyPayment_order_missing env pid w pay tid :
  payments (db w) !! pid = Some pay →
  Payment.transactionId pay = Some tid → tid ≠ EmptyString →
  orders (db w) !! Payment.orderId pay = None →
  verified (IPaymentStrategy.verifyPayment (strategyOf env (Payment.provider pay)) tid)
  = true →
  PaymentService.verifyPayment env pid w
  = (Throw recordNotFound,
     logged (CallVerify (providerName (Payment.provider pay)) tid) w).
Proof.
  intros Hpay Htid Hne Ho Hv.
  rewrite (verifyPayment_unfold _ _ _ pay tid) by done.
  unfold transaction, verifyPayment_body, mbind, M_bind.
  rewrite (payment_update_ok _ _ pay) by done. rewrite Hv.
  unfold order_update_status, mbind, M_bind, getDb, throw. simpl. by rewrite Ho.
Qed.

(** A verification that reports success never moves a payment out of SUCCESS. *)
Lemma verifyPayment_verified_keeps_success env pid w pay tid :
  payments (db w) !! pid = Some pay →
  Payment.status pay = PaymentStatus.SUCCESS →
  Payment.transactionId pay = Some tid → tid ≠ EmptyString →
  verified (IPaymentStrategy.verifyPayment (strategyOf env (Payment.provider pay)) tid)
  = true →
  paymentStatusOf (PaymentService.verifyPayment env pid w).2 pid
  = Some PaymentStatus.SUCCESS.
Proof.
  intros Hpay Hst Htid Hne Hv.
  destruct (orders (db w) !! Payment.orderId pay) as [o|] eqn:Ho.
  2:{ rewrite (verifyPayment_order_missing _ _ _ pay tid) by done.
      unfold paymentStatusOf. simpl. rewrite Hpay. simpl. by rewrite Hst. }
  destruct (Payment.provider pay) eqn:Hprov.
  { rewrite (verifyPayment_stripe_verified _ _ _ pay tid o) by done.
    unfold paymentStatusOf. simpl. rewrite lookup_insert_eq. simpl.
    simpl in Hv. by rewrite Hv. }
  rewrite (verifyPayment_unfold _ _ _ pay tid) by done. rewrite Hprov.
  simpl strategyOf in *.
  unfold transaction, verifyPayment_body, mbind, M_bind.
  rewrite (payment_update_ok _ _ pay) by done. rewrite Hv.
  rewrite (order_update_status_ok _ _ o) by done. rewrite Hprov. simpl.
  match goal with
  | |- context [PaymentService.reduceStock ?oid ?w0] =>
      destruct (PaymentService.reduceStock oid w0) as [[[]|e] w3] eqn:Hred
  end.
  - apply reduceStock_frame in Hred as (Hp & _).
    unfold paymentStatusOf. simpl. rewrite Hp. simpl.
    by rewrite lookup_insert_eq.
  - unfold paymentStatusOf. simpl. rewrite Hpay. simpl. by rewrite Hst.
Qed.

(** C2 (amended).  For a payment whose status is SUCCESS: a later
    [payment_intent.succeeded] event changes nothing in the store, and a
    later [verifyPayment] whose provider result is [verified = true] leaves
    the payment in SUCCESS; the other settlement operations are not blocked:
    a [payment_intent.payment_failed] event and a [verifyPayment] with
    [verified = false] set the payment to FAILED and leave the orders as
    they are, a [payment_intent.canceled] event sets the payment to FAILED
    and its order to CANCELED. *)
Theorem C2_success_is_final_for_success_outcomes env w pid pay tid o :
  payments (db w) !! pid = Some pay →
  Payment.status pay = PaymentStatus.SUCCESS →
  Payment.transactionId pay = Some tid → tid ≠ EmptyString →
  orders (db w) !! Payment.orderId pay = Some o →
  (∀ payload signature event,
     signedEvent env payload signature event →
     payment_findFirst (pi_id (ev_object event)) (db w) = Some (pid, pay) →
     (ev_type event = "payment_intent.succeeded" →
        PaymentService.handleStripeWebhook env payload signature w
        = (Ok {| PaymentService.received := true |},
           logged (CallConstructEvent payload signature) w))
     ∧ (ev_type event = "payment_intent.payment_failed" →
        ∃ w', PaymentService.handleStripeWebhook env payload signature w
              = (Ok {| PaymentService.received := true |}, w')
              ∧ paymentStatusOf w' pid = Some PaymentStatus.FAILED
              ∧ orders (db w') = orders (db w))
     ∧ (ev_type event = "payment_intent.canceled" →
        ∃ w', PaymentService.handleStripeWebhook env payload signature w
              = (Ok {| PaymentService.received := true |}, w')
              ∧ paymentStatusOf w' pid = Some PaymentStatus.FAILED
              ∧ orderStatusOf w' (Payment.orderId pay) = Some OrderStatus.CANCELED))
  ∧ (verified (IPaymentStrategy.verifyPayment
                 (strategyOf env (Payment.provider pay)) tid) = false →
     ∃ r w', PaymentService.verifyPayment env pid w = (Ok r, w')
             ∧ paymentStatusOf w' pid = Some PaymentStatus.FAILED
             ∧ orders (db w') = orders (db w))
  ∧ (verified (IPaymentStrategy.verifyPayment
                 (strategyOf env (Payment.provider pay)) tid) = true →
     ∃ r w', PaymentService.verifyPayment env pid w = (r, w')
             ∧ paymentStatusOf w' pid = Some PaymentStatus.SUCCESS).
Proof.
  intros Hpay Hst Htid Hne Ho. split_and!.
  - intros payload signature event Hsigned Hfind.
    rewrite (handleStripeWebhook_dispatch _ _ _ event) by done.
    unfold dispatch. split_and!; intros Htype; rewrite Htype; simpl.
    + by rewrite (handlePaymentSuccess_already_processed _ _ _ pid pay).
    + destruct (handlePaymentFailed_marks_failed env (ev_object event)
                  (logged (CallConstructEvent payload signature) w) pid pay)
        as (pay' & Hst' & ->); [done|].
      eexists. split; [done|]. split; [|done].
      unfold paymentStatusOf. simpl. by rewrite lookup_insert_eq, <- Hst'.
    + destruct (handlePaymentCanceled_cancels env (ev_object event)
                  (logged (CallConstructEvent payload signature) w) pid pay o)
        as (pay' & Hst' & ->); [done..|].
      eexists. split; [done|]. split.
      * unfold paymentStatusOf. simpl. by rewrite lookup_insert_eq, <- Hst'.
      * unfold orderStatusOf. simpl. by rewrite lookup_insert_eq.
  - intros Hv. rewrite (verifyPayment_not_verified env pid w pay tid) by done.
    do 2 eexists. split; [done|]. split; [|done].
    unfold paymentStatusOf. simpl. rewrite lookup_insert_eq. simpl. by rewrite Hv.
  - intros Hv.
    pose proof (verifyPayment_verified_keeps_success env pid w pay tid
                  Hpay Hst Htid Hne Hv) as Hkeep.
    destruct (PaymentService.verifyPayment env pid w) as [r w']. by exists r, w'.
Qed.

Lemma C2_witness :
  PaymentService.handleStripeWebhook Sample.env "payment_intent.succeeded" "valid"
    (Sample.world 7 3 OrderStatus.PAID PaymentProvider.STRIPE PaymentStatus.SUCCESS)
  = (Ok {| PaymentService.received := true |},
     logged (CallConstructEvent "payment_intent.succeeded" "valid")
       (Sample.world 7 3 OrderStatus.PAID PaymentProvider.STRIPE PaymentStatus.SUCCESS)).
Proof.
  refine (proj1 (proj1 (C2_success_is_final_for_success_outcomes Sample.env
            (Sample.world 7 3 OrderStatus.PAID PaymentProvider.STRIPE
               PaymentStatus.SUCCESS)
            "pay-1" (Sample.payment PaymentProvider.STRIPE PaymentStatus.SUCCESS)
            "pi_1" (Sample.order OrderStatus.PAID [Sample.line "p1" 3])
            _ _ _ _ _)
          "payment_intent.succeeded" "valid"
          {| ev_type := "payment_intent.succeeded"; ev_object := Sample.succeeded |}
          _ _) _).
  - reflexivity.
  - reflexivity.
  - reflexivity.
  - discriminate.
  - reflexivity.
  - apply Sample_signedEvent.
  - vm_compute. reflexivity.
  - reflexivity.
Defined.

(** The sample payment is SUCCESS and its order PAID; a signed
    [payment_intent.canceled] event for it is acknowledged and leaves the
    payment FAILED and the order CANCELED. *)
Lemma C2_counterexample :
  ∃ w',
    paymentStatusOf
      (Sample.world 7 3 OrderStatus.PAID PaymentProvider.STRIPE PaymentStatus.SUCCESS)
      "pay-1" = Some PaymentStatus.SUCCESS
    ∧ orderStatusOf
        (Sample.world 7 3 OrderStatus.PAID PaymentProvider.STRIPE PaymentStatus.SUCCESS)
        "order-1" = Some OrderStatus.PAID
    ∧ PaymentService.handleStripeWebhook Sample.env "payment_intent.canceled" "valid"
        (Sample.world 7 3 OrderStatus.PAID PaymentProvider.STRIPE PaymentStatus.SUCCESS)
      = (Ok {| PaymentService.received := true |}, w')
    ∧ paymentStatusOf w' "pay-1" = Some PaymentStatus.FAILED
    ∧ paymentStatusOf w' "pay-1" ≠ Some PaymentStatus.SUCCESS
    ∧ orderStatusOf w' "order-1" = Some OrderStatus.CANCELED
    ∧ orderStatusOf w' "order-1" ≠ Some OrderStatus.PAID.
Proof.
  eexists. split_and!; [vm_compute; reflexivity.. | | |].
  all: vm_compute; first [reflexivity | discriminate].
Qed.

(** ** C1: duplicate success notifications *)

Lemma transactionId_unique_update d d' pid pay pay' :
  transactionId_unique d →
  payments d !! pid = Some pay →
  Payment.transactionId pay' = Payment.transactionId pay →
  payments d' = <[pid := pay']> (payments d) →
  transactionId_unique d'.
Proof.
  intros Huniq Hpay Htid Hd'.
  assert (Hback : ∀ k p t, payments d' !! k = Some p →
            Payment.transactionId p = Some t →
            ∃ p0, payments d !! k = Some p0 ∧ Payment.transactionId p0 = Some t).
  { intros k p t. rewrite Hd', lookup_insert.
    case_decide; intros ? ?; simplify_eq; [|by eauto].
    exists pay. split; [done | congruence]. }
  intros k1 k2 p1 p2 t H1 H2 Ht1 Ht2.
  destruct (Hback _ _ _ H1 Ht1) as (q1 & ? & ?).
  destruct (Hback _ _ _ H2 Ht2) as (q2 & ? & ?).
  by eapply Huniq.
Qed.

Lemma deliver_webhook_already_processed env payload signature event pid n : ∀ w pay,
  signedEvent env payload signature event →
  ev_type event = "payment_intent.succeeded" →
  payment_findFirst (pi_id (ev_object event)) (db w) = Some (pid, pay) →
  Payment.status pay = PaymentStatus.SUCCESS →
  ∃ w', deliver n (PaymentService.handleStripeWebhook env payload signature) w
        = (replicate n (Ok {| PaymentService.received := true |}), w')
        ∧ db w' = db w.
Proof.
  induction n as [|n IH]; intros w pay Hsigned Htype Hfind Hst; simpl.
  - by exists w.
  - rewrite (handleStripeWebhook_dispatch _ _ _ event) by done.
    unfold dispatch. rewrite Htype. simpl.
    rewrite (handlePaymentSuccess_already_processed _ _ _ pid pay) by done.
    destruct (IH (logged (CallConstructEvent payload signature) w) pay)
      as (w' & -> & Hdb); [done..|].
    by exists w'.
Qed.

Lemma truthy_inv s : truthy s = true → ∃ tid, s = Some tid ∧ tid ≠ EmptyString.
Proof.
  destruct s as [tid|]; [|done]. simpl. intros Ht. exists tid. split; [done|].
  intros ->. done.
Qed.

Lemma verifyPayment_not_found env pid w :
  payments (db w) !! pid = None →
  PaymentService.verifyPayment env pid w
  = (Throw (NotFoundError ("Payment " +:+ pid +:+ " not found")), w).
Proof.
  intros Hpay. unfold PaymentService.verifyPayment, mbind, M_bind, getDb. simpl.
  by rewrite Hpay.
Qed.

Lemma verifyPayment_no_transactionId env pid w pay :
  payments (db w) !! pid = Some pay →
  truthy (Payment.transactionId pay) = false →
  PaymentService.verifyPayment env pid w
  = (Throw (PaymentError "Transaction ID not found"), w).
Proof.
  intros Hpay Ht. unfold PaymentService.verifyPayment, mbind, M_bind, getDb. simpl.
  by rewrite Hpay, Ht.
Qed.

Lemma verifyPayment_stripe_frame env pid w :
  stripePayment pid w →
  products (db (PaymentService.verifyPayment env pid w).2) = products (db w)
  ∧ stripePayment pid (PaymentService.verifyPayment env pid w).2.
Proof.
  intros Hstripe.
  destruct (payments (db w) !! pid) as [pay|] eqn:Hpay.
  2:{ by rewrite verifyPayment_not_found. }
  pose proof (Hstripe pay Hpay) as Hprov.
  destruct (truthy (Payment.transactionId pay)) eqn:Ht.
  2:{ by rewrite (verifyPayment_no_transactionId _ _ _ pay). }
  apply truthy_inv in Ht as (tid & Htid & Hne).
  destruct (verified (IPaymentStrategy.verifyPayment
                        (strategyOf env (Payment.provider pay)) tid)) eqn:Hv.
  - destruct (orders (db w) !! Payment.orderId pay) as [o|] eqn:Ho.
    + rewrite Hprov in Hv.
      rewrite (verifyPayment_stripe_verified _ _ _ pay tid o) by done.
      split; [done|]. intros p. simpl. rewrite lookup_insert_eq. by intros [= <-].
    + by rewrite (verifyPayment_order_missing _ _ _ pay tid).
  - rewrite (verifyPayment_not_verified _ _ _ pay tid) by done.
    split; [done|]. intros p. simpl. rewrite lookup_insert_eq. by intros [= <-].
Qed.

Lemma deliver_verifyPayment_stripe env pid n : ∀ w,
  stripePayment pid w →
  products (db (deliver n (PaymentService.verifyPayment env pid) w).2) = products (db w).
Proof.
  induction n as [|n IH]; intros w Hstripe; simpl; [done|].
  destruct (verifyPayment_stripe_frame env pid w Hstripe) as [Hprod Hstripe'].
  destruct (PaymentService.verifyPayment env pid w) as [r w1]. simpl in *.
  specialize (IH w1 Hstripe').
  destruct (deliver n _ w1) as [rs w']. simpl in *. congruence.
Qed.

(** C1 (amended).  For a payment that is PENDING with sufficient stock for
    its order's line items, and any number N >= 1 of duplicate
    [payment_intent.succeeded] webhook events for it: every delivery is
    acknowledged, and after the last one each product has lost exactly once
    the quantity ordered of it, whatever N.  Manual verifications are outside
    this guarantee by design: on a STRIPE payment, any number of them leaves
    every stock as it was. *)
Theorem C1_duplicate_success_events_decrement_once env w pid pay tid o :
  payments (db w) !! pid = Some pay →
  Payment.status pay = PaymentStatus.PENDING →
  Payment.transactionId pay = Some tid →
  transactionId_unique (db w) →
  orders (db w) !! Payment.orderId pay = Some o →
  positiveQuantities (Order.items o) →
  sufficientStock (products (db w)) (Order.items o) →
  (∀ payload signature event N,
     signedEvent env payload signature event →
     ev_type event = "payment_intent.succeeded" →
     pi_id (ev_object event) = tid →
     (1 ≤ N)%nat →
     ∃ w', deliver N (PaymentService.handleStripeWebhook env payload signature) w
           = (replicate N (Ok {| PaymentService.received := true |}), w')
           ∧ decrementedOnce (Order.items o) w w'
           ∧ settled w' pid (Payment.orderId pay))
  ∧ (Payment.provider pay = PaymentProvider.STRIPE →
     ∀ N, stockUnchanged w (deliver N (PaymentService.verifyPayment env pid) w).2).
Proof.
  intros Hpay Hst Htid Huniq Ho Hpos Hsuf. split.
  - intros payload signature event N Hsigned Htype Hid HN.
    destruct N as [|n]; [lia|]. simpl.
    assert (Hfind : payment_findFirst (pi_id (ev_object event)) (db w) = Some (pid, pay)).
    { rewrite Hid. by apply payment_findFirst_unique. }
    rewrite (handleStripeWebhook_dispatch _ _ _ event) by done.
    unfold dispatch. rewrite Htype. simpl.
    destruct (handlePaymentSuccess_settles env (ev_object event)
                (logged (CallConstructEvent payload signature) w) pid pay o)
      as (pay' & Hst' & _ & Htid' & ->); [done | by rewrite Hst | done..|].
    match goal with
    | |- context [deliver n _ ?w0] => set (w1 := w0)
    end.
    destruct (deliver_webhook_already_processed env payload signature event pid n w1 pay')
      as (w' & -> & Hdb); [done | done | | done |].
    { rewrite Hid. apply payment_findFirst_unique.
      - by eapply (transactionId_unique_update (db w) _ pid pay pay').
      - simpl. apply lookup_insert_eq.
      - congruence. }
    exists w'. split; [done|]. split.
    + intros k. unfold stockOf. rewrite Hdb. simpl. apply decrementAll_stock.
    + unfold settled, paymentStatusOf, orderStatusOf. rewrite Hdb. simpl.
      rewrite !lookup_insert_eq. simpl. by rewrite Hst'.
  - intros Hprov N k. unfold stockOf.
    rewrite deliver_verifyPayment_stripe; [done|].
    intros p Hp. by simplify_eq.
Qed.

Lemma Sample_transactionId_unique stock q ost prov pst :
  transactionId_unique (db (Sample.world stock q ost prov pst)).
Proof.
  intros k1 k2 p1 p2 t H1 H2 _ _. simpl in H1, H2.
  apply lookup_singleton_Some in H1 as [<- _].
  by apply lookup_singleton_Some in H2 as [<- _].
Qed.

Lemma C1_witness :
  ∃ w',
    deliver 3 (PaymentService.handleStripeWebhook Sample.env
                 "payment_intent.succeeded" "valid")
      (Sample.world 10 3 OrderStatus.PENDING PaymentProvider.STRIPE PaymentStatus.PENDING)
    = (replicate 3 (Ok {| PaymentService.received := true |}), w')
    ∧ decrementedOnce [Sample.line "p1" 3]
        (Sample.world 10 3 OrderStatus.PENDING PaymentProvider.STRIPE
           PaymentStatus.PENDING) w'
    ∧ settled w' "pay-1" "order-1".
Proof.
  refine (proj1 (C1_duplicate_success_events_decrement_once Sample.env
            (Sample.world 10 3 OrderStatus.PENDING PaymentProvider.STRIPE
               PaymentStatus.PENDING)
            "pay-1" (Sample.payment PaymentProvider.STRIPE PaymentStatus.PENDING)
            "pi_1" (Sample.order OrderStatus.PENDING [Sample.line "p1" 3])
            _ _ _ _ _ _ _)
          "payment_intent.succeeded" "valid"
          {| ev_type := "payment_intent.succeeded"; ev_object := Sample.succeeded |}
          3%nat _ _ _ _).
  - reflexivity.
  - reflexivity.
  - reflexivity.
  - apply Sample_transactionId_unique.
  - reflexivity.
  - apply Sample_positiveQuantities. lia.
  - apply Sample_sufficientStock. lia.
  - apply Sample_signedEvent.
  - reflexivity.
  - reflexivity.
  - lia.
Defined.

(** The sample STRIPE payment is PENDING, its order asks for 3 of 10 units;
    two manual verifications, both answered [verified = true], are both
    returned as SUCCESS and the stock is still 10: the decrement applied is
    0, not 1 x 3. *)
Lemma C1_counterexample :
  ∃ r1 r2 w',
    paymentStatusOf
      (Sample.world 10 3 OrderStatus.PENDING PaymentProvider.STRIPE PaymentStatus.PENDING)
      "pay-1" = Some PaymentStatus.PENDING
    ∧ stockOf
        (Sample.world 10 3 OrderStatus.PENDING PaymentProvider.STRIPE PaymentStatus.PENDING)
        "p1" = Some 10
    ∧ deliver 2 (PaymentService.verifyPayment Sample.env "pay-1")
        (Sample.world 10 3 OrderStatus.PENDING PaymentProvider.STRIPE PaymentStatus.PENDING)
      = ([Ok r1; Ok r2], w')
    ∧ verified (IPaymentStrategy.verifyPayment (stripe Sample.env) "pi_1") = true
    ∧ Payment.status r1 = PaymentStatus.SUCCESS
    ∧ Payment.status r2 = PaymentStatus.SUCCESS
    ∧ stockOf w' "p1" = Some 10
    ∧ stockOf w' "p1" ≠ Some (10 - 1 * 3).
Proof.
  do 3 eexists. split_and!; try (vm_compute; reflexivity).
  vm_compute. discriminate.
Qed.

(** On the verification path of a BKASH payment nothing looks at the status
    the payment already has: the second of two verifications decrements the
    stock again (10 - 3 - 3). *)
Example verifyPayment_bkash_twice :
  ∃ r1 r2 w',
    deliver 2 (PaymentService.verifyPayment Sample.env "pay-1")
      (Sample.world 10 3 OrderStatus.PENDING PaymentProvider.BKASH PaymentStatus.PENDING)
    = ([Ok r1; Ok r2], w')
    ∧ stockOf w' "p1" = Some 4.
Proof. do 3 eexists. split; vm_compute; reflexivity. Qed.

(** ** C10: order creation *)

(** How many rows [findMany ... in productIds] returns. *)

Lemma size_list_to_set_le (l : list string) :
  (size (list_to_set l : gset string) ≤ length l)%nat.
Proof.
  induction l as [|x l IH]; [by rewrite list_to_set_nil, size_empty|].
  rewrite list_to_set_cons, size_union_alt, size_singleton. simpl.
  assert (size (list_to_set l ∖ {[x]} : gset string) ≤ size (list_to_set l : gset string))%nat
    by (apply subseteq_size; set_solver).
  lia.
Qed.

Lemma size_list_to_set_NoDup (l : list string) :
  size (list_to_set l : gset string) = length l → NoDup l.
Proof.
  induction l as [|x l IH]; [constructor|].
  rewrite list_to_set_cons, size_union_alt, size_singleton. simpl. intros Hsize.
  pose proof (size_list_to_set_le l) as Hle.
  assert (Hsub : (size (list_to_set l ∖ {[x]} : gset string)
                  ≤ size (list_to_set l : gset string))%nat)
    by (apply subseteq_size; set_solver).
  assert (Heq : list_to_set l ∖ {[x]} = (list_to_set l : gset string)).
  { apply set_subseteq_size_eq; [set_solver | lia]. }
  constructor.
  - intros Hx. assert (x ∈ (list_to_set l : gset string)) as Hin by set_solver.
    rewrite <- Heq in Hin. set_solver.
  - apply IH. lia.
Qed.

Lemma dom_product_findMany (productIds : list string) (ps : gmap string Product.t) :
  dom (filter (λ r : string * Product.t, r.1 ∈ productIds) ps)
  = dom ps ∩ (list_to_set productIds : gset string).
Proof.
  apply dom_filter_L. intros i. rewrite elem_of_intersection, elem_of_dom.
  rewrite elem_of_list_to_set. unfold is_Some. naive_solver.
Qed.

Lemma length_product_findMany productIds d :
  length (OrderService.product_findMany productIds d)
  = size (dom (products d) ∩ (list_to_set productIds : gset string)).
Proof.
  unfold OrderService.product_findMany.
  by rewrite length_map_to_list, <- size_dom, dom_product_findMany.
Qed.

Lemma product_findMany_all_found productIds d :
  length (OrderService.product_findMany productIds d) = length productIds
  ↔ NoDup productIds ∧ ∀ id, id ∈ productIds → is_Some (products d !! id).
Proof.
  rewrite length_product_findMany.
  pose proof (size_list_to_set_le productIds) as Hle.
  assert (Hsub : dom (products d) ∩ list_to_set productIds
                 ⊆ (list_to_set productIds : gset string)) by set_solver.
  pose proof (subseteq_size _ _ Hsub) as Hsize.
  split.
  - intros Hlen.
    assert (Heq : dom (products d) ∩ list_to_set productIds
                  = (list_to_set productIds : gset string)).
    { apply set_subseteq_size_eq; [done | lia]. }
    split.
    + apply size_list_to_set_NoDup. lia.
    + intros id Hid. apply elem_of_dom.
      assert (id ∈ (list_to_set productIds : gset string)) as Hin by set_solver.
      rewrite <- Heq in Hin. set_solver.
  - intros [Hnd Hall].
    assert (Heq : dom (products d) ∩ list_to_set productIds
                  = (list_to_set productIds : gset string)).
    { apply set_eq. intros id. rewrite elem_of_intersection, elem_of_list_to_set.
      split; [naive_solver|]. intros Hid. split; [|done].
      by apply elem_of_dom, Hall. }
    rewrite Heq. by apply size_list_to_set.
Qed.




Lemma createOrder_eq env userId data w :
  OrderService.createOrder env userId data w = createOrder_result env userId data w.
Proof.
  unfold OrderService.createOrder, createOrder_result,
    OrderService.createOrderSchema_parse, mbind, M_bind, liftResult.
  destruct (forallb _ _ && _) eqn:Hzod; [|done].
  destruct (dto_items data) as [|item rest] eqn:Hitems.
  { apply andb_prop in Hzod as [_ Hlen]. done. }
  rewrite <- Hitems.
  replace (length (dto_items data) =? 0)%nat with false by by rewrite Hitems.
  unfold transaction, getDb, throw.
  destruct (negb _); [by rewrite withDb_id|].
  unfold OrderService.product_findMany. rewrite list_to_map_to_list.
  destruct (OrderService.createOrder_loop _ _ _) as [[total lines]|e];
    [|by rewrite withDb_id].
  unfold OrderService.order_create, mbind, M_bind, nextId, getDb, putDb, throw. simpl.
  by destruct (orders (db w) !! uuid env (fresh w)).
Qed.


Lemma schemaValid_parse env data :
  schemaValid env data ↔
  forallb (OrderService.orderItemSchema env) (dto_items data)
  && (1 <=? length (dto_items data))%nat = true.
Proof.
  unfold schemaValid. rewrite andb_true_iff, forallb_forall, Nat.leb_le. split.
  - intros [Hne Hall]. split.
    + intros item Hitem. apply list_elem_of_In in Hitem.
      destruct (Hall item Hitem) as [Hu Hq].
      unfold OrderService.orderItemSchema. rewrite Hu. simpl. by apply Z.ltb_lt.
    + destruct (dto_items data); [done | simpl; lia].
  - intros [Hall Hlen]. split.
    + intros Hnil. rewrite Hnil in Hlen. simpl in Hlen. lia.
    + intros item Hitem. apply list_elem_of_In, Hall in Hitem.
      unfold OrderService.orderItemSchema in Hitem.
      apply andb_prop in Hitem as [Hu Hq]. split; [done | by apply Z.ltb_lt].
Qed.





(** * Further properties of the services *)

(** ** Frames of the store operations *)

Lemma payment_update_frame id f w r w' :
  payment_update id f w = (r, w') →
  products (db w') = products (db w) ∧ orders (db w') = orders (db w)
  ∧ calls w' = calls w ∧ fresh w' = fresh w.
Proof.
  unfold payment_update, mbind, M_bind, getDb, putDb, throw. simpl.
  destruct (payments (db w) !! id); intros [= <- <-]; done.
Qed.

Lemma order_update_status_frame id s w r w' :
  order_update_status id s w = (r, w') →
  products (db w') = products (db w) ∧ payments (db w') = payments (db w)
  ∧ calls w' = calls w ∧ fresh w' = fresh w.
Proof.
  unfold order_update_status, mbind, M_bind, getDb, putDb, throw. simpl.
  destruct (orders (db w) !! id); intros [= <- <-]; done.
Qed.

(** ** PaymentService.initiatePayment *)

Lemma payments_of_order_empty d orderId :
  unpaidOrder d orderId → payments_of_order orderId d = [].
Proof.
  intros Hnone. unfold payments_of_order.
  destruct (List.filter _ _) as [|[pid pay] l] eqn:Hf; [done|].
  assert (Hin : In (pid, pay) (List.filter
            (λ r : string * Payment.t, String.eqb (Payment.orderId r.2) orderId)
            (map_to_list (payments d)))) by (rewrite Hf; by left).
  apply filter_In in Hin as [Hin Heq]. simpl in Heq.
  apply String.eqb_eq in Heq.
  apply list_elem_of_In, elem_of_map_to_list in Hin. by destruct (Hnone pid pay).
Qed.

Lemma initiatePayment_accepted env w orderId providerArg o name strategy result :
  let provider := default "stripe" providerArg in
  orders (db w) !! orderId = Some o →
  unpaidOrder (db w) orderId →
  PaymentStrategyFactory.getStrategy env provider = Ok (name, strategy) →
  IPaymentStrategy.initiatePayment strategy (initiateData env orderId provider o) = Ok result →
  pr_success result = true →
  payments (db w) !! uuid env (fresh w) = None →
  PaymentService.initiatePayment env orderId providerArg w
  = (Ok {| PaymentService.ir_paymentId := uuid env (fresh w);
           PaymentService.ir_clientSecret := pr_clientSecret result;
           PaymentService.ir_redirectUrl := pr_redirectUrl result |},
     {| db := set_payments
                (<[uuid env (fresh w) := initiatedPayment env orderId provider result]>
                   (payments (db w))) (db w);
        calls := calls w ++ [CallInitiate name (initiateData env orderId provider o)];
        fresh := S (fresh w) |}).
Proof.
  intros provider Ho Hunpaid Hget Hinit Hok Hfree.
  unfold PaymentService.initiatePayment, mbind, M_bind, getDb. simpl.
  rewrite Ho, payments_of_order_empty by done. simpl.
  fold provider. unfold liftResult. rewrite Hget. unfold logCall.
  fold (initiateData env orderId provider o). rewrite Hinit, Hok. simpl.
  unfold PaymentService.payment_create, mbind, M_bind, nextId, getDb, putDb. simpl.
  by rewrite Hfree.
Qed.

(** X1.  An initiation the provider accepts adds exactly one Payment row: it
    is PENDING, refers to the order, carries the provider's payment id as
    transaction id, and sits under the generated id that is returned; the
    other Payment rows, the orders and the products are as before, and the
    provider has been called once, with the order's total amount. *)
Theorem initiatePayment_creates_pending_payment
    env w orderId providerArg o name strategy result :
  let provider := default "stripe" providerArg in
  orders (db w) !! orderId = Some o →
  unpaidOrder (db w) orderId →
  PaymentStrategyFactory.getStrategy env provider = Ok (name, strategy) →
  IPaymentStrategy.initiatePayment strategy (initiateData env orderId provider o) = Ok result →
  pr_success result = true →
  payments (db w) !! uuid env (fresh w) = None →
  ∃ response w' pay,
    PaymentService.initiatePayment env orderId providerArg w = (Ok response, w')
    ∧ payments (db w') !! PaymentService.ir_paymentId response = Some pay
    ∧ Payment.status pay = PaymentStatus.PENDING
    ∧ Payment.orderId pay = orderId
    ∧ Payment.transactionId pay = pr_paymentId result
    ∧ (∀ k, k ≠ PaymentService.ir_paymentId response →
         payments (db w') !! k = payments (db w) !! k)
    ∧ orders (db w') = orders (db w)
    ∧ products (db w') = products (db w)
    ∧ calls w' = (calls w ++ [CallInitiate name (initiateData env orderId provider o)])%list
    ∧ pd_amount (initiateData env orderId provider o) = Order.totalAmount o.
Proof.
  intros provider Ho Hunpaid Hget Hinit Hok Hfree.
  rewrite (initiatePayment_accepted env w orderId providerArg o name strategy result)
    by done.
  eexists _, _, (initiatedPayment env orderId provider result).
  split; [reflexivity|]. simpl.
  split_and!; try done.
  - apply lookup_insert_eq.
  - intros k Hk. by rewrite lookup_insert_ne.
Qed.

Lemma Sample_unpaid :
  unpaidOrder (db Scenario.w1) "id-0".
Proof.
  intros pid pay Hpay. vm_compute in Hpay. discriminate.
Qed.

Lemma initiatePayment_creates_pending_payment_witness :
  ∃ response w' pay,
    PaymentService.initiatePayment Sample.env "id-0" None Scenario.w1 = (Ok response, w')
    ∧ payments (db w') !! PaymentService.ir_paymentId response = Some pay
    ∧ Payment.status pay = PaymentStatus.PENDING
    ∧ Payment.transactionId pay = Some "pi_id-0".
Proof.
  destruct (initiatePayment_creates_pending_payment Sample.env Scenario.w1 "id-0" None
              {| Order.userId := "user-1"; Order.totalAmount := 3000;
                 Order.status := OrderStatus.PENDING;
                 Order.items := [Sample.line "p1" 3] |}
              "stripe" (Sample.strategy true true)
              {| pr_success := true; pr_paymentId := Some "pi_id-0";
                 pr_clientSecret := Some "secret"; pr_redirectUrl := None;
                 pr_error := None |})
    as (response & w' & pay & Hrun & Hpay & Hst & _ & Htid & _).
  - vm_compute. reflexivity.
  - apply Sample_unpaid.
  - reflexivity.
  - reflexivity.
  - reflexivity.
  - vm_compute. reflexivity.
  - exists response, w', pay. split_and!; [exact Hrun | exact Hpay | exact Hst | exact Htid].
Defined.

(** X2.  Whatever makes [initiatePayment] throw -- unknown order, existing
    payment, unsupported provider, a provider that throws or declines, a
    clash of the generated id -- the store is left exactly as it was: no
    Payment row is ever written for a failed initiation. *)
Theorem initiatePayment_failure_writes_nothing env w orderId providerArg e w' :
  PaymentService.initiatePayment env orderId providerArg w = (Throw e, w') →
  db w' = db w.
Proof.
  unfold PaymentService.initiatePayment, PaymentService.payment_create,
    mbind, M_bind, getDb, putDb, throw, liftResult, logCall, nextId, mret, M_ret.
  simpl. intros Hrun.
  repeat case_match; simplify_eq; done.
Qed.

Lemma initiatePayment_failure_writes_nothing_witness :
  db (PaymentService.initiatePayment Sample.env "order-1" (Some "paypal") Scenario.w0).2
  = db Scenario.w0.
Proof.
  apply (initiatePayment_failure_writes_nothing Sample.env Scenario.w0 "order-1"
           (Some "paypal") (NotFoundError "Order order-1 not found")).
  vm_compute. reflexivity.
Defined.

(** X3.  [initiatePayment] refuses before it contacts a provider: an unknown
    order gives the not-found error, and for an order without payment a
    provider name whose lower-case form, as [toLowerCase] of the runtime
    gives it, is neither stripe nor bkash gives the validation error naming
    it; the world -- store and log of provider calls -- is untouched in both
    cases. *)
Theorem initiatePayment_refuses_before_provider env w orderId providerArg :
  let provider := default "stripe" providerArg in
  (orders (db w) !! orderId = None →
     PaymentService.initiatePayment env orderId providerArg w
     = (Throw (NotFoundError ("Order " +:+ orderId +:+ " not found")), w))
  ∧ (is_Some (orders (db w) !! orderId) →
     unpaidOrder (db w) orderId →
     toLowerCase env provider ≠ "stripe" → toLowerCase env provider ≠ "bkash" →
     PaymentService.initiatePayment env orderId providerArg w
     = (Throw (ValidationError
          ("Unsupported payment provider: " +:+ provider
           +:+ ". Supported providers: stripe, bkash")), w)).
Proof.
  intros provider. split.
  - intros Ho. unfold PaymentService.initiatePayment, mbind, M_bind, getDb. simpl.
    by rewrite Ho.
  - intros [o Ho] Hunpaid Hs Hb.
    unfold PaymentService.initiatePayment, mbind, M_bind, getDb. simpl.
    rewrite Ho, payments_of_order_empty by done. simpl. fold provider.
    unfold PaymentStrategyFactory.getStrategy, liftResult.
    destruct (String.eqb_spec (toLowerCase env provider) "stripe"); [done|].
    destruct (String.eqb_spec (toLowerCase env provider) "bkash"); [done|].
    done.
Qed.

Lemma initiatePayment_refuses_before_provider_witness :
  PaymentService.initiatePayment Sample.env "id-0" (Some "PayPal") Scenario.w1
  = (Throw (ValidationError
       "Unsupported payment provider: PayPal. Supported providers: stripe, bkash"),
     Scenario.w1).
Proof.
  refine (proj2 (initiatePayment_refuses_before_provider Sample.env Scenario.w1 "id-0"
            (Some "PayPal")) _ _ _ _).
  - vm_compute. eauto.
  - apply Sample_unpaid.
  - vm_compute. discriminate.
  - vm_compute. discriminate.
Defined.

Lemma initiatePayment_already_initiated env w orderId providerArg o pid pay :
  orders (db w) !! orderId = Some o →
  payments (db w) !! pid = Some pay →
  Payment.orderId pay = orderId →
  PaymentService.initiatePayment env orderId providerArg w
  = (Throw (PaymentError "Payment already initiated for this order"), w).
Proof.
  intros Ho Hpay <-.
  unfold PaymentService.initiatePayment, mbind, M_bind, getDb. simpl. rewrite Ho.
  by rewrite (payments_of_order_nonempty _ pid).
Qed.

(** X4.  After an accepted initiation every further initiation for the same
    order, with any provider name, is rejected and changes nothing. *)
Theorem initiatePayment_twice_is_rejected
    env w orderId providerArg providerArg' o name strategy result :
  let provider := default "stripe" providerArg in
  orders (db w) !! orderId = Some o →
  unpaidOrder (db w) orderId →
  PaymentStrategyFactory.getStrategy env provider = Ok (name, strategy) →
  IPaymentStrategy.initiatePayment strategy (initiateData env orderId provider o) = Ok result →
  pr_success result = true →
  payments (db w) !! uuid env (fresh w) = None →
  ∃ response w1,
    PaymentService.initiatePayment env orderId providerArg w = (Ok response, w1)
    ∧ PaymentService.initiatePayment env orderId providerArg' w1
      = (Throw (PaymentError "Payment already initiated for this order"), w1).
Proof.
  intros provider Ho Hunpaid Hget Hinit Hok Hfree.
  rewrite (initiatePayment_accepted env w orderId providerArg o name strategy result)
    by done.
  do 2 eexists. split; [reflexivity|].
  apply (initiatePayment_already_initiated env _ orderId providerArg' o
           (uuid env (fresh w)) (initiatedPayment env orderId provider result));
    [done | apply lookup_insert_eq | done].
Qed.

Lemma initiatePayment_twice_is_rejected_witness :
  ∃ response w1,
    PaymentService.initiatePayment Sample.env "id-0" None Scenario.w1 = (Ok response, w1)
    ∧ PaymentService.initiatePayment Sample.env "id-0" (Some "bkash") w1
      = (Throw (PaymentError "Payment already initiated for this order"), w1).
Proof.
  apply (initiatePayment_twice_is_rejected Sample.env Scenario.w1 "id-0" None (Some "bkash")
           {| Order.userId := "user-1"; Order.totalAmount := 3000;
              Order.status := OrderStatus.PENDING;
              Order.items := [Sample.line "p1" 3] |}
           "stripe" (Sample.strategy true true)
           {| pr_success := true; pr_paymentId := Some "pi_id-0";
              pr_clientSecret := Some "secret"; pr_redirectUrl := None;
              pr_error := None |}).
  - vm_compute. reflexivity.
  - apply Sample_unpaid.
  - reflexivity.
  - reflexivity.
  - reflexivity.
  - vm_compute. reflexivity.
Defined.

(** ** PaymentStrategyFactory.getStrategy *)







(** ** PaymentService.verifyPayment *)

(** X6.  [verifyPayment] fails before it contacts the provider when the
    payment does not exist (not-found error) or has no transaction id, an
    empty one included (payment error); the world is untouched. *)
Theorem verifyPayment_fails_before_provider env w pid :
  (payments (db w) !! pid = None →
     PaymentService.verifyPayment env pid w
     = (Throw (NotFoundError ("Payment " +:+ pid +:+ " not found")), w))
  ∧ (∀ pay, payments (db w) !! pid = Some pay →
       Payment.transactionId pay = None ∨ Payment.transactionId pay = Some EmptyString →
       PaymentService.verifyPayment env pid w
       = (Throw (PaymentError "Transaction ID not found"), w)).
Proof.
  split.
  - apply verifyPayment_not_found.
  - intros pay Hpay Htid. apply (verifyPayment_no_transactionId _ _ _ pay); [done|].
    by destruct Htid as [-> | ->].
Qed.

Lemma verifyPayment_fails_before_provider_witness :
  PaymentService.verifyPayment Sample.env "pay-2"
    (Sample.world 10 3 OrderStatus.PENDING PaymentProvider.STRIPE PaymentStatus.PENDING)
  = (Throw (NotFoundError "Payment pay-2 not found"),
     Sample.world 10 3 OrderStatus.PENDING PaymentProvider.STRIPE PaymentStatus.PENDING).
Proof.
  apply (proj1 (verifyPayment_fails_before_provider Sample.env
                  (Sample.world 10 3 OrderStatus.PENDING PaymentProvider.STRIPE
                     PaymentStatus.PENDING) "pay-2")).
  reflexivity.
Defined.

(** ** The webhook entry point *)

Lemma handleStripeWebhook_cases env payload signature w :
  PaymentService.handleStripeWebhook env payload signature w
  = match IPaymentStrategy.constructPaymentIntent (stripe env) with
    | None => (Throw (PaymentError "Invalid payment strategy for webhook handling"), w)
    | Some construct =>
        match construct payload signature with
        | Throw e => (Throw e, logged (CallConstructEvent payload signature) w)
        | Ok event =>
            match dispatch env event (logged (CallConstructEvent payload signature) w) with
            | (Ok _, w') => (Ok {| PaymentService.received := true |}, w')
            | (Throw e, w') => (Throw e, w')
            end
        end
    end.
Proof.
  unfold PaymentService.handleStripeWebhook, mbind, M_bind, liftResult, logCall, throw.
  simpl. destruct (IPaymentStrategy.constructPaymentIntent (stripe env)) as [construct|];
    [|done].
  by destruct (construct payload signature).
Qed.

(** X7.  The signature gate: when the Stripe strategy rejects payload and
    signature, [handleStripeWebhook] throws that error without reaching a
    handler -- the store is untouched -- and the endpoint answers with the
    error's status and message (402 for the strategy's "Invalid webhook
    signature" payment error) instead of the acknowledgment. *)
Theorem webhook_signature_gate env w payload signature construct e :
  signature ≠ EmptyString →
  IPaymentStrategy.constructPaymentIntent (stripe env) = Some construct →
  construct payload signature = Throw e →
  PaymentService.handleStripeWebhook env payload signature w
  = (Throw e, logged (CallConstructEvent payload signature) w)
  ∧ db (PaymentService.handleStripeWebhook env payload signature w).2 = db w
  ∧ PaymentController.webhook env (Some signature) payload w
    = (errorMiddleware env e, logged (CallConstructEvent payload signature) w)
  ∧ (∀ message, e = PaymentError message →
       (PaymentController.webhook env (Some signature) payload w).1
       = {| http_status := 402; http_body := BodyFailure message |}).
Proof.
  intros Hsig Hc He.
  assert (Hrun : PaymentService.handleStripeWebhook env payload signature w
                 = (Throw e, logged (CallConstructEvent payload signature) w)).
  { by rewrite handleStripeWebhook_cases, Hc, He. }
  assert (Hhttp : PaymentController.webhook env (Some signature) payload w
                  = (errorMiddleware env e, logged (CallConstructEvent payload signature) w)).
  { unfold PaymentController.webhook. rewrite truthy_Some by done. simpl.
    by rewrite Hrun. }
  split_and!; [done | by rewrite Hrun | done |].
  intros message ->. by rewrite Hhttp.
Qed.

Lemma webhook_signature_gate_witness :
  PaymentController.webhook Sample.env (Some "forged") "payment_intent.succeeded"
    (Sample.world 10 3 OrderStatus.PENDING PaymentProvider.STRIPE PaymentStatus.PENDING)
  = ({| http_status := 402; http_body := BodyFailure "Invalid webhook signature" |},
     logged (CallConstructEvent "payment_intent.succeeded" "forged")
       (Sample.world 10 3 OrderStatus.PENDING PaymentProvider.STRIPE
          PaymentStatus.PENDING)).
Proof.
  refine (proj1 (proj2 (proj2 (webhook_signature_gate Sample.env
            (Sample.world 10 3 OrderStatus.PENDING PaymentProvider.STRIPE
               PaymentStatus.PENDING)
            "payment_intent.succeeded" "forged" _
            (PaymentError "Invalid webhook signature") _ eq_refl _)))).
  - discriminate.
  - reflexivity.
Defined.

(** X8.  The endpoint without a [stripe-signature] header, or with an empty
    one, answers 400 and never reaches the service: no strategy is called and
    the world is untouched. *)
Theorem webhook_without_signature_is_rejected env w payload signature :
  signature = None ∨ signature = Some EmptyString →
  PaymentController.webhook env signature payload w
  = ({| http_status := 400;
        http_body := BodyFailure "Missing stripe-signature header" |}, w).
Proof. by intros [-> | ->]. Qed.

Lemma webhook_without_signature_is_rejected_witness :
  PaymentController.webhook Sample.env None "payment_intent.succeeded" Scenario.w4
  = ({| http_status := 400;
        http_body := BodyFailure "Missing stripe-signature header" |}, Scenario.w4).
Proof.
  apply (webhook_without_signature_is_rejected Sample.env Scenario.w4
           "payment_intent.succeeded" None).
  by left.
Defined.

Lemma handlePaymentFailed_frame env intent w r w' :
  PaymentService.handlePaymentFailed env intent w = (r, w') →
  products (db w') = products (db w) ∧ orders (db w') = orders (db w).
Proof.
  unfold PaymentService.handlePaymentFailed, mbind at 1, M_bind at 1, getDb. simpl.
  destruct (payment_findFirst _ _) as [[pid pay]|]; [|by intros [= <- <-]].
  unfold mbind, M_bind.
  destruct (payment_update _ _ w) as [[r0|e] w1] eqn:Hup;
    apply payment_update_frame in Hup as (Hp & Ho & _); by intros [= <- <-].
Qed.

Lemma handlePaymentCanceled_frame env intent w r w' :
  PaymentService.handlePaymentCanceled env intent w = (r, w') →
  products (db w') = products (db w).
Proof.
  unfold PaymentService.handlePaymentCanceled, mbind at 1, M_bind at 1, getDb. simpl.
  destruct (payment_findFirst _ _) as [[pid pay]|]; [|by intros [= <- <-]].
  unfold transaction, mbind, M_bind.
  destruct (payment_update _ _ w) as [[r0|e] w1] eqn:Hup; [|by intros [= <- <-]].
  apply payment_update_frame in Hup as (Hp & _).
  destruct (order_update_status _ _ w1) as [[r'|e] w2] eqn:Hord; [|by intros [= <- <-]].
  apply order_update_status_frame in Hord as (Hp' & _). intros [= <- <-].
  by rewrite Hp', Hp.
Qed.

(** X9.  Only a verified [payment_intent.succeeded] event can change stock:
    for every payload and signature, either the products table after
    [handleStripeWebhook] is the one before, or the payload passed the
    signature check as a succeeded event.  Failed, canceled and unhandled
    events, and rejected payloads, never touch a product. *)
Theorem webhook_changes_stock_only_on_succeeded env w payload signature :
  products (db (PaymentService.handleStripeWebhook env payload signature w).2)
  = products (db w)
  ∨ ∃ event, signedEvent env payload signature event
             ∧ ev_type event = "payment_intent.succeeded".
Proof.
  rewrite handleStripeWebhook_cases.
  destruct (IPaymentStrategy.constructPaymentIntent (stripe env)) as [construct|] eqn:Hc;
    [|by left].
  destruct (construct payload signature) as [event|e] eqn:Hev; [|by left].
  unfold dispatch.
  destruct (String.eqb_spec (ev_type event) "payment_intent.succeeded") as [Hs|_].
  { right. exists event. split; [by exists construct | done]. }
  left.
  destruct (String.eqb (ev_type event) "payment_intent.payment_failed").
  { destruct (PaymentService.handlePaymentFailed _ _ _) as [[[]|e] w'] eqn:Hrun;
      by apply handlePaymentFailed_frame in Hrun as [Hp _]. }
  destruct (String.eqb (ev_type event) "payment_intent.canceled"); [|done].
  destruct (PaymentService.handlePaymentCanceled _ _ _) as [[[]|e] w'] eqn:Hrun;
    by apply handlePaymentCanceled_frame in Hrun.
Qed.

(** X10.  A verified event of a type the service does not handle is
    acknowledged and changes nothing in the store. *)
Theorem webhook_unhandled_event_is_acknowledged env w payload signature event :
  signedEvent env payload signature event →
  ev_type event ≠ "payment_intent.succeeded" →
  ev_type event ≠ "payment_intent.payment_failed" →
  ev_type event ≠ "payment_intent.canceled" →
  PaymentService.handleStripeWebhook env payload signature w
  = (Ok {| PaymentService.received := true |},
     logged (CallConstructEvent payload signature) w).
Proof.
  intros Hsigned H1 H2 H3.
  rewrite (handleStripeWebhook_dispatch _ _ _ event) by done. unfold dispatch.
  destruct (String.eqb_spec (ev_type event) "payment_intent.succeeded"); [done|].
  destruct (String.eqb_spec (ev_type event) "payment_intent.payment_failed"); [done|].
  by destruct (String.eqb_spec (ev_type event) "payment_intent.canceled").
Qed.

Lemma webhook_unhandled_event_is_acknowledged_witness :
  PaymentService.handleStripeWebhook Sample.env "charge.refunded" "valid" Scenario.w4
  = (Ok {| PaymentService.received := true |},
     logged (CallConstructEvent "charge.refunded" "valid") Scenario.w4).
Proof.
  apply (webhook_unhandled_event_is_acknowledged Sample.env Scenario.w4
           "charge.refunded" "valid"
           {| ev_type := "charge.refunded"; ev_object := Sample.succeeded |}).
  - eexists. split; reflexivity.
  - discriminate.
  - discriminate.
  - discriminate.
Defined.

(** ** Stock is never driven below zero by a webhook *)

Lemma handlePaymentSuccess_loop_nonneg items : ∀ w r w',
  PaymentService.handlePaymentSuccess_loop items w = (r, w') →
  stocksNonNegative (products (db w)) →
  stocksNonNegative (products (db w')).
Proof.
  induction items as [|item rest IH]; intros w r w'; simpl.
  - by intros [= <- <-].
  - unfold mbind at 1, M_bind at 1, getDb. simpl.
    destruct (products (db w) !! OrderItem.productId item) as [p|] eqn:Hp;
      [|by intros [= <- <-]].
    destruct (Product.stock p <? OrderItem.quantity item) eqn:Hlt;
      [by intros [= <- <-]|].
    apply Z.ltb_ge in Hlt.
    unfold mbind, M_bind. rewrite (product_decrement_ok _ _ p) by done.
    intros Hrun Hnn. eapply IH; [exact Hrun|]. simpl.
    intros k p'. rewrite lookup_insert. case_decide.
    + intros [= <-]. simpl. lia.
    + apply Hnn.
Qed.

Lemma handlePaymentSuccess_nonneg env intent w r w' :
  PaymentService.handlePaymentSuccess env intent w = (r, w') →
  stocksNonNegative (products (db w)) →
  stocksNonNegative (products (db w')).
Proof.
  unfold PaymentService.handlePaymentSuccess, mbind at 1, M_bind at 1, getDb. simpl.
  destruct (payment_findFirst _ _) as [[pid pay]|]; [|by intros [= <- <-]].
  destruct (PaymentStatus.eqb _ _); [by intros [= <- <-]|].
  unfold transaction, mbind, M_bind.
  destruct (payment_update _ _ w) as [[r0|e] w1] eqn:Hup; [|by intros [= <- <-]].
  apply payment_update_frame in Hup as (Hp1 & _).
  destruct (order_update_status _ _ w1) as [[r1|e] w2] eqn:Hord; [|by intros [= <- <-]].
  apply order_update_status_frame in Hord as (Hp2 & _).
  destruct (orders (db w) !! Payment.orderId pay) as [o|]; [|by intros [= <- <-]].
  destruct (PaymentService.handlePaymentSuccess_loop (Order.items o) w2)
    as [[[]|e] w3] eqn:Hloop; [|by intros [= <- <-]].
  intros [= <- <-] Hnn. eapply handlePaymentSuccess_loop_nonneg; [exact Hloop|].
  by rewrite Hp2, Hp1.
Qed.

(** X11.  The webhook never oversells: if no product has negative stock
    before [handleStripeWebhook], none has after it -- for every payload,
    signature and store, duplicate lines and insufficient stock included. *)
Theorem webhook_never_oversells env w payload signature :
  stocksNonNegative (products (db w)) →
  stocksNonNegative
    (products (db (PaymentService.handleStripeWebhook env payload signature w).2)).
Proof.
  intros Hnn. rewrite handleStripeWebhook_cases.
  destruct (IPaymentStrategy.constructPaymentIntent (stripe env)) as [construct|];
    [|done].
  destruct (construct payload signature) as [event|e]; [|done].
  unfold dispatch.
  destruct (String.eqb (ev_type event) "payment_intent.succeeded").
  { destruct (PaymentService.handlePaymentSuccess _ _ _) as [[[]|e] w'] eqn:Hrun;
      by eapply handlePaymentSuccess_nonneg in Hrun. }
  destruct (String.eqb (ev_type event) "payment_intent.payment_failed").
  { destruct (PaymentService.handlePaymentFailed _ _ _) as [[[]|e] w'] eqn:Hrun;
      apply handlePaymentFailed_frame in Hrun as [Hp _]; simpl; by rewrite Hp. }
  destruct (String.eqb (ev_type event) "payment_intent.canceled"); [|done].
  destruct (PaymentService.handlePaymentCanceled _ _ _) as [[[]|e] w'] eqn:Hrun;
    apply handlePaymentCanceled_frame in Hrun; simpl; by rewrite Hrun.
Qed.

Lemma webhook_never_oversells_witness :
  stocksNonNegative
    (products (db (PaymentService.handleStripeWebhook Sample.env
                     "payment_intent.succeeded:pi_id-1" "valid" Scenario.w5).2)).
Proof.
  apply (webhook_never_oversells Sample.env Scenario.w5
           "payment_intent.succeeded:pi_id-1" "valid").
  intros k p Hp. change (products (db Scenario.w5)) with
    ({[ "p1" := Sample.widget 2 ]} : gmap string Product.t) in Hp.
  apply lookup_singleton_Some in Hp as [_ <-]. simpl. lia.
Defined.

(** ** The two stock loops agree on well-formed orders *)

Lemma reduceStock_loop_agrees items : ∀ snapshot w,
  NoDup (OrderItem.productId <$> items) →
  (∀ item, item ∈ items →
     snapshot !! OrderItem.productId item
     = products (db w) !! OrderItem.productId item) →
  PaymentService.reduceStock_loop snapshot items w
  = PaymentService.handlePaymentSuccess_loop items w.
Proof.
  induction items as [|item rest IH]; intros snapshot w Hnd Hsame; simpl; [done|].
  apply NoDup_cons in Hnd as [Hhead Hnd].
  unfold mbind at 2, M_bind at 2, getDb. simpl.
  rewrite (Hsame item) by left.
  destruct (products (db w) !! OrderItem.productId item) as [p|] eqn:Hp; [|done].
  destruct (Product.stock p <? OrderItem.quantity item); [done|].
  unfold mbind, M_bind. rewrite (product_decrement_ok _ _ p) by done.
  apply IH; [done|]. intros x Hx. simpl.
  rewrite lookup_insert_ne; [apply Hsame; by right|].
  intros Heq. apply Hhead. rewrite Heq. by apply list_elem_of_fmap_2.
Qed.

(** X12.  For an order with one line per product, [reduceStock] (the
    verification path) does exactly what the loop of [handlePaymentSuccess]
    (the webhook path) does on the same order: the same error or success and
    the same world afterwards. *)
Theorem reduceStock_agrees_with_webhook_loop w orderId o :
  orders (db w) !! orderId = Some o →
  NoDup (OrderItem.productId <$> Order.items o) →
  PaymentService.reduceStock orderId w
  = PaymentService.handlePaymentSuccess_loop (Order.items o) w.
Proof.
  intros Ho Hnd. unfold PaymentService.reduceStock, mbind, M_bind, getDb. simpl.
  rewrite Ho. by apply reduceStock_loop_agrees.
Qed.

Lemma reduceStock_agrees_with_webhook_loop_witness :
  PaymentService.reduceStock "order-1" Sample.world2
  = PaymentService.handlePaymentSuccess_loop Sample.twoLines Sample.world2.
Proof.
  apply (reduceStock_agrees_with_webhook_loop Sample.world2 "order-1"
           (Sample.order OrderStatus.PENDING Sample.twoLines)).
  - reflexivity.
  - simpl. repeat constructor; rewrite ?elem_of_cons, ?elem_of_nil; intuition discriminate.
Defined.

(** ** PaymentService.verifyPayment: failed verification, short stock *)








(** ** PaymentService.refundPayment: declined refunds, repeated refunds *)

Lemma refundPayment_start env w pid pay tid amount :
  payments (db w) !! pid = Some pay →
  Payment.status pay = PaymentStatus.SUCCESS →
  Payment.transactionId pay = Some tid → tid ≠ EmptyString →
  PaymentService.refundPayment env pid amount w
  = let w0 := logged (CallRefund (providerName (Payment.provider pay)) tid amount) w in
    match IPaymentStrategy.refundPayment (strategyOf env (Payment.provider pay))
            tid amount with
    | Throw e => (Throw e, w0)
    | Ok result =>
        if rr_success result
        then match orders (db w) !! Payment.orderId pay with
             | None => (Throw (TypeError "Cannot read properties of null"), w0)
             | Some o =>
                 (Ok (refundedPayment env pay o amount result),
                  withDb (set_payments
                            (<[pid := refundedPayment env pay o amount result]>
                               (payments (db w))) (db w)) w0)
             end
        else (Throw (PaymentError "Refund processing failed"), w0)
    end.
Proof.
  intros Hpay Hst Htid Hne.
  unfold PaymentService.refundPayment, mbind, M_bind, getDb. simpl.
  rewrite Hpay, Hst, Htid, truthy_Some by done. simpl.
  destruct (Payment.provider pay); simpl; unfold liftResult, throw;
    (destruct (IPaymentStrategy.refundPayment _ tid amount) as [result|e]; [|done]);
    (destruct (rr_success result); [|done]); simpl;
    (destruct (orders (db w) !! Payment.orderId pay) as [o|]; [|done]);
    by rewrite (payment_update_ok _ _ pay).
Qed.

(** X15.  When the provider does not carry out the refund -- it answers
    without success, or its call throws -- [refundPayment] fails and the
    store is untouched: the payment stays SUCCESS and its audit blob is not
    written, although the provider has been called. *)
Theorem refundPayment_declined_changes_nothing env w pid pay tid amount :
  payments (db w) !! pid = Some pay →
  Payment.status pay = PaymentStatus.SUCCESS →
  Payment.transactionId pay = Some tid → tid ≠ EmptyString →
  let w0 := logged (CallRefund (providerName (Payment.provider pay)) tid amount) w in
  (∀ result,
     IPaymentStrategy.refundPayment (strategyOf env (Payment.provider pay)) tid amount
     = Ok result →
     rr_success result = false →
     PaymentService.refundPayment env pid amount w
     = (Throw (PaymentError "Refund processing failed"), w0))
  ∧ (∀ e,
       IPaymentStrategy.refundPayment (strategyOf env (Payment.provider pay)) tid amount
       = Throw e →
       PaymentService.refundPayment env pid amount w = (Throw e, w0))
  ∧ db w0 = db w
  ∧ paymentStatusOf w0 pid = Some PaymentStatus.SUCCESS.
Proof.
  intros Hpay Hst Htid Hne w0. split_and!.
  - intros result Hr Hok.
    rewrite (refundPayment_start env w pid pay tid amount) by done.
    by rewrite Hr, Hok.
  - intros e Hr.
    rewrite (refundPayment_start env w pid pay tid amount) by done.
    by rewrite Hr.
  - done.
  - unfold paymentStatusOf. simpl. rewrite Hpay. simpl. by rewrite Hst.
Qed.

Lemma refundPayment_declined_changes_nothing_witness :
  PaymentService.refundPayment
    {| stripe := {| IPaymentStrategy.initiatePayment :=
                      IPaymentStrategy.initiatePayment (Sample.strategy true true);
                    IPaymentStrategy.verifyPayment := Sample.verification true;
                    IPaymentStrategy.refundPayment := λ _ _,
                      Throw (PaymentError "Failed to process Stripe refund");
                    IPaymentStrategy.constructPaymentIntent := None |};
       bkash := Sample.strategy true false;
       now := "2026-01-01T12:00:00.000Z"; uuid := λ n, "id-" +:+ pretty n;
       isUUID := Sample.uuidShape;
         toLowerCaseUnicode := Sample.lowerWithKelvin; production := false |}
    "pay-1" None
    (Sample.world 7 3 OrderStatus.PAID PaymentProvider.STRIPE PaymentStatus.SUCCESS)
  = (Throw (PaymentError "Failed to process Stripe refund"),
     logged (CallRefund "stripe" "pi_1" None)
       (Sample.world 7 3 OrderStatus.PAID PaymentProvider.STRIPE PaymentStatus.SUCCESS)).
Proof.
  refine (proj1 (proj2 (refundPayment_declined_changes_nothing _
            (Sample.world 7 3 OrderStatus.PAID PaymentProvider.STRIPE
               PaymentStatus.SUCCESS)
            "pay-1" (Sample.payment PaymentProvider.STRIPE PaymentStatus.SUCCESS)
            "pi_1" None _ _ _ _)) _ _).
  - reflexivity.
  - reflexivity.
  - reflexivity.
  - discriminate.
  - reflexivity.
Defined.

(** X16.  A refund cannot be repeated: after a refund that went through, a
    second [refundPayment] for the same payment, with any amount, fails with
    "Can only refund successful payments" before the provider is called. *)
Theorem refundPayment_is_not_repeatable env w pid pay tid o amount amount' result :
  payments (db w) !! pid = Some pay →
  Payment.status pay = PaymentStatus.SUCCESS →
  Payment.transactionId pay = Some tid → tid ≠ EmptyString →
  orders (db w) !! Payment.orderId pay = Some o →
  IPaymentStrategy.refundPayment (strategyOf env (Payment.provider pay)) tid amount
  = Ok result →
  rr_success result = true →
  ∃ pay' w1,
    PaymentService.refundPayment env pid amount w = (Ok pay', w1)
    ∧ PaymentService.refundPayment env pid amount' w1
      = (Throw (PaymentError "Can only refund successful payments"), w1).
Proof.
  intros Hpay Hst Htid Hne Ho Hr Hok.
  rewrite (refundPayment_start env w pid pay tid amount) by done.
  simpl. rewrite Hr, Hok, Ho.
  do 2 eexists. split; [reflexivity|].
  unfold PaymentService.refundPayment, mbind, M_bind, getDb. simpl.
  by rewrite lookup_insert_eq.
Qed.

Lemma refundPayment_is_not_repeatable_witness :
  ∃ pay' w1,
    PaymentService.refundPayment Sample.env "pay-1" None
      (Sample.world 7 3 OrderStatus.PAID PaymentProvider.STRIPE PaymentStatus.SUCCESS)
    = (Ok pay', w1)
    ∧ PaymentService.refundPayment Sample.env "pay-1" (Some 1000) w1
      = (Throw (PaymentError "Can only refund successful payments"), w1).
Proof.
  apply (refundPayment_is_not_repeatable Sample.env
           (Sample.world 7 3 OrderStatus.PAID PaymentProvider.STRIPE PaymentStatus.SUCCESS)
           "pay-1" (Sample.payment PaymentProvider.STRIPE PaymentStatus.SUCCESS)
           "pi_1" (Sample.order OrderStatus.PAID [Sample.line "p1" 3]) None (Some 1000)
           {| rr_success := true; rr_refundId := Some "re_pi_1" |}).
  - reflexivity.
  - reflexivity.
  - reflexivity.
  - discriminate.
  - reflexivity.
  - reflexivity.
  - reflexivity.
Defined.

(** X17.  A refund does not close the payment against success events: with
    the payment left FAILED by the refund, a verified
    [payment_intent.succeeded] event for it is processed like a first
    settlement -- the payment is SUCCESS again, the order PAID, and every
    ordered product is decremented once more (the refund itself restored no
    stock). *)
Theorem refund_then_succeeded_event_settles_again
    env w pid pay tid o amount result payload signature event :
  payments (db w) !! pid = Some pay →
  Payment.status pay = PaymentStatus.SUCCESS →
  Payment.transactionId pay = Some tid → tid ≠ EmptyString →
  transactionId_unique (db w) →
  orders (db w) !! Payment.orderId pay = Some o →
  IPaymentStrategy.refundPayment (strategyOf env (Payment.provider pay)) tid amount
  = Ok result →
  rr_success result = true →
  positiveQuantities (Order.items o) →
  sufficientStock (products (db w)) (Order.items o) →
  signedEvent env payload signature event →
  ev_type event = "payment_intent.succeeded" →
  pi_id (ev_object event) = tid →
  ∃ pay' w1 w2,
    PaymentService.refundPayment env pid amount w = (Ok pay', w1)
    ∧ paymentStatusOf w1 pid = Some PaymentStatus.FAILED
    ∧ stockUnchanged w w1
    ∧ PaymentService.handleStripeWebhook env payload signature w1
      = (Ok {| PaymentService.received := true |}, w2)
    ∧ settled w2 pid (Payment.orderId pay)
    ∧ decrementedOnce (Order.items o) w w2.
Proof.
  intros Hpay Hst Htid Hne Huniq Ho Hr Hok Hpos Hsuf Hsigned Htype Hid.
  rewrite (refundPayment_start env w pid pay tid amount) by done.
  simpl. rewrite Hr, Hok, Ho.
  set (pay1 := refundedPayment env pay o amount result).
  set (w1 := withDb _ _).
  assert (Hfind : payment_findFirst (pi_id (ev_object event))
                    (db (logged (CallConstructEvent payload signature) w1))
                  = Some (pid, pay1)).
  { rewrite Hid. apply payment_findFirst_unique.
    - by eapply (transactionId_unique_update (db w) _ pid pay pay1).
    - simpl. apply lookup_insert_eq.
    - done. }
  destruct (handlePaymentSuccess_settles env (ev_object event)
              (logged (CallConstructEvent payload signature) w1) pid pay1 o)
    as (pay2 & Hst2 & _ & _ & Hrun); [done | done | done | done | done |].
  assert (Hweb : PaymentService.handleStripeWebhook env payload signature w1
                 = (Ok {| PaymentService.received := true |},
                    (PaymentService.handlePaymentSuccess env (ev_object event)
                       (logged (CallConstructEvent payload signature) w1)).2)).
  { rewrite (handleStripeWebhook_dispatch _ _ _ event) by done.
    unfold dispatch. rewrite Htype. simpl. by rewrite Hrun. }
  eexists pay1, w1, _. split_and!; [reflexivity | | | exact Hweb | |].
  - unfold paymentStatusOf. simpl. by rewrite lookup_insert_eq.
  - by intros k.
  - rewrite Hrun. by apply settled_intro.
  - rewrite Hrun. by apply decrementedOnce_intro.
Qed.

Lemma refund_then_succeeded_event_settles_again_witness :
  ∃ pay' w1 w2,
    PaymentService.refundPayment Sample.env "pay-1" None
      (Sample.world 7 3 OrderStatus.PAID PaymentProvider.STRIPE PaymentStatus.SUCCESS)
    = (Ok pay', w1)
    ∧ PaymentService.handleStripeWebhook Sample.env "payment_intent.succeeded" "valid" w1
      = (Ok {| PaymentService.received := true |}, w2)
    ∧ decrementedOnce [Sample.line "p1" 3]
        (Sample.world 7 3 OrderStatus.PAID PaymentProvider.STRIPE PaymentStatus.SUCCESS)
        w2.
Proof.
  destruct (refund_then_succeeded_event_settles_again Sample.env
              (Sample.world 7 3 OrderStatus.PAID PaymentProvider.STRIPE
                 PaymentStatus.SUCCESS)
              "pay-1" (Sample.payment PaymentProvider.STRIPE PaymentStatus.SUCCESS)
              "pi_1" (Sample.order OrderStatus.PAID [Sample.line "p1" 3]) None
              {| rr_success := true; rr_refundId := Some "re_pi_1" |}
              "payment_intent.succeeded" "valid"
              {| ev_type := "payment_intent.succeeded"; ev_object := Sample.succeeded |})
    as (pay' & w1 & w2 & Hrefund & _ & _ & Hweb & _ & Hdec).
  - reflexivity.
  - reflexivity.
  - reflexivity.
  - discriminate.
  - apply Sample_transactionId_unique.
  - reflexivity.
  - reflexivity.
  - reflexivity.
  - apply Sample_positiveQuantities. lia.
  - apply Sample_sufficientStock. lia.
  - apply Sample_signedEvent.
  - reflexivity.
  - reflexivity.
  - exists pay', w1, w2. split_and!; [exact Hrefund | exact Hweb | exact Hdec].
Defined.

(** ** OrderService.createOrder: what it refuses *)



(** X21.  A cart that names a product twice is refused with "One or more
    products not found" even when every product exists, and a cart that
    fails the schema -- empty, or with a quantity below 1 or a product id
    that is no UUID -- is refused by the schema; the world is untouched. *)
Theorem createOrder_refuses_malformed_cart env w userId data :
  (schemaValid env data → ¬ NoDup (dto_productId <$> dto_items data) →
     OrderService.createOrder env userId data w
     = (Throw (NotFoundError "One or more products not found"), w))
  ∧ (dto_items data = []
     ∨ Exists (λ item, dto_quantity item ≤ 0 ∨ isUUID env (dto_productId item) = false)
         (dto_items data) →
     OrderService.createOrder env userId data w = (Throw ZodError, w)).
Proof.
  rewrite createOrder_eq. unfold createOrder_result. split.
  - intros Hvalid Hdup. apply schemaValid_parse in Hvalid. rewrite Hvalid.
    destruct (length _ =? length _)%nat eqn:Hlen; [|done].
    by apply Nat.eqb_eq, product_findMany_all_found in Hlen as [Hnd _].
  - intros Hbad.
    destruct (forallb _ _ && _) eqn:Hzod; [|done].
    apply schemaValid_parse in Hzod as [Hne Hall].
    destruct Hbad as [Hnil | Hbad]; [done|].
    apply Exists_exists in Hbad as (item & Hitem & Hbad).
    destruct (Hall item Hitem) as [Hu Hq].
    destruct Hbad as [Hle | Hnu]; [lia | congruence].
Qed.

Lemma createOrder_refuses_malformed_cart_witness :
  OrderService.createOrder Sample.env "user-1"
    {| dto_items := [ {| dto_productId := Scenario.productId; dto_quantity := 1 |};
                      {| dto_productId := Scenario.productId; dto_quantity := 2 |} ] |}
    Scenario.shop
  = (Throw (NotFoundError "One or more products not found"), Scenario.shop).
Proof.
  apply (proj1 (createOrder_refuses_malformed_cart Sample.env Scenario.shop "user-1"
                  {| dto_items :=
                       [ {| dto_productId := Scenario.productId; dto_quantity := 1 |};
                         {| dto_productId := Scenario.productId; dto_quantity := 2 |} ] |})).
  - split; [done|]. intros item Hitem. simpl in Hitem.
    apply elem_of_cons in Hitem as [->|Hitem]; [done|].
    apply list_elem_of_singleton in Hitem. by subst.
  - simpl. intros Hnd. apply NoDup_cons in Hnd as [Hnotin _].
    apply Hnotin. left.
Defined.

(** ** OrderService.cancelOrder and the admin operations *)

(** X22.  [cancelOrder] cancels PENDING orders only: a PENDING order is
    stored CANCELED; an order in any other status is refused with the
    validation error naming its status, and an unknown id with the not-found
    error, the world untouched.  It is stricter than the status update, which
    does cancel a PAID order. *)
Theorem cancelOrder_cancels_pending_only w orderId :
  (∀ o, orders (db w) !! orderId = Some o →
     (Order.status o = OrderStatus.PENDING →
        OrderService.cancelOrder orderId w
        = (Ok (Order.set_status OrderStatus.CANCELED o),
           withDb (set_orders
                     (<[orderId := Order.set_status OrderStatus.CANCELED o]>
                        (orders (db w))) (db w)) w))
     ∧ (Order.status o ≠ OrderStatus.PENDING →
        OrderService.cancelOrder orderId w
        = (Throw (ValidationError
             ("Cannot cancel order with status " +:+ OrderStatus.toString (Order.status o)
              +:+ ". Only PENDING orders can be cancelled.")), w))
     ∧ (Order.status o = OrderStatus.PAID →
        orderStatusOf (OrderService.cancelOrder orderId w).2 orderId
        = Some OrderStatus.PAID
        ∧ orderStatusOf
            (OrderService.updateOrderStatus orderId OrderStatus.CANCELED w).2 orderId
          = Some OrderStatus.CANCELED))
  ∧ (orders (db w) !! orderId = None →
     OrderService.cancelOrder orderId w
     = (Throw (NotFoundError ("Order " +:+ orderId +:+ " not found")), w)).
Proof.
  split.
  - intros o Ho.
    assert (Hrefuse : Order.status o ≠ OrderStatus.PENDING →
              OrderService.cancelOrder orderId w
              = (Throw (ValidationError
                   ("Cannot cancel order with status "
                    +:+ OrderStatus.toString (Order.status o)
                    +:+ ". Only PENDING orders can be cancelled.")), w)).
    { intros Hst.
      unfold OrderService.cancelOrder, OrderService.getOrderById, mbind, M_bind, getDb.
      simpl. rewrite Ho. simpl. by destruct (Order.status o). }
    split_and!; [|done|].
    + intros Hst.
      unfold OrderService.cancelOrder, OrderService.getOrderById, mbind, M_bind, getDb.
      simpl. rewrite Ho. simpl. rewrite Hst. simpl.
      by rewrite (order_update_status_ok _ _ o).
    + intros Hst. split.
      * rewrite Hrefuse by by rewrite Hst.
        unfold orderStatusOf. simpl. rewrite Ho. simpl. by rewrite Hst.
      * unfold OrderService.updateOrderStatus, OrderService.getOrderById,
          mbind, M_bind, getDb. simpl. rewrite Ho. simpl. rewrite Hst. simpl.
        rewrite (order_update_status_ok _ _ o) by done.
        unfold orderStatusOf. simpl. by rewrite lookup_insert_eq.
  - intros Ho.
    unfold OrderService.cancelOrder, OrderService.getOrderById, mbind, M_bind, getDb.
    simpl. by rewrite Ho.
Qed.

Lemma cancelOrder_cancels_pending_only_witness :
  orderStatusOf
    (OrderService.cancelOrder "order-1"
       (Sample.world 7 3 OrderStatus.PAID PaymentProvider.STRIPE PaymentStatus.SUCCESS)).2
    "order-1" = Some OrderStatus.PAID
  ∧ orderStatusOf
      (OrderService.updateOrderStatus "order-1" OrderStatus.CANCELED
         (Sample.world 7 3 OrderStatus.PAID PaymentProvider.STRIPE
            PaymentStatus.SUCCESS)).2
      "order-1" = Some OrderStatus.CANCELED.
Proof.
  apply (proj2 (proj2 (proj1 (cancelOrder_cancels_pending_only
           (Sample.world 7 3 OrderStatus.PAID PaymentProvider.STRIPE
              PaymentStatus.SUCCESS) "order-1")
           (Sample.order OrderStatus.PAID [Sample.line "p1" 3]) eq_refl))).
  reflexivity.
Defined.

Lemma order_update_status_keeps_rest id s w r w' :
  order_update_status id s w = (r, w') →
  ∀ k, k ≠ id → orders (db w') !! k = orders (db w) !! k.
Proof.
  unfold order_update_status, mbind, M_bind, getDb, putDb, throw. simpl.
  destruct (orders (db w) !! id); intros [= <- <-] k Hk; [|done].
  simpl. by rewrite lookup_insert_ne.
Qed.

Lemma updateOrderStatus_writes orderId requested w :
  (OrderService.updateOrderStatus orderId requested w).2 = w
  ∨ ∃ r, order_update_status orderId requested w
         = (r, (OrderService.updateOrderStatus orderId requested w).2).
Proof.
  unfold OrderService.updateOrderStatus, OrderService.getOrderById,
    mbind, M_bind, getDb. simpl.
  destruct (orders (db w) !! orderId) as [o|]; simpl; [|by left].
  destruct (negb _); simpl; [by left|].
  destruct (order_update_status orderId requested w) as [r w1].
  right. by exists r.
Qed.

Lemma cancelOrder_writes orderId w :
  (OrderService.cancelOrder orderId w).2 = w
  ∨ ∃ r, order_update_status orderId OrderStatus.CANCELED w
         = (r, (OrderService.cancelOrder orderId w).2).
Proof.
  unfold OrderService.cancelOrder, OrderService.getOrderById,
    mbind, M_bind, getDb. simpl.
  destruct (orders (db w) !! orderId) as [o|]; simpl; [|by left].
  destruct (negb _); simpl; [by left|].
  destruct (order_update_status orderId OrderStatus.CANCELED w) as [r w1].
  right. by exists r.
Qed.

(** X23.  The admin operations only ever write the status of the one
    order: for every order id, requested status and store, after
    [updateOrderStatus] and after [cancelOrder] all product stocks, all
    payments and all other orders are as before, and the order's own lines,
    total and user are unchanged.  In particular cancelling a PAID order
    through the status update does not give its stock back. *)
Theorem admin_operations_write_one_status w orderId requested w' :
  w' = (OrderService.updateOrderStatus orderId requested w).2
  ∨ w' = (OrderService.cancelOrder orderId w).2 →
  products (db w') = products (db w)
  ∧ payments (db w') = payments (db w)
  ∧ (∀ k, k ≠ orderId → orders (db w') !! k = orders (db w) !! k)
  ∧ (∀ o, orders (db w) !! orderId = Some o →
       ∃ s, orders (db w') !! orderId = Some (Order.set_status s o)).
Proof.
  intros Hw'.
  assert (Hcases : w' = w ∨ ∃ s r, order_update_status orderId s w = (r, w')).
  { destruct Hw' as [-> | ->].
    - destruct (updateOrderStatus_writes orderId requested w) as [-> | [r Hr]];
        [by left | right; by exists requested, r].
    - destruct (cancelOrder_writes orderId w) as [-> | [r Hr]];
        [by left | right; by exists OrderStatus.CANCELED, r]. }
  clear Hw'. destruct Hcases as [-> | (s & r & Hrun)].
  - split_and!; [done..|]. intros o Ho.
    exists (Order.status o). rewrite Ho. by destruct o.
  - pose proof (order_update_status_keeps_rest _ _ _ _ _ Hrun) as Hrest.
    pose proof (order_update_status_frame _ _ _ _ _ Hrun) as (Hp & Hpay & _).
    split_and!; [done..|]. intros o Ho.
    rewrite (order_update_status_ok _ _ o) in Hrun by done.
    injection Hrun as _ <-. exists s. simpl. by rewrite lookup_insert_eq.
Qed.

Lemma admin_operations_write_one_status_witness :
  products (db (OrderService.updateOrderStatus "order-1" OrderStatus.CANCELED
                  (Sample.world 7 3 OrderStatus.PAID PaymentProvider.STRIPE
                     PaymentStatus.SUCCESS)).2)
  = products (db (Sample.world 7 3 OrderStatus.PAID PaymentProvider.STRIPE
                    PaymentStatus.SUCCESS)).
Proof.
  refine (proj1 (admin_operations_write_one_status
            (Sample.world 7 3 OrderStatus.PAID PaymentProvider.STRIPE PaymentStatus.SUCCESS)
            "order-1" OrderStatus.CANCELED _ _)).
  left. reflexivity.
Defined.

(** ** From initiation to settled order *)

Lemma payment_findFirst_new tid d pid pay :
  (∀ k p, payments d !! k = Some p → Payment.transactionId p ≠ Some tid) →
  Payment.transactionId pay = Some tid →
  payment_findFirst tid (set_payments (<[pid := pay]> (payments d)) d) = Some (pid, pay).
Proof.
  intros Hnone Htid.
  destruct (payment_findFirst tid _) as [[k p]|] eqn:Hfind.
  - apply payment_findFirst_Some in Hfind as [Hk Hp]. simpl in Hk.
    destruct (decide (k = pid)) as [->|Hne].
    + rewrite lookup_insert_eq in Hk. by simplify_eq.
    + rewrite lookup_insert_ne in Hk by done. by destruct (Hnone k p).
  - exfalso. unfold payment_findFirst in Hfind.
    pose proof (find_none _ _ Hfind (pid, pay)) as Hno.
    unfold has_transactionId in Hno. simpl in Hno. rewrite Htid in Hno.
    rewrite String.eqb_refl in Hno.
    assert (true = false); [|done].
    apply Hno, list_elem_of_In, elem_of_map_to_list. simpl. apply lookup_insert_eq.
Qed.

(** X24.  Initiation followed by the webhook: for a stored order without
    payment whose lines have positive quantities and sufficient stock, a free
    generated payment id, and a provider that accepts the payment and
    returns a payment id no stored payment carries, [initiatePayment] and
    then [handleStripeWebhook] with the signed [payment_intent.succeeded]
    event for that payment id both succeed; afterwards the payment that was
    created is SUCCESS, the order is PAID, and every product has lost exactly
    the units the order's lines order of it. *)
Theorem initiate_then_webhook_settles_order
    env w orderId o providerArg name strategy result tid payload signature event :
  let provider := default "stripe" providerArg in
  orders (db w) !! orderId = Some o →
  unpaidOrder (db w) orderId →
  positiveQuantities (Order.items o) →
  sufficientStock (products (db w)) (Order.items o) →
  PaymentStrategyFactory.getStrategy env provider = Ok (name, strategy) →
  IPaymentStrategy.initiatePayment strategy (initiateData env orderId provider o)
  = Ok result →
  pr_success result = true →
  pr_paymentId result = Some tid →
  payments (db w) !! uuid env (fresh w) = None →
  (∀ k p, payments (db w) !! k = Some p → Payment.transactionId p ≠ Some tid) →
  signedEvent env payload signature event →
  ev_type event = "payment_intent.succeeded" →
  pi_id (ev_object event) = tid →
  ∃ response w1 w2,
    PaymentService.initiatePayment env orderId providerArg w = (Ok response, w1)
    ∧ PaymentService.handleStripeWebhook env payload signature w1
      = (Ok {| PaymentService.received := true |}, w2)
    ∧ settled w2 (PaymentService.ir_paymentId response) orderId
    ∧ decrementedOnce (Order.items o) w w2.
Proof.
  intros provider Ho Hunpaid Hpos Hsuf Hget Hinit Hok Htid Hfree Hnew
    Hsigned Htype Hid.
  set (pid := uuid env (fresh w)) in *.
  set (pay := initiatedPayment env orderId provider result).
  set (w1 := {| db := set_payments (<[pid := pay]> (payments (db w))) (db w);
                calls := (calls w
                          ++ [CallInitiate name (initiateData env orderId provider o)])%list;
                fresh := S (fresh w) |}).
  assert (Hpay : PaymentService.initiatePayment env orderId providerArg w
                 = (Ok {| PaymentService.ir_paymentId := pid;
                          PaymentService.ir_clientSecret := pr_clientSecret result;
                          PaymentService.ir_redirectUrl := pr_redirectUrl result |}, w1)).
  { by apply (initiatePayment_accepted env w orderId providerArg o name strategy result). }
  set (w1' := logged (CallConstructEvent payload signature) w1).
  assert (Hfind : payment_findFirst (pi_id (ev_object event)) (db w1') = Some (pid, pay)).
  { rewrite Hid. apply (payment_findFirst_new tid (db w) pid pay); [exact Hnew | exact Htid]. }
  destruct (handlePaymentSuccess_settles env (ev_object event) w1' pid pay o Hfind)
    as (pay' & Hst' & _ & _ & Hrun); [done | exact Ho | exact Hpos | exact Hsuf |].
  eexists _, w1, _. split_and!.
  - exact Hpay.
  - rewrite (handleStripeWebhook_dispatch env payload signature event w1 Hsigned).
    unfold dispatch. rewrite Htype. simpl. fold w1'. rewrite Hrun. reflexivity.
  - simpl. by apply settled_intro.
  - by apply decrementedOnce_intro.
Qed.

Lemma initiate_then_webhook_settles_order_witness :
  ∃ response w1 w2,
    PaymentService.initiatePayment Sample.env "id-0" None Scenario.w1 = (Ok response, w1)
    ∧ PaymentService.handleStripeWebhook Sample.env
        "payment_intent.succeeded:pi_id-0" "valid" w1
      = (Ok {| PaymentService.received := true |}, w2)
    ∧ settled w2 (PaymentService.ir_paymentId response) "id-0"
    ∧ decrementedOnce [Sample.line "p1" 3] Scenario.w1 w2.
Proof.
  apply (initiate_then_webhook_settles_order Sample.env Scenario.w1 "id-0"
           (Scenario.orderOf "user-1") None "stripe" (Sample.strategy true true)
           {| pr_success := true; pr_paymentId := Some "pi_id-0";
              pr_clientSecret := Some "secret"; pr_redirectUrl := None;
              pr_error := None |}
           "pi_id-0" "payment_intent.succeeded:pi_id-0" "valid"
           {| ev_type := "payment_intent.succeeded";
              ev_object := {| pi_id := "pi_id-0"; pi_amount := 3000;
                              pi_status := "succeeded";
                              pi_last_payment_error := JNull |} |}).
  - reflexivity.
  - apply Sample_unpaid.
  - intros item Hitem. apply list_elem_of_singleton in Hitem. subst. simpl. lia.
  - intros item Hitem. apply list_elem_of_singleton in Hitem. subst.
    exists (Sample.widget 5). split; [reflexivity | simpl; lia].
  - reflexivity.
  - reflexivity.
  - reflexivity.
  - reflexivity.
  - reflexivity.
  - intros k p Hp. clear -Hp. vm_compute in Hp. discriminate.
  - eexists. split; reflexivity.
  - reflexivity.
  - reflexivity.
Defined.

(** * CategoryService: the category tree *)

Lemma CategoryNode_ind' (P : CategoryNode.t → Prop) :
  (∀ i n p, P (CategoryNode.mk i n p None)) →
  (∀ i n p cs, Forall P cs → P (CategoryNode.mk i n p (Some cs))) →
  ∀ node, P node.
Proof.
  intros Hleaf Hnode. fix IH 1. intros [i n p [cs|]]; [|apply Hleaf].
  apply Hnode. induction cs as [|c cs IHcs]; constructor; [apply IH | exact IHcs].
Qed.

Lemma dfsTraversal_forest cs : ∀ result,
  Forall (λ c, ∀ result,
            CategoryService.dfsTraversal c result = (result ++ subtreeIds c)%list) cs →
  fold_left (λ result child, CategoryService.dfsTraversal child result) cs result
  = (result ++ forestIds cs)%list.
Proof.
  induction cs as [|c cs IH]; intros result Hall; simpl.
  - by rewrite app_nil_r.
  - apply Forall_cons in Hall as [Hc Hcs].
    rewrite Hc, IH by done. unfold forestIds. rewrite fmap_cons. simpl.
    by rewrite app_assoc.
Qed.

Lemma dfsTraversal_subtreeIds node : ∀ result,
  CategoryService.dfsTraversal node result = (result ++ subtreeIds node)%list.
Proof.
  induction node as [i n p | i n p cs IH] using CategoryNode_ind'; intros result.
  - done.
  - simpl. destruct cs as [|c cs]; [done|].
    change (0 <? length (c :: cs))%nat with true. cbv iota.
    rewrite dfsTraversal_forest by done.
    rewrite <- app_assoc. done.
Qed.

(** X25.  [dfsTraversal] only appends: whatever the array held stays in
    front, and what is added is the subtree's ids in preorder -- the node's
    own id first, then each child's subtree from left to right -- so the
    array grows by exactly the number of nodes of the subtree. *)
Theorem dfsTraversal_appends_preorder node result :
  CategoryService.dfsTraversal node result = (result ++ subtreeIds node)%list
  ∧ (∃ below, subtreeIds node = CategoryNode.id node :: below)
  ∧ length (CategoryService.dfsTraversal node result)
    = (length result + length (subtreeIds node))%nat.
Proof.
  pose proof (dfsTraversal_subtreeIds node result) as Hdfs.
  split_and!; [done | |].
  - destruct node; by eexists.
  - by rewrite Hdfs, length_app.
Qed.

Lemma inSubtree_child n i nm p cs c :
  c ∈ cs → inSubtree n c → inSubtree n (CategoryNode.mk i nm p (Some cs)).
Proof.
  intros Hc Hn. right. simpl. induction cs as [|x cs IH]; [by apply elem_of_nil in Hc|].
  simpl. apply elem_of_cons in Hc as [->|Hc]; [by left | right; by apply IH].
Qed.

Lemma forReturn_Some {A B} (body : A → option B) xs b :
  forReturn body xs = Some b → ∃ x, x ∈ xs ∧ body x = Some b.
Proof.
  induction xs as [|x xs IH]; simpl; [done|].
  destruct (body x) as [b'|] eqn:Hx.
  - intros [= <-]. exists x. split; [left | done].
  - intros Hrest. destruct (IH Hrest) as (y & Hy & Hb). exists y. split; [by right | done].
Qed.

Lemma forReturn_None {A B} (body : A → option B) xs :
  forReturn body xs = None ↔ Forall (λ x, body x = None) xs.
Proof.
  induction xs as [|x xs IH]; simpl; [by split; [constructor|]|].
  rewrite Forall_cons. destruct (body x) as [b|]; [|by rewrite IH; intuition].
  split; [done | by intros [? _]].
Qed.

Lemma findCategoryInTree_body_Some targetId node : ∀ n,
  CategoryService.findCategoryInTree_body targetId node = Some n →
  CategoryNode.id n = targetId ∧ inSubtree n node.
Proof.
  induction node as [i nm p | i nm p cs IH] using CategoryNode_ind'; intros n; simpl.
  - destruct (String.eqb i targetId) eqn:Heq; [|done].
    intros [= <-]. apply String.eqb_eq in Heq. split; [done | by left].
  - destruct (String.eqb i targetId) eqn:Heq.
    + intros [= <-]. apply String.eqb_eq in Heq. split; [done | by left].
    + destruct (0 <? length cs)%nat; [|done].
      intros Hfound. apply forReturn_Some in Hfound as (c & Hc & Hfound).
      destruct (proj1 (Forall_forall _ _) IH c Hc n Hfound) as [Hid Hin].
      split; [done|]. by eapply inSubtree_child.
Qed.

Lemma findCategoryInTree_body_None targetId node :
  CategoryService.findCategoryInTree_body targetId node = None ↔
  targetId ∉ subtreeIds node.
Proof.
  induction node as [i nm p | i nm p cs IH] using CategoryNode_ind'; simpl.
  - rewrite not_elem_of_cons.
    destruct (String.eqb i targetId) eqn:Heq.
    + apply String.eqb_eq in Heq. split; [done | by intros [? _]].
    + apply String.eqb_neq in Heq. split; [|done]. intros _. split; [done|].
      apply not_elem_of_nil.
  - rewrite not_elem_of_cons.
    destruct (String.eqb i targetId) eqn:Heq.
    + apply String.eqb_eq in Heq. split; [done | by intros [? _]].
    + apply String.eqb_neq in Heq.
      assert (Hcs : forReturn (CategoryService.findCategoryInTree_body targetId) cs = None
                    ↔ targetId ∉ concat (subtreeIds <$> cs)).
      { rewrite forReturn_None. clear Heq.
        induction cs as [|c cs IHcs]; simpl.
        - split; [intros _; apply not_elem_of_nil | constructor].
        - apply Forall_cons in IH as [Hc Hrest].
          rewrite Forall_cons, not_elem_of_app, Hc, (IHcs Hrest). done. }
      destruct cs as [|c cs].
      * simpl. split; [|done]. intros _. split; [done | apply not_elem_of_nil].
      * change (0 <? length (c :: cs))%nat with true. cbv iota.
        rewrite Hcs. split; [by split | by intros [_ ?]].
Qed.

Lemma inSubtree_ids n node :
  inSubtree n node → ∀ x, x ∈ subtreeIds n → x ∈ subtreeIds node.
Proof.
  induction node as [i nm p | i nm p cs IH] using CategoryNode_ind'.
  - intros [-> | []]. done.
  - intros [-> | Hbelow]; [done|]. intros x Hx. simpl. right.
    simpl in Hbelow. induction cs as [|c cs IHcs]; [done|].
    apply Forall_cons in IH as [Hc Hrest]. simpl. apply elem_of_app.
    destruct Hbelow as [Hin | Hbelow]; [left; by apply Hc | right; by apply IHcs].
Qed.

Lemma elem_of_concat_fmap {A B} (f : A → list B) xs x y :
  x ∈ xs → y ∈ f x → y ∈ concat (f <$> xs).
Proof.
  intros Hx Hy. induction xs as [|z xs IH]; [by apply elem_of_nil in Hx|].
  rewrite fmap_cons. simpl. apply elem_of_app.
  apply elem_of_cons in Hx as [->|Hx]; [by left | right; by apply IH].
Qed.

(** X26.  [findCategoryInTree] finds a node exactly when the id occurs in
    the forest: it returns null if and only if no node of the forest has
    the target id, and a node it returns has the target id and is a node of
    the forest, so its subtree lies inside the forest. *)
Theorem findCategoryInTree_finds_exactly_present_ids nodes targetId :
  (CategoryService.findCategoryInTree nodes targetId = None
   ↔ targetId ∉ forestIds nodes)
  ∧ (∀ n, CategoryService.findCategoryInTree nodes targetId = Some n →
       CategoryNode.id n = targetId
       ∧ inForest n nodes
       ∧ ∀ x, x ∈ subtreeIds n → x ∈ forestIds nodes).
Proof.
  unfold CategoryService.findCategoryInTree, forestIds, inForest. split.
  - rewrite forReturn_None. induction nodes as [|c cs IH]; simpl.
    + split; [intros _; apply not_elem_of_nil | constructor].
    + by rewrite Forall_cons, not_elem_of_app, findCategoryInTree_body_None, IH.
  - intros n Hfound. apply forReturn_Some in Hfound as (c & Hc & Hfound).
    apply findCategoryInTree_body_Some in Hfound as [Hid Hin].
    split_and!; [done | |].
    + apply Exists_exists. by exists c.
    + intros x Hx. apply (elem_of_concat_fmap subtreeIds nodes c); [done|].
      by eapply inSubtree_ids.
Qed.

(** X27.  For a category that exists, [getDescendantCategoryIds] returns a
    list that starts with the category's own id, whatever tree the cache
    holds; the ids after it are ids of the tree, and there are none if the
    tree does not contain the category.  For a category that does not exist
    it throws the not-found error. *)
Theorem getDescendantCategoryIds_starts_with_category
    {Category : Type} (category : option Category) tree categoryId :
  (is_Some category →
   ∃ below,
     CategoryService.getDescendantCategoryIds category tree categoryId
     = Ok (categoryId :: below)
     ∧ (∀ x, x ∈ below → x ∈ forestIds tree)
     ∧ (categoryId ∉ forestIds tree → below = []))
  ∧ (category = None →
     CategoryService.getDescendantCategoryIds category tree categoryId
     = Throw (NotFoundError "Category not found")).
Proof.
  split; [|by intros ->].
  intros [c ->]. unfold CategoryService.getDescendantCategoryIds.
  destruct (CategoryService.findCategoryInTree tree categoryId) as [n|] eqn:Hfind.
  - unfold CategoryService.findCategoryInTree in Hfind.
    pose proof Hfind as Hsome.
    apply forReturn_Some in Hfind as (root & Hroot & Hfound).
    apply findCategoryInTree_body_Some in Hfound as [Hid Hin].
    rewrite dfsTraversal_subtreeIds. simpl.
    destruct n as [i nm p cs]. simpl in Hid. subst i. simpl.
    eexists. split; [reflexivity|]. split.
    + intros x Hx. apply (elem_of_concat_fmap subtreeIds tree root); [done|].
      eapply inSubtree_ids; [exact Hin|]. simpl. by right.
    + intros Hnot. exfalso.
      assert (forReturn (CategoryService.findCategoryInTree_body categoryId) tree = None)
        as Hnone; [|congruence].
      apply forReturn_None, Forall_forall. intros r Hr.
      apply findCategoryInTree_body_None. intros Hin'. apply Hnot.
      by apply (elem_of_concat_fmap subtreeIds tree r).
  - exists []. split_and!; [done | | done]. intros x Hx. by apply elem_of_nil in Hx.
Qed.

Lemma getDescendantCategoryIds_starts_with_category_witness :
  ∃ below,
    CategoryService.getDescendantCategoryIds (Some tt) sampleTree "phones"
    = Ok ("phones" :: below)
    ∧ (∀ x, x ∈ below → x ∈ forestIds sampleTree)
    ∧ ("phones" ∉ forestIds sampleTree → below = []).
Proof.
  apply (proj1 (getDescendantCategoryIds_starts_with_category (Some tt) sampleTree
                  "phones")).
  by exists tt.
Defined.

Lemma findCategoryInTree_finds_exactly_present_ids_witness :
  CategoryNode.id (CategoryNode.mk "android" "Android" (Some "phones") (Some []))
  = "android"
  ∧ inForest (CategoryNode.mk "android" "Android" (Some "phones") (Some [])) sampleTree
  ∧ ∀ x, x ∈ subtreeIds (CategoryNode.mk "android" "Android" (Some "phones") (Some []))
         → x ∈ forestIds sampleTree.
Proof.
  apply (proj2 (findCategoryInTree_finds_exactly_present_ids sampleTree "android")).
  reflexivity.
Defined.

(** * BkashPaymentStrategy: the cached token *)

(** X28.  A token the endpoint granted is handed out again, without a new
    request and whatever the endpoint would answer, at every later moment
    that is more than five minutes before its expiry ([now + expires_in]
    seconds); from five minutes before the expiry on, the next call sends a
    new request. *)
Theorem getToken_reuses_token_until_five_minutes_before_expiry
    now response this now' post' :
  let this1 := (BkashPaymentStrategy.getToken now (Some response) this).2 in
  BkashPaymentStrategy.requests this1 = S (BkashPaymentStrategy.requests this) →
  BkashPaymentStrategy.id_token response ≠ EmptyString →
  (now' + 300000 < now + BkashPaymentStrategy.expires_in response * 1000 →
     BkashPaymentStrategy.getToken now' post' this1
     = (Ok (BkashPaymentStrategy.id_token response), this1))
  ∧ (now + BkashPaymentStrategy.expires_in response * 1000 ≤ now' + 300000 →
     BkashPaymentStrategy.requests (BkashPaymentStrategy.getToken now' post' this1).2
     = S (BkashPaymentStrategy.requests this1)).
Proof.
  intros this1 Hreq Hne.
  assert (Hthis1 : this1 = (BkashPaymentStrategy.requestToken now (Some response) this).2).
  { subst this1. unfold BkashPaymentStrategy.getToken in *.
    destruct (BkashPaymentStrategy.token this) as [cached|]; [|done].
    destruct (truthy _ && _); [|done]. simpl in Hreq. lia. }
  clearbody this1. subst this1. simpl.
  unfold BkashPaymentStrategy.getToken.
  cbn [BkashPaymentStrategy.token BkashPaymentStrategy.tokenExpiry truthy].
  assert (Htruthy : negb (String.eqb (BkashPaymentStrategy.id_token response) EmptyString)
                    = true).
  { apply negb_true_iff, String.eqb_neq, Hne. }
  rewrite Htruthy. cbv iota.
  change (true && ?b) with b.
  split; intros Hlt.
  - destruct (Z.ltb_spec (now' + 5 * 60 * 1000)
                (now + BkashPaymentStrategy.expires_in response * 1000)); [done | lia].
  - destruct (Z.ltb_spec (now' + 5 * 60 * 1000)
                (now + BkashPaymentStrategy.expires_in response * 1000)); [lia|].
    by destruct post'.
Qed.

Lemma getToken_reuses_token_until_five_minutes_before_expiry_witness :
  BkashPaymentStrategy.getToken 3000000 None
    {| BkashPaymentStrategy.token := Some "tok"; BkashPaymentStrategy.tokenExpiry := 3600000;
       BkashPaymentStrategy.requests := 1 |}
  = (Ok "tok",
     {| BkashPaymentStrategy.token := Some "tok"; BkashPaymentStrategy.tokenExpiry := 3600000;
        BkashPaymentStrategy.requests := 1 |}).
Proof.
  apply (proj1 (getToken_reuses_token_until_five_minutes_before_expiry 0
                  {| BkashPaymentStrategy.id_token := "tok";
                     BkashPaymentStrategy.expires_in := 3600 |}
                  (BkashPaymentStrategy.mk None 0 0) 3000000 None eq_refl
                  ltac:(discriminate))).
  reflexivity.
Defined.

(** X29.  One call of [getToken] sends at most one token request.  If it
    answers without a request, the token is the cached one, it is not
    empty, it has more than five minutes left, and nothing was written.  If
    it fails, the error is the payment error "Failed to authenticate with
    bKash", the request had failed, and the cached token and its expiry are
    as before. *)
Theorem getToken_request_discipline now post this r this' :
  BkashPaymentStrategy.getToken now post this = (r, this') →
  (BkashPaymentStrategy.requests this' = BkashPaymentStrategy.requests this
   ∨ BkashPaymentStrategy.requests this' = S (BkashPaymentStrategy.requests this))
  ∧ (BkashPaymentStrategy.requests this' = BkashPaymentStrategy.requests this →
     ∃ tok, r = Ok tok ∧ BkashPaymentStrategy.token this = Some tok
            ∧ tok ≠ EmptyString
            ∧ now + 300000 < BkashPaymentStrategy.tokenExpiry this
            ∧ this' = this)
  ∧ (∀ e, r = Throw e →
       e = PaymentError "Failed to authenticate with bKash"
       ∧ post = None
       ∧ BkashPaymentStrategy.token this' = BkashPaymentStrategy.token this
       ∧ BkashPaymentStrategy.tokenExpiry this' = BkashPaymentStrategy.tokenExpiry this).
Proof.
  unfold BkashPaymentStrategy.getToken.
  assert (Hrequest : ∀ r this',
    BkashPaymentStrategy.requestToken now post this = (r, this') →
    BkashPaymentStrategy.requests this' = S (BkashPaymentStrategy.requests this)
    ∧ (∀ e, r = Throw e →
         e = PaymentError "Failed to authenticate with bKash"
         ∧ post = None
         ∧ BkashPaymentStrategy.token this' = BkashPaymentStrategy.token this
         ∧ BkashPaymentStrategy.tokenExpiry this'
           = BkashPaymentStrategy.tokenExpiry this)).
  { intros r0 t0. unfold BkashPaymentStrategy.requestToken.
    destruct post; intros [= <- <-]; (split; [done|]); intros e He; by simplify_eq. }
  destruct (BkashPaymentStrategy.token this) as [cached|] eqn:Htok.
  - destruct (truthy (Some cached) && _) eqn:Hfresh.
    + intros [= <- <-]. apply andb_prop in Hfresh as [Htruthy Hlt].
      split_and!; [by left | | done].
      intros _. exists cached. split_and!; [done | done | | | done].
      * simpl in Htruthy. by apply negb_true_iff, String.eqb_neq in Htruthy.
      * apply Z.ltb_lt in Hlt. lia.
    + intros Hrun. destruct (Hrequest _ _ Hrun) as [Hreq Hthrow].
      split_and!; [by right | lia | done].
  - intros Hrun. destruct (Hrequest _ _ Hrun) as [Hreq Hthrow].
    split_and!; [by right | lia | done].
Qed.

Lemma getToken_request_discipline_witness :
  BkashPaymentStrategy.requests
    {| BkashPaymentStrategy.token := Some "tok"; BkashPaymentStrategy.tokenExpiry := 3600000;
       BkashPaymentStrategy.requests := 2 |} = 1%nat
  ∨ BkashPaymentStrategy.requests
      {| BkashPaymentStrategy.token := Some "tok"; BkashPaymentStrategy.tokenExpiry := 3600000;
         BkashPaymentStrategy.requests := 2 |} = 2%nat.
Proof.
  apply (proj1 (getToken_request_discipline 3400000 None
                  {| BkashPaymentStrategy.token := Some "tok";
                     BkashPaymentStrategy.tokenExpiry := 3600000;
                     BkashPaymentStrategy.requests := 1 |}
                  (Throw (PaymentError "Failed to authenticate with bKash"))
                  {| BkashPaymentStrategy.token := Some "tok";
                     BkashPaymentStrategy.tokenExpiry := 3600000;
                     BkashPaymentStrategy.requests := 2 |} eq_refl)).
Defined.
